(** * Position-lifecycle risk engine: a shallow embedding

    The development follows the TypeScript sources:
    - [src/utils/types.ts]                -> [Module Types]
    - [src/PositionTracker.ts]            -> [Module PositionTracker]
    - class [DynamicPositionSizer]        -> [Module DynamicPositionSizer]
    - class [RiskManager]                 -> [Module RiskManager]
    - class [TradingBot] of [src/index.ts] -> [Module TradingBot]

    Number model.  A TypeScript [number] that carries a price, a volume,
    a profit or a ratio is an exact rational ([Q], compared with [==]);
    a counter that the code only ever increments from 0 is a [Z].
    Rounding, NaN and the infinities of IEEE doubles are outside this
    model: a theorem that uses the value of a quotient states that its
    divisor is not zero.  The one quotient whose divisor the class can be
    handed as zero, the Kelly formula of the sizer, is modelled a second
    time with NaN and the infinities ([Module Js],
    [Module DynamicPositionSizerJs]).  [Date.now()] is an explicit
    argument [now].  The logger is an external collaborator and is only
    modelled where a function's contract mentions its notifications. *)

From Stdlib Require Import QArith Qminmax Qabs Lqa ZArith List Bool.
From stdpp Require Import gmap strings.

Local Open Scope Q_scope.

(** ** Comparisons of numbers, as booleans *)

Module Num.

Definition ltb (x y : Q) : bool := negb (Qle_bool y x).
Definition leb (x y : Q) : bool := Qle_bool x y.
Definition gtb (x y : Q) : bool := ltb y x.
Definition geb (x y : Q) : bool := leb y x.

(** [Math.max] and [Math.min] on two arguments. *)
Definition max (x y : Q) : Q := Qmax x y.
Definition min (x y : Q) : Q := Qmin x y.

End Num.

(** ** src/utils/types.ts *)

Module Types.

Inductive Regime := choppy | weak | moderate | strong.
Inductive Status := open | closed.
Inductive LevelStatus := active | level_closed.

(** The literal type [1 | 2]. *)
Inductive Level := L1 | L2.

Definition Level_eqb (a b : Level) : bool :=
  match a, b with
  | L1, L1 | L2, L2 => true
  | _, _ => false
  end.

Record PyramidLevel := mkPyramidLevel {
  level : Level;
  pl_entryPrice : Q;
  pl_volume : Q;
  pl_entryTime : Z;
  triggerProfitPct : Q;
  aiConfidence : Q;
  pl_status : LevelStatus
}.

Record AIDecision := mkAIDecision {
  ai_confidence : Q;
  reasoning : list string
}.

Record Position := mkPosition {
  pair : string;
  entryPrice : Q;
  volume : Q;
  entryTime : Z;
  stopLoss : Q;
  profitTarget : Q;
  pyramidLevels : list PyramidLevel;
  totalVolume : Q;
  pyramidLevelsActivated : Z;
  currentProfit : Q;
  profitPct : Q;
  peakProfit : Q;
  erosionCap : Q;
  erosionUsed : Q;
  aiReasoning : list string;
  adx : Q;
  regime : Regime;
  status : Status;
  exitPrice : option Q;
  exitTime : option Z;
  exitReason : option string
}.

(** In-place assignments to the fields of a [Position] object. *)

Definition set_profit (cur pct : Q) (p : Position) : Position :=
  mkPosition (pair p) (entryPrice p) (volume p) (entryTime p) (stopLoss p)
    (profitTarget p) (pyramidLevels p) (totalVolume p)
    (pyramidLevelsActivated p) cur pct (peakProfit p) (erosionCap p)
    (erosionUsed p) (aiReasoning p) (adx p) (regime p) (status p)
    (exitPrice p) (exitTime p) (exitReason p).

Definition set_peakProfit (pk : Q) (p : Position) : Position :=
  mkPosition (pair p) (entryPrice p) (volume p) (entryTime p) (stopLoss p)
    (profitTarget p) (pyramidLevels p) (totalVolume p)
    (pyramidLevelsActivated p) (currentProfit p) (profitPct p) pk
    (erosionCap p) (erosionUsed p) (aiReasoning p) (adx p) (regime p)
    (status p) (exitPrice p) (exitTime p) (exitReason p).

Definition set_erosionUsed (e : Q) (p : Position) : Position :=
  mkPosition (pair p) (entryPrice p) (volume p) (entryTime p) (stopLoss p)
    (profitTarget p) (pyramidLevels p) (totalVolume p)
    (pyramidLevelsActivated p) (currentProfit p) (profitPct p)
    (peakProfit p) (erosionCap p) e (aiReasoning p) (adx p) (regime p)
    (status p) (exitPrice p) (exitTime p) (exitReason p).

Definition set_pyramid (ls : list PyramidLevel) (tv : Q) (n : Z)
    (p : Position) : Position :=
  mkPosition (pair p) (entryPrice p) (volume p) (entryTime p) (stopLoss p)
    (profitTarget p) ls tv n (currentProfit p) (profitPct p)
    (peakProfit p) (erosionCap p) (erosionUsed p) (aiReasoning p) (adx p)
    (regime p) (status p) (exitPrice p) (exitTime p) (exitReason p).

Definition set_exit (px : Q) (tm : Z) (why : string) (p : Position)
    : Position :=
  mkPosition (pair p) (entryPrice p) (volume p) (entryTime p) (stopLoss p)
    (profitTarget p) (pyramidLevels p) (totalVolume p)
    (pyramidLevelsActivated p) (currentProfit p) (profitPct p)
    (peakProfit p) (erosionCap p) (erosionUsed p) (aiReasoning p) (adx p)
    (regime p) closed (Some px) (Some tm) (Some why).

Record Macd := mkMacd { line : Q; signal : Q; histogram : Q }.

Record Indicators := mkIndicators {
  rsi : Q;
  macd : Macd;
  ind_adx : Q;
  volumeRatio : Q;
  momentum1h : Q;
  momentum4h : Q;
  recentHigh : Q;
  recentLow : Q;
  ema200 : Q
}.

Record MarketData := mkMarketData {
  md_pair : string;
  currentPrice : Q;
  bid : Q;
  ask : Q;
  md_volume : Q;
  indicators : Indicators
}.

(** The fields of [Config] that the risk engine reads. *)
Record Config := mkConfig {
  stopLossPct : Q;
  btcDumpThreshold1h : Q;
  volumeSpikeMax : Q;
  spreadWideningPct : Q;
  minADXForEntry : Q;
  momentumFailureEnabled : bool;
  momentumFailureMinProfit : Q;
  momentum1hFailureThreshold : Q;
  momentum4hFailureThreshold : Q;
  volumeExhaustionThreshold1h : Q;
  volumeExhaustionThreshold4h : Q;
  htfMomentumWeakening : Q;
  priceNearPeakThreshold : Q;
  momentumFailureRequiredSignals : Q;
  aiMinConfidence : Q;
  aiMaxCallsPerHour : Q;
  exchangeFeePct : Q;
  minProfitMultiplier : Q;
  minRiskRewardRatio : Q
}.

(** The fields of [PerformanceStats] that the sizer reads. *)
Record PerformanceStats := mkPerformanceStats {
  st_totalTrades : Z;
  winningTrades : Z;
  losingTrades : Z;
  winRate : Q;
  totalProfit : Q;
  totalLoss : Q
}.

Record CostAnalysis := mkCostAnalysis {
  feePct : Q;
  spreadPct : Q;
  slippagePct : Q;
  totalCostsPct : Q;
  profitTargetPct : Q;
  netEdgePct : Q;
  costFloorPct : Q;
  passesCostFloor : bool;
  riskRewardRatio : Q;
  passesRiskRewardRatio : bool
}.

(** The text of a rejection, as the template that builds it and the
    numbers it prints. *)
Inductive Reason :=
| AIRateLimitExceeded (calls : Z) (limit : Q)
| ChoppyMarket (adx limit : Q)
| BTCDumping (momentum : Q)
| VolumePanicSpike (ratio : Q)
| SpreadWidening (spreadPct : Q)
| PriceAtLocalTop (price high : Q)
| RSIExtremeOverbought (rsi : Q)
| WeakMomentum (m1h m4h : Q)
| AIConfidenceTooLow (confidence limit : Q)
| ProfitBelowCostFloor (target floor : Q)
| RiskRewardBelowMinimum (ratio limit : Q)
| NoNetEdge (edge : Q).

Record RiskFilterResult := mkRiskFilterResult {
  pass : bool;
  reason : option Reason;
  stage : option Z
}.

Record Signals := mkSignals {
  priceActionFailure : bool;
  volumeExhaustion : bool;
  htfBreakdown : bool
}.

(** A line of the detector's reasoning trail. *)
Inductive Note :=
| NotePriceActionFailure (ofPeak m1h threshold : Q)
| NoteStrongReversal (m1h threshold : Q)
| NoteVolumeExhaustion (ratio threshold : Q)
| NoteMomentumWeakening (m4h threshold : Q)
| NoteEMA200Breakdown (price ema : Q)
| NoteExitTriggered (count : Z) (required profit : Q).

Record MomentumFailureResult := mkMomentumFailureResult {
  shouldExit : bool;
  signals : Signals;
  signalCount : Z;
  mf_reasoning : list Note
}.

(** *** Further types of the file *)

Record Candle := mkCandle {
  timestamp : Z;
  c_open : Q;
  high : Q;
  low : Q;
  close : Q;
  c_volume : Q
}.

Inductive Decision := BUY | HOLD.

Record PyramidDecision := mkPyramidDecision {
  shouldAdd : bool;
  pd_level : Level;
  pd_confidence : Q;
  pd_reasoning : list string
}.

(** A [number] that may be [Infinity]. *)
Inductive Factor := PF_finite (q : Q) | PF_infinity.

(** [PerformanceStats] in full: [counts] holds the fields of the record
    above, the others follow. *)
Record PerformanceReport := mkPerformanceReport {
  counts : PerformanceStats;
  expectancy : Q;
  profitFactor : Factor;
  maxDrawdown : Q;
  maxDrawdownPct : Q
}.

(** The fields of [Config] that [Config] above leaves out and the rest of
    the engine reads. *)
Record ConfigRest := mkConfigRest {
  paperTrading : bool;
  cfg_profitTargetPct : Q;
  dynamicSizingEnabled : bool;
  riskPerTradePct : Q;
  adxChoppyThreshold : Q;
  adxStrongThreshold : Q;
  pyramidingEnabled : bool;
  pyramidL1TriggerPct : Q;
  pyramidL2TriggerPct : Q;
  pyramidAddSizePctL1 : Q;
  pyramidAddSizePctL2 : Q;
  pyramidL1ConfidenceMin : Q;
  pyramidL2ConfidenceMin : Q;
  pyramidErosionCapChoppy : Q;
  pyramidErosionCapTrend : Q
}.

(** A call of [krakenClient.placeOrder]. *)
Inductive Side := buy | sell.

Record Order := mkOrder {
  o_pair : string;
  o_side : Side;
  o_volume : Q
}.

(** The result of both [calculatePositionSize] methods. *)
Record Size := mkSize {
  sizeUSD : Q;
  sizeAsset : Q;
  riskUSD : Q
}.

End Types.

Import Types.

(** ** src/PositionTracker.ts *)

Module PositionTracker.

(** The content of [positions.json]. *)
Record Saved := mkSaved {
  saved_closed : list Position;
  saved_timestamp : Z
}.

(** The object's private fields, and the file it writes. *)
Record t := mkTracker {
  positions : gmap string Position;
  closedPositions : list Position;
  disk : option Saved
}.

Definition empty : t := mkTracker ∅ [] None.

(** [savePositions]: [writeOk = false] is the write that throws; the
    exception is caught and logged, the file keeps its old content. *)
Definition savePositions (now : Z) (writeOk : bool) (s : t) : t :=
  if writeOk
  then mkTracker (positions s) (closedPositions s)
         (Some (mkSaved (closedPositions s) now))
  else s.

Definition addPosition (pair : string) (entryPrice volume stopLoss
    profitTarget : Q) (aiDecision : AIDecision) (adx : Q) (regime : Regime)
    (erosionCap : Q) (now : Z) (s : t) : t :=
  match positions s !! pair with
  | Some _ => s
  | None =>
      let position :=
        mkPosition pair entryPrice volume now stopLoss profitTarget
          [] volume 0%Z
          0 0 0
          erosionCap 0
          (reasoning aiDecision) adx regime open None None None in
      mkTracker (<[pair := position]> (positions s)) (closedPositions s)
        (disk s)
  end.

Definition getPosition (pair : string) (s : t) : option Position :=
  positions s !! pair.

(** The two accumulators of the loop over [position.pyramidLevels]. *)
Definition accumulate (currentPrice : Q) (acc : Q * Q)
    (lv : PyramidLevel) : Q * Q :=
  let levelCost := pl_entryPrice lv * pl_volume lv in
  let levelProfit := (currentPrice - pl_entryPrice lv) * pl_volume lv in
  (fst acc + levelProfit, snd acc + levelCost).

(** The body of [updatePosition] once the position is found. *)
Definition reprice (currentPrice : Q) (position : Position) : Position :=
  let l0Cost := entryPrice position * volume position in
  let l0Profit := (currentPrice - entryPrice position) * volume position in
  let totals :=
    fold_left (accumulate currentPrice) (pyramidLevels position)
      (0 + l0Profit, 0 + l0Cost) in
  let totalProfit := fst totals in
  let totalCost := snd totals in
  let position :=
    set_profit totalProfit
      (if Num.gtb totalCost 0 then (totalProfit / totalCost) * 100 else 0)
      position in
  if Num.gtb (currentProfit position) (peakProfit position)
  then set_erosionUsed 0 (set_peakProfit (currentProfit position) position)
  else set_erosionUsed (peakProfit position - currentProfit position)
         position.

Definition updatePosition (pair : string) (currentPrice : Q) (s : t) : t :=
  match positions s !! pair with
  | None => s
  | Some position =>
      mkTracker (<[pair := reprice currentPrice position]> (positions s))
        (closedPositions s) (disk s)
  end.

Definition addPyramidLevel (pair : string) (lvl : Level)
    (entryPrice volume aiConfidence : Q) (now : Z) (s : t) : bool * t :=
  match positions s !! pair with
  | None => (false, s)
  | Some position =>
      if (2 <=? pyramidLevelsActivated position)%Z then (false, s)
      else if existsb (fun l => Level_eqb (level l) lvl)
                (pyramidLevels position)
      then (false, s)
      else
        let triggerPct := match lvl with L1 => 0.045 | L2 => 0.08 end in
        let pyramidLevel :=
          mkPyramidLevel lvl entryPrice volume now triggerPct aiConfidence
            active in
        let position :=
          set_pyramid (pyramidLevels position ++ [pyramidLevel])
            (totalVolume position + volume)
            (pyramidLevelsActivated position + 1)%Z position in
        (true,
         mkTracker (<[pair := position]> (positions s)) (closedPositions s)
           (disk s))
  end.

Definition checkErosionCap (pair : string) (s : t) : bool :=
  match positions s !! pair with
  | None => false
  | Some position =>
      if (pyramidLevelsActivated position =? 0)%Z then false
      else if Num.gtb (erosionUsed position) (erosionCap position)
      then true
      else false
  end.

Definition checkStopLoss (pair : string) (currentPrice : Q) (s : t) : bool :=
  match positions s !! pair with
  | None => false
  | Some position => Num.leb currentPrice (stopLoss position)
  end.

Definition checkProfitTarget (pair : string) (currentPrice : Q) (s : t)
    : bool :=
  match positions s !! pair with
  | None => false
  | Some position => Num.geb currentPrice (profitTarget position)
  end.

Definition isReadyForL1 (pair : string) (currentProfit l1TriggerPct : Q)
    (s : t) : bool :=
  match positions s !! pair with
  | None => false
  | Some position =>
      if (1 <=? pyramidLevelsActivated position)%Z then false
      else Num.geb currentProfit l1TriggerPct
  end.

Definition isReadyForL2 (pair : string) (currentProfit l2TriggerPct : Q)
    (s : t) : bool :=
  match positions s !! pair with
  | None => false
  | Some position =>
      if (pyramidLevelsActivated position <? 1)%Z then false
      else if (2 <=? pyramidLevelsActivated position)%Z then false
      else Num.geb currentProfit l2TriggerPct
  end.

(** The body of [closePosition] on the position object; [now] stands for
    the clock both at the close and at the save that follows it. *)
Definition settle (exitPrice : Q) (now : Z) (why : string)
    (position : Position) : Position :=
  let position := set_exit exitPrice now why position in
  let profitPct := (exitPrice - entryPrice position) / entryPrice position in
  set_profit (volume position * profitPct * entryPrice position)
    (profitPct * 100) position.

Definition closePosition (pair : string) (exitPrice : Q)
    (exitReason : string) (now : Z) (writeOk : bool) (s : t) : t :=
  match positions s !! pair with
  | None => s
  | Some position =>
      let position := settle exitPrice now exitReason position in
      savePositions now writeOk
        (mkTracker (delete pair (positions s))
           (closedPositions s ++ [position]) (disk s))
  end.

(** *** Histories of one instrument *)

(** A call of the ledger on a fixed instrument. *)
Inductive call :=
| Update (currentPrice : Q)
| AddLevel (lvl : Level) (entryPrice volume aiConfidence : Q) (now : Z).

Definition step (pair : string) (s : t) (c : call) : t :=
  match c with
  | Update px => updatePosition pair px s
  | AddLevel lvl px vol conf now =>
      snd (addPyramidLevel pair lvl px vol conf now s)
  end.

Definition run (pair : string) (cs : list call) (s : t) : t :=
  fold_left (step pair) cs s.

(** The [currentProfit] left by every [Update] of a history, in order. *)
Fixpoint profits (pair : string) (cs : list call) (s : t) : list Q :=
  match cs with
  | [] => []
  | c :: cs =>
      let s' := step pair s c in
      match c, positions s' !! pair with
      | Update _, Some p => currentProfit p :: profits pair cs s'
      | _, _ => profits pair cs s'
      end
  end.

(** Sum of the volumes of the pyramid levels. *)
Definition levelsVolume (ls : list PyramidLevel) : Q :=
  fold_right (fun l acc => pl_volume l + acc) 0 ls.

(** Sum over the pyramid levels of [(price - entry) * volume]. *)
Definition legsProfit (px : Q) (ls : list PyramidLevel) : Q :=
  fold_right (fun l acc => (px - pl_entryPrice l) * pl_volume l + acc) 0 ls.

(** The position object after a successful [addPyramidLevel]. *)
Definition pushed (lvl : Level) (px vol conf : Q) (now : Z) (p : Position)
    : Position :=
  set_pyramid
    (pyramidLevels p ++
     [mkPyramidLevel lvl px vol now
        (match lvl with L1 => 0.045 | L2 => 0.08 end) conf active])
    (totalVolume p + vol) (pyramidLevelsActivated p + 1)%Z p.

Definition hasLevel (lvl : Level) (p : Position) : bool :=
  existsb (fun l => Level_eqb (level l) lvl) (pyramidLevels p).

(** What a call leaves of the position object it finds. *)
Definition after (c : call) (p : Position) : Position :=
  match c with
  | Update px => reprice px p
  | AddLevel lvl px vol conf now =>
      if (2 <=? pyramidLevelsActivated p)%Z then p
      else if hasLevel lvl p then p
      else pushed lvl px vol conf now p
  end.

(** *** Invariants of a position object *)

(** The volume and level bookkeeping of a position opened with [vol]. *)
Definition booked (vol : Q) (p : Position) : Prop :=
  volume p = vol
  /\ totalVolume p == vol + levelsVolume (pyramidLevels p)
  /\ pyramidLevelsActivated p = Z.of_nat (length (pyramidLevels p))
  /\ (pyramidLevelsActivated p <= 2)%Z.

(** A position that never showed a profit: its peak is still the 0 of
    its creation and all of its loss counts as erosion. *)
Definition underwater (p : Position) : Prop :=
  peakProfit p == 0 /\ erosionUsed p == - currentProfit p.

(** *** The rest of the class *)

(** The constructor: [loadPositions] reads the closed history of
    [positions.json]; [None] is the file that is absent or unreadable.
    Writing and reading the file is taken to lose nothing. *)
Definition construct (file : option Saved) : t :=
  mkTracker ∅
    (match file with Some data => saved_closed data | None => [] end)
    file.

Definition getClosedPositions (s : t) : list Position := closedPositions s.

Definition clearAll (s : t) : t :=
  mkTracker ∅ (closedPositions s) (disk s).

(** The variables of the loop of [getPerformanceStats]. *)
Record Tally := mkTally {
  t_totalProfit : Q;
  t_totalLoss : Q;
  t_winningTrades : Z;
  t_losingTrades : Z;
  t_maxDrawdown : Q;
  t_cumulativeProfit : Q;
  t_peak : Q
}.

Definition tally0 : Tally := mkTally 0 0 0 0 0 0 0.

(** One turn of the loop; [position.currentProfit || 0] is
    [currentProfit] for a number. *)
Definition tallyStep (a : Tally) (position : Position) : Tally :=
  let profit := currentProfit position in
  let won := Num.gtb profit 0 in
  let totalProfit := if won then t_totalProfit a + profit else t_totalProfit a in
  let winningTrades :=
    if won then (t_winningTrades a + 1)%Z else t_winningTrades a in
  let totalLoss :=
    if won then t_totalLoss a else t_totalLoss a + Qabs profit in
  let losingTrades :=
    if won then t_losingTrades a else (t_losingTrades a + 1)%Z in
  let cumulativeProfit := t_cumulativeProfit a + profit in
  let peak :=
    if Num.gtb cumulativeProfit (t_peak a) then cumulativeProfit
    else t_peak a in
  let drawdown := peak - cumulativeProfit in
  let maxDrawdown :=
    if Num.gtb drawdown (t_maxDrawdown a) then drawdown
    else t_maxDrawdown a in
  mkTally totalProfit totalLoss winningTrades losingTrades maxDrawdown
    cumulativeProfit peak.

Definition tally (ps : list Position) : Tally := fold_left tallyStep ps tally0.

Definition getPerformanceStats (s : t) : PerformanceReport :=
  match closedPositions s with
  | [] =>
      mkPerformanceReport (mkPerformanceStats 0 0 0 0 0 0) 0 (PF_finite 0) 0 0
  | _ =>
      let a := tally (closedPositions s) in
      let totalTrades := Z.of_nat (length (closedPositions s)) in
      let winRate :=
        if (0 <? totalTrades)%Z
        then inject_Z (t_winningTrades a) / inject_Z totalTrades * 100
        else 0 in
      let totalGain := t_totalProfit a - t_totalLoss a in
      let expectancy :=
        if (0 <? totalTrades)%Z then totalGain / inject_Z totalTrades
        else 0 in
      let profitFactor :=
        if Num.gtb (t_totalLoss a) 0
        then PF_finite (t_totalProfit a / t_totalLoss a)
        else if Num.gtb (t_totalProfit a) 0 then PF_infinity
        else PF_finite 0 in
      let maxDrawdownPct :=
        if Num.gtb (t_peak a) 0 then t_maxDrawdown a / t_peak a * 100
        else 0 in
      mkPerformanceReport
        (mkPerformanceStats totalTrades (t_winningTrades a)
           (t_losingTrades a) winRate (t_totalProfit a) (t_totalLoss a))
        expectancy profitFactor (t_maxDrawdown a) maxDrawdownPct
  end.

(** *** Histories of the whole ledger *)

(** A call of any mutating method, on any instrument. *)
Inductive command :=
| Open (pair : string) (entryPrice volume stopLoss profitTarget : Q)
    (aiDecision : AIDecision) (adx : Q) (regime : Regime) (erosionCap : Q)
    (now : Z)
| On (pair : string) (c : call)
| Close (pair : string) (exitPrice : Q) (exitReason : string) (now : Z)
    (writeOk : bool)
| Clear.

Definition exec (s : t) (c : command) : t :=
  match c with
  | Open pair px vol sl tp ai adx rg cap now =>
      addPosition pair px vol sl tp ai adx rg cap now s
  | On pair c => step pair s c
  | Close pair px why now writeOk => closePosition pair px why now writeOk s
  | Clear => clearAll s
  end.

Definition execAll (cs : list command) (s : t) : t := fold_left exec cs s.

(** Every tracked position is open and filed under its own instrument; the
    closed history holds closed positions only; the file, when there is
    one, holds a first part of the closed history. *)
Definition tidy (s : t) : Prop :=
  (forall k p, positions s !! k = Some p -> pair p = k /\ status p = open)
  /\ Forall (fun p => status p = closed) (closedPositions s)
  /\ (forall data, disk s = Some data ->
        exists later, closedPositions s = saved_closed data ++ later).

(** The sum of the profits of a list of positions. *)
Definition netProfit (ps : list Position) : Q :=
  fold_right (fun p acc => currentProfit p + acc) 0 ps.

(** The number of positions that closed with a profit. *)
Definition winners (ps : list Position) : Z :=
  fold_right (fun p acc => if Num.gtb (currentProfit p) 0 then (1 + acc)%Z
                           else acc) 0%Z ps.

(** What the loop of [getPerformanceStats] keeps true of its variables. *)
Definition sound (ps : list Position) (a : Tally) : Prop :=
  (t_winningTrades a + t_losingTrades a)%Z = Z.of_nat (length ps)
  /\ t_winningTrades a = winners ps
  /\ (0 <= t_winningTrades a)%Z
  /\ (0 <= t_losingTrades a)%Z
  /\ 0 <= t_totalProfit a
  /\ 0 <= t_totalLoss a
  /\ t_totalProfit a - t_totalLoss a == netProfit ps
  /\ t_cumulativeProfit a == netProfit ps
  /\ 0 <= t_maxDrawdown a
  /\ t_cumulativeProfit a <= t_peak a
  /\ 0 <= t_peak a
  /\ t_peak a - t_cumulativeProfit a <= t_maxDrawdown a
  /\ (t_winningTrades a = 0%Z -> t_totalProfit a == 0)
  /\ ((0 < t_winningTrades a)%Z -> 0 < t_totalProfit a)
  /\ (t_losingTrades a = 0%Z -> t_totalLoss a == 0 /\ t_maxDrawdown a == 0).

(** The cost of the pyramid levels. *)
Definition levelsCost (ls : list PyramidLevel) : Q :=
  fold_right (fun l acc => pl_entryPrice l * pl_volume l + acc) 0 ls.

(** The cost of all the legs of a position. *)
Definition totalCost (p : Position) : Q :=
  entryPrice p * volume p
  + fold_right (fun l acc => pl_entryPrice l * pl_volume l + acc) 0
      (pyramidLevels p).

End PositionTracker.

(** ** class DynamicPositionSizer *)

Module DynamicPositionSizer.

Record t := mkSizer {
  accountBalance : Q;
  totalTrades : Z;
  totalWins : Z;
  totalLosses : Z;
  avgWinPct : Q;
  avgLossPct : Q
}.

Definition MAX_RISK_PER_TRADE : Q := 0.10.
Definition MIN_RISK_PER_TRADE : Q := 0.01.
Definition KELLY_FRACTION : Q := 0.25.
Definition MIN_AI_CONFIDENCE : Q := 50.
Definition MAX_AI_CONFIDENCE : Q := 95.

Definition create (initialBalance : Q) : t :=
  mkSizer initialBalance 0 0 0 0.025 0.015.

Definition getWinRate (z : t) : Q :=
  if (totalTrades z =? 0)%Z then 0.5
  else inject_Z (totalWins z) / inject_Z (totalTrades z).

Definition updatePerformance (stats : PerformanceStats) (z : t) : t :=
  let trades := st_totalTrades stats in
  let wins := winningTrades stats in
  let losses := losingTrades stats in
  if (0 <? trades)%Z
  then
    mkSizer (accountBalance z) trades wins losses
      (if (0 <? wins)%Z
       then totalProfit stats / (inject_Z wins * accountBalance z)
       else 0.025)
      (if (0 <? losses)%Z
       then totalLoss stats / (inject_Z losses * accountBalance z)
       else 0.015)
  else
    mkSizer (accountBalance z) trades wins losses (avgWinPct z)
      (avgLossPct z).

(** The raw Kelly percentage of the formula, before any clamp.  It is the
    quotient of the source where [avgWinPct] is not zero; at a zero
    [avgWinPct] the source has NaN or an infinity, which
    [DynamicPositionSizerJs.kellyPct] gives. *)
Definition kellyPct (z : t) : Q :=
  let winRate := getWinRate z in
  let lossRate := 1 - winRate in
  (winRate * avgWinPct z - lossRate * avgLossPct z) / avgWinPct z.

Definition calculateKellyFraction (z : t) : Q :=
  if (totalTrades z =? 0)%Z then 0.05
  else
    let safeFraction := Num.max 0.01 (Num.min 0.10 (kellyPct z)) in
    let fractionalKelly := safeFraction * KELLY_FRACTION in
    fractionalKelly.

Definition calculateRiskPerTrade (aiConfidence : Q) (z : t) : Q :=
  let kellyRisk := calculateKellyFraction z in
  let confidenceNormalized :=
    (aiConfidence - MIN_AI_CONFIDENCE) /
    (MAX_AI_CONFIDENCE - MIN_AI_CONFIDENCE) in
  let confidenceMultiplier := 0.5 + confidenceNormalized * 1.5 in
  let riskPerTrade := kellyRisk * confidenceMultiplier in
  Num.max MIN_RISK_PER_TRADE (Num.min MAX_RISK_PER_TRADE riskPerTrade).

(** *** The rest of the class *)

Definition updateBalance (newBalance : Q) (z : t) : t :=
  if Qeq_bool newBalance (accountBalance z) then z
  else mkSizer newBalance (totalTrades z) (totalWins z) (totalLosses z)
         (avgWinPct z) (avgLossPct z).

Definition getBalance (z : t) : Q := accountBalance z.

Definition calculatePositionSize (aiConfidence currentPrice stopLossPct : Q)
    (z : t) : Size :=
  let riskPerTrade := calculateRiskPerTrade aiConfidence z in
  let riskUSD := accountBalance z * riskPerTrade in
  let sizeUSD := riskUSD / stopLossPct in
  let sizeAsset := sizeUSD / currentPrice in
  mkSize sizeUSD sizeAsset riskUSD.

(** The risk at stake of one open position. *)
Definition riskAmount (pos : Position) : Q :=
  Qabs (entryPrice pos - stopLoss pos) * totalVolume pos.

Definition canAddPosition (openPositions : list Position) (newRiskUSD : Q)
    (z : t) : bool :=
  let currentOpenRisk :=
    fold_left (fun sum pos => sum + riskAmount pos) openPositions 0 in
  let totalRisk := currentOpenRisk + newRiskUSD in
  let maxOpenRisk := accountBalance z * 0.05 in
  if Num.gtb totalRisk maxOpenRisk then false else true.

(** The risk at stake of a list of open positions. *)
Definition openRisk (ps : list Position) : Q :=
  fold_right (fun pos acc => riskAmount pos + acc) 0 ps.

(** The confidence multiplier of [calculateRiskPerTrade]. *)
Definition confidenceMultiplier (aiConfidence : Q) : Q :=
  0.5 + (aiConfidence - MIN_AI_CONFIDENCE) /
        (MAX_AI_CONFIDENCE - MIN_AI_CONFIDENCE) * 1.5.

End DynamicPositionSizer.

(** ** Numbers that need not be finite

    The result of a division of the source, and what [Math.min],
    [Math.max] and [*] make of it.  Rounding is still left out, and the
    zero of [Q] stands for [+0]. *)

Module Js.

Inductive num := Fin (q : Q) | PosInf | NegInf | NaN.

(** [x / y] on two finite numbers. *)
Definition div (x y : Q) : num :=
  if Qeq_bool y 0
  then
    if Qeq_bool x 0 then NaN
    else if Num.gtb x 0 then PosInf else NegInf
  else Fin (x / y).

(** [x * y] with a finite [y]. *)
Definition mul (x : num) (y : Q) : num :=
  match x with
  | Fin q => Fin (q * y)
  | PosInf =>
      if Qeq_bool y 0 then NaN else if Num.gtb y 0 then PosInf else NegInf
  | NegInf =>
      if Qeq_bool y 0 then NaN else if Num.gtb y 0 then NegInf else PosInf
  | NaN => NaN
  end.

(** [Math.max(a, x)] and [Math.min(a, x)] with a finite [a]: NaN for a
    NaN argument. *)
Definition max (a : Q) (x : num) : num :=
  match x with
  | Fin q => Fin (Num.max a q)
  | PosInf => PosInf
  | NegInf => Fin a
  | NaN => NaN
  end.

Definition min (a : Q) (x : num) : num :=
  match x with
  | Fin q => Fin (Num.min a q)
  | PosInf => Fin a
  | NegInf => NegInf
  | NaN => NaN
  end.


End Js.

(** ** class DynamicPositionSizer: the Kelly path at any divisor

    [calculateKellyFraction] and [calculateRiskPerTrade] once more, with
    the quotient by [avgWinPct] as the source computes it when the divisor
    is zero.  The fields of the sizer are still rationals. *)

Module DynamicPositionSizerJs.

Import DynamicPositionSizer.

Definition kellyPct (z : t) : Js.num :=
  let winRate := getWinRate z in
  let lossRate := 1 - winRate in
  Js.div (winRate * avgWinPct z - lossRate * avgLossPct z) (avgWinPct z).

Definition calculateKellyFraction (z : t) : Js.num :=
  if (totalTrades z =? 0)%Z then Js.Fin 0.05
  else
    let safeFraction := Js.max 0.01 (Js.min 0.10 (kellyPct z)) in
    let fractionalKelly := Js.mul safeFraction KELLY_FRACTION in
    fractionalKelly.

Definition calculateRiskPerTrade (aiConfidence : Q) (z : t) : Js.num :=
  let kellyRisk := calculateKellyFraction z in
  let confidenceNormalized :=
    (aiConfidence - MIN_AI_CONFIDENCE) /
    (MAX_AI_CONFIDENCE - MIN_AI_CONFIDENCE) in
  let confidenceMultiplier := 0.5 + confidenceNormalized * 1.5 in
  let riskPerTrade := Js.mul kellyRisk confidenceMultiplier in
  Js.max MIN_RISK_PER_TRADE (Js.min MAX_RISK_PER_TRADE riskPerTrade).



End DynamicPositionSizerJs.

(** ** class RiskManager *)

Module RiskManager.

Record t := mkRiskManager {
  config : Config;
  btcMomentum1h : Q;
  aiCallsLastHour : Z
}.

(** A call of [logger.logFilterRejection]. *)
Record Rejection := mkRejection {
  rej_pair : string;
  rej_filter : string;
  rej_reason : option Reason
}.

Definition rejected (n : Z) (why : Reason) : RiskFilterResult :=
  mkRiskFilterResult false (Some why) (Some n).

Definition passed (n : Z) : RiskFilterResult :=
  mkRiskFilterResult true None (Some n).

Definition isChoppyMarket (adx : Q) (m : t) : bool :=
  Num.ltb adx (minADXForEntry (config m)).

(** STAGE 1 *)
Definition checkHealthGate (adx : option Q) (m : t) : RiskFilterResult :=
  if Num.geb (inject_Z (aiCallsLastHour m)) (aiMaxCallsPerHour (config m))
  then rejected 1 (AIRateLimitExceeded (aiCallsLastHour m)
                     (aiMaxCallsPerHour (config m)))
  else
    match adx with
    | Some a =>
        if isChoppyMarket a m
        then rejected 1 (ChoppyMarket a (minADXForEntry (config m)))
        else passed 1
    | None => passed 1
    end.

(** STAGE 2.  The ticker argument [{ spread: number } | null] is its
    spread, or [None]. *)
Definition checkDropProtection (pair : string) (ticker : option Q)
    (ind : Indicators) (m : t) : RiskFilterResult :=
  if negb (String.eqb pair "BTC/USD")
     && Num.ltb (btcMomentum1h m) (btcDumpThreshold1h (config m))
  then rejected 2 (BTCDumping (btcMomentum1h m))
  else if Num.gtb (volumeRatio ind) (volumeSpikeMax (config m))
  then rejected 2 (VolumePanicSpike (volumeRatio ind))
  else
    match ticker with
    | Some spread =>
        if Num.gtb spread 0
        then
          let spreadPct := spread / 90000 in
          if Num.gtb spreadPct (spreadWideningPct (config m))
          then rejected 2 (SpreadWidening spreadPct)
          else passed 2
        else passed 2
    | None => passed 2
    end.

(** STAGE 3 *)
Definition checkEntryQuality (price : Q) (ind : Indicators)
    : RiskFilterResult :=
  if Num.gtb price (recentHigh ind * 0.995)
  then rejected 3 (PriceAtLocalTop price (recentHigh ind))
  else if Num.gtb (rsi ind) 85
  then rejected 3 (RSIExtremeOverbought (rsi ind))
  else
    let has1hMomentum := Num.gtb (momentum1h ind) 0.005 in
    let hasBothPositive :=
      Num.gtb (momentum1h ind) 0.005 && Num.gtb (momentum4h ind) 0.005 in
    let hasVolumeBreakout :=
      Num.gtb (volumeRatio ind) 1.3 && Num.gtb (momentum1h ind) 0 in
    let passesEntryGate :=
      has1hMomentum || hasBothPositive || hasVolumeBreakout in
    if negb passesEntryGate
    then rejected 3 (WeakMomentum (momentum1h ind) (momentum4h ind))
    else passed 3.

(** STAGE 4 *)
Definition checkAIValidation (confidence : Q) (m : t) : RiskFilterResult :=
  if Num.ltb confidence (aiMinConfidence (config m))
  then rejected 4 (AIConfidenceTooLow confidence (aiMinConfidence (config m)))
  else passed 4.

(** STAGE 5 *)
Definition calculateCosts (pair : string) (profitTarget : Q) (m : t)
    : CostAnalysis :=
  let feePct := exchangeFeePct (config m) * 2 in
  let spreadPct :=
    if String.eqb pair "BTC/USD" || String.eqb pair "ETH/USD"
    then 0.0003 else 0.0005 in
  let slippagePct := 0.0001 in
  let totalCostsPct := feePct + spreadPct + slippagePct in
  let costFloorPct := totalCostsPct * minProfitMultiplier (config m) in
  let passesCostFloor := Num.geb profitTarget costFloorPct in
  let stopLossPct := stopLossPct (config m) in
  let riskRewardRatio := profitTarget / stopLossPct in
  let passesRiskRewardRatio :=
    Num.geb riskRewardRatio (minRiskRewardRatio (config m)) in
  let netEdgePct := profitTarget - totalCostsPct in
  mkCostAnalysis feePct spreadPct slippagePct totalCostsPct profitTarget
    netEdgePct costFloorPct passesCostFloor riskRewardRatio
    passesRiskRewardRatio.

Definition checkCostFloor (costs : CostAnalysis) (m : t)
    : RiskFilterResult :=
  if negb (passesCostFloor costs)
  then rejected 5 (ProfitBelowCostFloor (profitTargetPct costs)
                     (costFloorPct costs))
  else if negb (passesRiskRewardRatio costs)
  then rejected 5 (RiskRewardBelowMinimum (riskRewardRatio costs)
                     (minRiskRewardRatio (config m)))
  else if Num.leb (netEdgePct costs) 0
  then rejected 5 (NoNetEdge (netEdgePct costs))
  else passed 5.

(** The result, and the rejections handed to the logger. *)
Definition runFullRiskFilter (pair : string) (price : Q) (ind : Indicators)
    (ticker : option Q) (profitTarget : Q) (m : t)
    : RiskFilterResult * list Rejection :=
  let health := checkHealthGate (Some (ind_adx ind)) m in
  if negb (pass health)
  then (health, [mkRejection pair "health_check" (reason health)])
  else
    let drop := checkDropProtection pair ticker ind m in
    if negb (pass drop)
    then (drop, [mkRejection pair "drop_protection" (reason drop)])
    else
      let quality := checkEntryQuality price ind in
      if negb (pass quality)
      then (quality, [mkRejection pair "entry_quality" (reason quality)])
      else
        let costs := calculateCosts pair profitTarget m in
        let costCheck := checkCostFloor costs m in
        if negb (pass costCheck)
        then (costCheck,
              [mkRejection pair "cost_validation" (reason costCheck)])
        else (passed 5, []).

(** The stages that [runFullRiskFilter] evaluates, in its order. *)
Definition stages (pair : string) (price : Q) (ind : Indicators)
    (ticker : option Q) (profitTarget : Q) (m : t)
    : list RiskFilterResult :=
  [ checkHealthGate (Some (ind_adx ind)) m;
    checkDropProtection pair ticker ind m;
    checkEntryQuality price ind;
    checkCostFloor (calculateCosts pair profitTarget m) m ].

(** A stage result is a pass, or a rejection that carries the stage's
    index and a reason. *)
Definition shaped (n : Z) (r : RiskFilterResult) : Prop :=
  r = passed n \/ exists why, r = rejected n why.

(** *** The rest of the class *)

(** The manager with the field [lastAICallReset], which only
    [incrementAICallCount] reads. *)
Record Clocked := mkClocked {
  manager : t;
  lastAICallReset : Z
}.

Definition updateBTCMomentum (momentum : Q) (m : t) : t :=
  mkRiskManager (config m) momentum (aiCallsLastHour m).

Definition incrementAICallCount (now : Z) (c : Clocked) : Clocked :=
  let m := manager c in
  if (3600000 <? now - lastAICallReset c)%Z
  then mkClocked (mkRiskManager (config m) (btcMomentum1h m) (0 + 1)) now
  else mkClocked
         (mkRiskManager (config m) (btcMomentum1h m) (aiCallsLastHour m + 1))
         (lastAICallReset c).

Definition getRegime (rest : ConfigRest) (adx : Q) : Regime :=
  if Num.ltb adx (adxChoppyThreshold rest) then choppy
  else if Num.ltb adx 30 then weak
  else if Num.ltb adx (adxStrongThreshold rest) then moderate
  else strong.

Definition getErosionCap (rest : ConfigRest) (regime : Regime) : Q :=
  match regime with
  | choppy => pyramidErosionCapChoppy rest
  | _ => pyramidErosionCapTrend rest
  end.

(** Two more texts of rejection, of [validatePyramidAdd]. *)
Inductive PyramidReason :=
| LevelConfidenceBelowMinimum (lvl : Level) (confidence limit : Q)
| ProfitNotAtTrigger (lvl : Level) (profit trigger : Q).

Record PyramidCheck := mkPyramidCheck {
  pc_pass : bool;
  pc_reason : option PyramidReason;
  pc_stage : option Z
}.

Definition validatePyramidAdd (rest : ConfigRest) (aiConfidence : Q)
    (lvl : Level) (currentProfit targetProfitPct : Q) : PyramidCheck :=
  let minConfidence :=
    match lvl with
    | L1 => pyramidL1ConfidenceMin rest
    | L2 => pyramidL2ConfidenceMin rest
    end in
  if Num.ltb aiConfidence minConfidence
  then mkPyramidCheck false
         (Some (LevelConfidenceBelowMinimum lvl aiConfidence minConfidence))
         (Some 4%Z)
  else if Num.ltb currentProfit targetProfitPct
  then mkPyramidCheck false
         (Some (ProfitNotAtTrigger lvl currentProfit targetProfitPct))
         (Some 3%Z)
  else mkPyramidCheck true None (Some 4%Z).

Definition calculatePositionSize (rest : ConfigRest)
    (accountBalance price : Q) (m : t) : Size :=
  let riskUSD := accountBalance * riskPerTradePct rest in
  let sizeUSD := riskUSD / stopLossPct (config m) in
  let sizeAsset := sizeUSD / price in
  mkSize sizeUSD sizeAsset riskUSD.

(** [{ stopLoss, profitTarget }], as a pair. *)
Definition calculateLevels (rest : ConfigRest) (entryPrice : Q)
    (direction : Side) (m : t) : Q * Q :=
  match direction with
  | buy =>
      (entryPrice * (1 - stopLossPct (config m)),
       entryPrice * (1 + cfg_profitTargetPct rest))
  | sell =>
      (entryPrice * (1 + stopLossPct (config m)),
       entryPrice * (1 - cfg_profitTargetPct rest))
  end.

End RiskManager.

(** ** class TradingBot (src/index.ts) *)

Module TradingBot.

(** The result object after the three signal blocks: each block sets its
    flag, counts it and appends its line. *)
Definition raise1 (n : Note) (r : MomentumFailureResult)
    : MomentumFailureResult :=
  mkMomentumFailureResult (shouldExit r)
    (mkSignals true (volumeExhaustion (signals r)) (htfBreakdown (signals r)))
    (signalCount r + 1)%Z (mf_reasoning r ++ [n]).

Definition raise2 (n : Note) (r : MomentumFailureResult)
    : MomentumFailureResult :=
  mkMomentumFailureResult (shouldExit r)
    (mkSignals (priceActionFailure (signals r)) true
       (htfBreakdown (signals r)))
    (signalCount r + 1)%Z (mf_reasoning r ++ [n]).

Definition raise3 (n : Note) (r : MomentumFailureResult)
    : MomentumFailureResult :=
  mkMomentumFailureResult (shouldExit r)
    (mkSignals (priceActionFailure (signals r))
       (volumeExhaustion (signals r)) true)
    (signalCount r + 1)%Z (mf_reasoning r ++ [n]).

Definition detectMomentumFailure (config : Config) (marketData : MarketData)
    (position : Position) : MomentumFailureResult :=
  let ind := indicators marketData in
  let currentPrice := currentPrice marketData in
  let profitPct := profitPct position / 100 in
  let result :=
    mkMomentumFailureResult false (mkSignals false false false) 0 [] in
  if negb (momentumFailureEnabled config) then result
  else if Num.ltb profitPct (momentumFailureMinProfit config) then result
  else
    let use4hThresholds := (1 <=? pyramidLevelsActivated position)%Z in
    let momentumThreshold :=
      if use4hThresholds then momentum4hFailureThreshold config
      else momentum1hFailureThreshold config in
    let volumeThreshold :=
      if use4hThresholds then volumeExhaustionThreshold4h config
      else volumeExhaustionThreshold1h config in
    (* SIGNAL 1 *)
    let priceNearPeak := currentPrice / recentHigh ind in
    let momentum1hNegative :=
      Num.ltb (momentum1h ind) (momentumThreshold * 100) in
    let result :=
      if Num.geb priceNearPeak (priceNearPeakThreshold config)
         && momentum1hNegative
      then raise1 (NotePriceActionFailure priceNearPeak (momentum1h ind)
                     (momentumThreshold * 100)) result
      else if Num.ltb (momentum1h ind) (momentumThreshold * 100)
      then raise1 (NoteStrongReversal (momentum1h ind)
                     (momentumThreshold * 100)) result
      else result in
    (* SIGNAL 2 *)
    let result :=
      if Num.ltb (volumeRatio ind) volumeThreshold
      then raise2 (NoteVolumeExhaustion (volumeRatio ind) volumeThreshold)
             result
      else result in
    (* SIGNAL 3 *)
    let htfMomentumWeak :=
      Num.ltb (momentum4h ind) (htfMomentumWeakening config * 100) in
    let belowEMA200 := Num.ltb currentPrice (ema200 ind) in
    let result :=
      if htfMomentumWeak
      then raise3 (NoteMomentumWeakening (momentum4h ind)
                     (htfMomentumWeakening config * 100)) result
      else if belowEMA200 && Num.gtb (ema200 ind) 0
      then raise3 (NoteEMA200Breakdown currentPrice (ema200 ind)) result
      else result in
    let exit :=
      Num.geb (inject_Z (signalCount result))
        (momentumFailureRequiredSignals config) in
    mkMomentumFailureResult exit (signals result) (signalCount result)
      (if exit
       then mf_reasoning result ++
            [NoteExitTriggered (signalCount result)
               (momentumFailureRequiredSignals config) (profitPct * 100)]
       else mf_reasoning result).

(** The number of flags that are up in a result. *)
Definition raised (g : Signals) : Z :=
  (Z.b2z (priceActionFailure g) + Z.b2z (volumeExhaustion g)
   + Z.b2z (htfBreakdown g))%Z.

(** The three signals, read off the market data. *)
Definition thresholds4h (position : Position) : bool :=
  (1 <=? pyramidLevelsActivated position)%Z.

Definition signal1 (config : Config) (marketData : MarketData)
    (position : Position) : bool :=
  Num.ltb (momentum1h (indicators marketData))
    ((if thresholds4h position then momentum4hFailureThreshold config
      else momentum1hFailureThreshold config) * 100).

Definition signal2 (config : Config) (marketData : MarketData)
    (position : Position) : bool :=
  Num.ltb (volumeRatio (indicators marketData))
    (if thresholds4h position then volumeExhaustionThreshold4h config
     else volumeExhaustionThreshold1h config).

Definition signal3 (config : Config) (marketData : MarketData) : bool :=
  Num.ltb (momentum4h (indicators marketData))
    (htfMomentumWeakening config * 100)
  || (Num.ltb (currentPrice marketData) (ema200 (indicators marketData))
      && Num.gtb (ema200 (indicators marketData)) 0).

(** *** The rest of the class *)

(** The objects the bot owns that its decisions touch, and the orders it
    has sent to the exchange. *)
Record Bot := mkBot {
  positionTracker : PositionTracker.t;
  positionSizer : DynamicPositionSizer.t;
  riskManager : RiskManager.Clocked;
  orders : list Order
}.

Definition withTracker (s : PositionTracker.t) (b : Bot) : Bot :=
  mkBot s (positionSizer b) (riskManager b) (orders b).

(** [krakenClient.placeOrder]: the request is sent; what comes back is an
    argument of the caller that looks at it. *)
Definition placeOrder (pair : string) (side : Side) (volume : Q) (b : Bot)
    : Bot :=
  mkBot (positionTracker b) (positionSizer b) (riskManager b)
    (orders b ++ [mkOrder pair side volume]).

Definition closePosition (rest : ConfigRest) (pair : string) (exitPrice : Q)
    (exitReason : string) (now : Z) (writeOk : bool) (b : Bot) : Bot :=
  match PositionTracker.getPosition pair (positionTracker b) with
  | None => b
  | Some position =>
      let totalVolume := totalVolume position in
      let b :=
        if negb (paperTrading rest) then placeOrder pair sell totalVolume b
        else b in
      withTracker
        (PositionTracker.closePosition pair exitPrice exitReason now writeOk
           (positionTracker b)) b
  end.

(** One of the two blocks of [checkAndExecutePyramidAdds]; [decision] is
    the answer of [aiDecisionMaker.decidePyramidAdd], asked only when the
    position is ready; [volume] is [position.volume]. *)
Definition pyramidAdd (rest : ConfigRest) (pair : string)
    (currentPrice profitFraction : Q) (lvl : Level)
    (decision : PyramidDecision) (volume : Q) (now : Z) (b : Bot) : Bot :=
  let trigger :=
    match lvl with
    | L1 => pyramidL1TriggerPct rest
    | L2 => pyramidL2TriggerPct rest
    end in
  let ready :=
    match lvl with
    | L1 => PositionTracker.isReadyForL1 pair profitFraction trigger
              (positionTracker b)
    | L2 => PositionTracker.isReadyForL2 pair profitFraction trigger
              (positionTracker b)
    end in
  if ready
  then
    let validation :=
      RiskManager.validatePyramidAdd rest (pd_confidence decision) lvl
        profitFraction trigger in
    if RiskManager.pc_pass validation && shouldAdd decision
    then
      let addVolume :=
        volume * match lvl with
                 | L1 => pyramidAddSizePctL1 rest
                 | L2 => pyramidAddSizePctL2 rest
                 end in
      let r :=
        PositionTracker.addPyramidLevel pair lvl currentPrice addVolume
          (pd_confidence decision) now (positionTracker b) in
      let b := withTracker (snd r) b in
      if fst r && negb (paperTrading rest)
      then placeOrder pair buy addVolume b
      else b
    else b
  else b.

Definition checkAndExecutePyramidAdds (rest : ConfigRest) (pair : string)
    (marketData : MarketData) (position : Position)
    (advice : Level -> PyramidDecision) (now : Z) (b : Bot) : Bot :=
  let currentPrice := currentPrice marketData in
  let profitFraction := profitPct position / 100 in
  let b :=
    pyramidAdd rest pair currentPrice profitFraction L1 (advice L1)
      (volume position) now b in
  pyramidAdd rest pair currentPrice profitFraction L2 (advice L2)
    (volume position) now b.

(** [monitorPosition], called by [processPair] when the instrument has a
    position.  The object [position] of the source is the one the tracker
    updates: it is read again after [updatePosition].  On an instrument
    without position, where the source fails on [position.profitPct], the
    bot is left as it is; [processPair] never makes that call. *)
Definition monitorPosition (config : Config) (rest : ConfigRest)
    (pair : string) (marketData : MarketData)
    (advice : Level -> PyramidDecision) (now : Z) (writeOk : bool) (b : Bot)
    : Bot :=
  let currentPrice := currentPrice marketData in
  let b :=
    withTracker
      (PositionTracker.updatePosition pair currentPrice (positionTracker b))
      b in
  match PositionTracker.getPosition pair (positionTracker b) with
  | None => b
  | Some position =>
      if PositionTracker.checkStopLoss pair currentPrice (positionTracker b)
      then closePosition rest pair currentPrice "Stop Loss" now writeOk b
      else if PositionTracker.checkErosionCap pair (positionTracker b)
      then closePosition rest pair currentPrice "Erosion Cap Exceeded" now
             writeOk b
      else if shouldExit (detectMomentumFailure config marketData position)
      then closePosition rest pair currentPrice "Momentum Failure" now
             writeOk b
      else if PositionTracker.checkProfitTarget pair currentPrice
                (positionTracker b)
      then closePosition rest pair currentPrice "Profit Target" now writeOk b
      else if pyramidingEnabled rest
      then checkAndExecutePyramidAdds rest pair marketData position advice
             now b
      else b
  end.

(** [executeTrade]; [filled] tells whether the exchange returned an order
    id for the buy order of live trading. *)
Definition executeTrade (rest : ConfigRest) (pair : string)
    (marketData : MarketData) (aiDecision : AIDecision) (now : Z)
    (filled : bool) (b : Bot) : Bot :=
  let currentPrice := currentPrice marketData in
  let ind := indicators marketData in
  let m := RiskManager.manager (riskManager b) in
  let levels := RiskManager.calculateLevels rest currentPrice buy m in
  let stopLoss := fst levels in
  let profitTarget := snd levels in
  let positionSizeData :=
    if dynamicSizingEnabled rest
    then DynamicPositionSizer.calculatePositionSize (ai_confidence aiDecision)
           currentPrice (stopLossPct (RiskManager.config m))
           (positionSizer b)
    else RiskManager.calculatePositionSize rest
           (DynamicPositionSizer.getBalance (positionSizer b)) currentPrice
           m in
  let regime := RiskManager.getRegime rest (ind_adx ind) in
  let erosionCap := RiskManager.getErosionCap rest regime in
  let track (b : Bot) :=
    withTracker
      (PositionTracker.addPosition pair currentPrice
         (sizeAsset positionSizeData) stopLoss profitTarget aiDecision
         (ind_adx ind) regime erosionCap now (positionTracker b)) b in
  if paperTrading rest then track b
  else
    let b := placeOrder pair buy (sizeAsset positionSizeData) b in
    if filled then track b else b.

(** [tryEntry], called by [processPair] when the instrument has no
    position; [aiDecision] and [decision] are the answer of
    [aiDecisionMaker.decideEntry], asked only after the risk filter.  The
    cost analysis computed for the prompt has no other use and is left
    out. *)
Definition tryEntry (rest : ConfigRest) (pair : string)
    (marketData : MarketData) (candles : list Candle)
    (aiDecision : AIDecision) (decision : Decision) (now : Z)
    (filled : bool) (b : Bot) : Bot :=
  let currentPrice := currentPrice marketData in
  let ind := indicators marketData in
  let ticker :=
    if (0 <? length candles)%nat then Some (ask marketData - bid marketData)
    else None in
  let m := RiskManager.manager (riskManager b) in
  let profitTarget := currentPrice * cfg_profitTargetPct rest in
  let riskFilter :=
    fst (RiskManager.runFullRiskFilter pair currentPrice ind ticker
           profitTarget m) in
  if negb (pass riskFilter) then b
  else
    let b :=
      mkBot (positionTracker b) (positionSizer b)
        (RiskManager.incrementAICallCount now (riskManager b)) (orders b) in
    if Num.ltb (ai_confidence aiDecision)
         (aiMinConfidence (RiskManager.config m))
    then b
    else
      match decision with
      | BUY => executeTrade rest pair marketData aiDecision now filled b
      | HOLD => b
      end.

Definition processPair (config : Config) (rest : ConfigRest) (pair : string)
    (marketData : MarketData) (candles : list Candle)
    (advice : Level -> PyramidDecision) (aiDecision : AIDecision)
    (decision : Decision) (now : Z) (writeOk filled : bool) (b : Bot) : Bot :=
  match PositionTracker.getPosition pair (positionTracker b) with
  | Some _ => monitorPosition config rest pair marketData advice now writeOk b
  | None =>
      tryEntry rest pair marketData candles aiDecision decision now filled b
  end.

(** What one call of [processPair] is given: the instrument, the market
    data fetched for it, and what the collaborators answer when asked. *)
Record Tick := mkTick {
  tk_pair : string;
  tk_marketData : MarketData;
  tk_candles : list Candle;
  tk_advice : Level -> PyramidDecision;
  tk_aiDecision : AIDecision;
  tk_decision : Decision;
  tk_now : Z;
  tk_writeOk : bool;
  tk_filled : bool
}.

Definition processTick (config : Config) (rest : ConfigRest) (b : Bot)
    (tk : Tick) : Bot :=
  processPair config rest (tk_pair tk) (tk_marketData tk) (tk_candles tk)
    (tk_advice tk) (tk_aiDecision tk) (tk_decision tk) (tk_now tk)
    (tk_writeOk tk) (tk_filled tk) b.

Definition processTicks (config : Config) (rest : ConfigRest)
    (tks : list Tick) (b : Bot) : Bot :=
  fold_left (processTick config rest) tks b.

(** What [tradingIteration] does to the bot between two fetches: it hands
    the BTC momentum to the risk manager, or processes a pair. *)
Inductive Event :=
| Momentum (momentum : Q)
| Pair (tk : Tick).

Definition handle (config : Config) (rest : ConfigRest) (b : Bot)
    (e : Event) : Bot :=
  match e with
  | Momentum momentum =>
      mkBot (positionTracker b) (positionSizer b)
        (RiskManager.mkClocked
           (RiskManager.updateBTCMomentum momentum
              (RiskManager.manager (riskManager b)))
           (RiskManager.lastAICallReset (riskManager b)))
        (orders b)
  | Pair tk => processTick config rest b tk
  end.

Definition handleAll (config : Config) (rest : ConfigRest)
    (es : list Event) (b : Bot) : Bot :=
  fold_left (handle config rest) es b.

(** The pyramid levels of a position are none, level 1, or level 1 then
    level 2, and the activated count is their number. *)
Definition ordered (p : Position) : Prop :=
  (map level (pyramidLevels p) = []
   \/ map level (pyramidLevels p) = [L1]
   \/ map level (pyramidLevels p) = [L1; L2])
  /\ pyramidLevelsActivated p = Z.of_nat (length (pyramidLevels p)).

(** The volume bought and the volume sold for an instrument, over a list
    of orders. *)
Definition traded (pair : string) (side : Side) (os : list Order) : Q :=
  fold_right
    (fun o acc =>
       if String.eqb (o_pair o) pair
          && match o_side o, side with
             | buy, buy | sell, sell => true
             | _, _ => false
             end
       then o_volume o + acc else acc) 0 os.

(** The exit reasons that [monitorPosition] records. *)
Definition exitReasons : list string :=
  ["Stop Loss"; "Erosion Cap Exceeded"; "Momentum Failure"; "Profit Target"].

(** What the bot holds of an instrument according to the orders it sent:
    bought minus sold. *)
Definition exposure (pair : string) (os : list Order) : Q :=
  traded pair buy os - traded pair sell os.

(** The orders sent account for the ledger: the exposure on every
    instrument is the total volume of its tracked position, and 0 when it
    has none. *)
Definition balanced (b : Bot) : Prop :=
  forall k,
    exposure k (orders b)
    == match PositionTracker.positions (positionTracker b) !! k with
       | Some p => totalVolume p
       | None => 0
       end.

(** A step that keeps the position of an instrument open: the managers,
    the closed history and the other instruments are as before; the
    position keeps its initial volume and the order of its levels; in live
    trading the exposure moves as the total volume does, in paper trading
    no order is sent. *)
Definition keeps (rest : ConfigRest) (k : string) (b b' : Bot) : Prop :=
  riskManager b' = riskManager b
  /\ positionSizer b' = positionSizer b
  /\ PositionTracker.closedPositions (positionTracker b')
     = PositionTracker.closedPositions (positionTracker b)
  /\ PositionTracker.disk (positionTracker b')
     = PositionTracker.disk (positionTracker b)
  /\ (forall other, other <> k ->
        PositionTracker.positions (positionTracker b') !! other
        = PositionTracker.positions (positionTracker b) !! other)
  /\ (forall other, other <> k ->
        exposure other (orders b') == exposure other (orders b))
  /\ (paperTrading rest = true -> orders b' = orders b)
  /\ forall q,
       PositionTracker.positions (positionTracker b) !! k = Some q ->
       exists q',
         PositionTracker.positions (positionTracker b') !! k = Some q'
         /\ (ordered q -> ordered q')
         /\ volume q' = volume q
         /\ (paperTrading rest = false ->
             exposure k (orders b') - exposure k (orders b)
             == totalVolume q' - totalVolume q).

End TradingBot.

(** ** Sample ledgers *)

Module Sample.

Import PositionTracker.

Definition ai : AIDecision := mkAIDecision 80 [].

(** One BTC position: 0.1 units bought at 50000. *)
Definition fresh : t :=
  addPosition "BTC/USD" 50000 0.1 47500 55000 ai 25 moderate 0.008 1000 empty.

(** The price went to 51000 and came back to 50000. *)
Definition eroded : t :=
  run "BTC/USD" [Update 51000; Update 50000] fresh.

(** A level 1 added at 52250. *)
Definition pyramided : t :=
  run "BTC/USD" [Update 52250; AddLevel L1 52250 0.02 85 2000] fresh.


(** The defaults of [loadConfig]. *)
Definition cfg : Config :=
  mkConfig 0.05 (-0.015) 3.0 0.005 20
    true 0.02 (-0.003) (-0.005) 0.9 1.0 0.005 0.98 2
    70 300 0.002 3.0 2.0.

Definition manager : RiskManager.t := RiskManager.mkRiskManager cfg 0 0.

(** A choppy market (ADX 15) with the price at the recent high. *)
Definition choppyTop : Indicators :=
  mkIndicators 50 (mkMacd 0 0 0) 15 1.0 0.5 1.0 51500 50000 50000.

(** The momentum reversal of the detector's unit tests. *)
Definition reversal : MarketData :=
  mkMarketData "BTC/USD" 51400 51395 51405 50
    (mkIndicators 70 (mkMacd 0 0 0) 22 0.8 (-0.35) 0.3 51500 50000 50500).

(** A position with 3% profit and no pyramid level. *)
Definition inProfit : Position :=
  mkPosition "BTC/USD" 50000 0.1 1000 47500 55000 [] 0.1 0 1500 3.0 1500
    0.008 0 [] 25 moderate open None None None.

(** A sizer with 10 trades, all of them won. *)
Definition allWins : DynamicPositionSizer.t :=
  DynamicPositionSizer.mkSizer 10000 10 10 0 0.025 0.015.



End Sample.

(** ** More samples *)

Module Sample2.

(** The defaults of [loadConfig] for the remaining fields. *)
Definition rest : ConfigRest :=
  mkConfigRest true 0.10 true 0.05 20 35 true 0.045 0.08 0.35 0.5 85 90
    0.006 0.008.

(** The same, for live trading. *)
Definition live : ConfigRest :=
  mkConfigRest false 0.10 true 0.05 20 35 true 0.045 0.08 0.35 0.5 85 90
    0.006 0.008.

(** A bot that has just started, with 10000 of balance. *)
Definition bot : TradingBot.Bot :=
  TradingBot.mkBot (PositionTracker.construct None)
    (DynamicPositionSizer.create 10000)
    (RiskManager.mkClocked Sample.manager 0) [].

(** A trending market with room below the recent high. *)
Definition trending : MarketData :=
  mkMarketData "BTC/USD" 50000 49995 50005 100
    (mkIndicators 55 (mkMacd 0 0 0) 28 1.5 0.8 1.2 51500 49000 48000).

Definition candle : Candle := mkCandle 0 50000 50100 49900 50000 10.

(** The same market after a rise of 9%. *)
Definition risen : MarketData :=
  mkMarketData "BTC/USD" 54500 54495 54505 100
    (mkIndicators 60 (mkMacd 0 0 0) 30 1.5 0.8 1.2 60000 49000 48000).

Definition keen (lvl : Level) : PyramidDecision :=
  mkPyramidDecision true lvl 95 [].

(** Two closed trades: a win of 300 and a loss of 100. *)
Definition twoTrades : PositionTracker.t :=
  PositionTracker.execAll
    [PositionTracker.Open "BTC/USD" 50000 0.1 47500 55000 Sample.ai 25
       moderate 0.008 1;
     PositionTracker.Close "BTC/USD" 53000 "Profit Target" 2 true;
     PositionTracker.Open "ETH/USD" 3000 1 2850 3300 Sample.ai 25 moderate
       0.008 3;
     PositionTracker.Close "ETH/USD" 2900 "Stop Loss" 4 true]
    (PositionTracker.construct None).

(** An entry that every gate lets through, and the tick after the rise. *)
Definition enter : TradingBot.Tick :=
  TradingBot.mkTick "BTC/USD" trending [candle] keen
    (mkAIDecision 80 []) BUY 1 true true.

Definition rise : TradingBot.Tick :=
  TradingBot.mkTick "BTC/USD" risen [candle] keen (mkAIDecision 80 []) BUY
    2 true true.

(** The price falls through the stop. *)
Definition crash : TradingBot.Tick :=
  TradingBot.mkTick "BTC/USD"
    (mkMarketData "BTC/USD" 47000 46995 47005 100
       (mkIndicators 30 (mkMacd 0 0 0) 30 1.5 (-2) (-1) 60000 46000 48000))
    [candle] keen (mkAIDecision 80 []) BUY 3 true true.

End Sample2.

(** * Properties *)

(** ** Numbers *)

Module NumFacts.

Lemma leb_le x y : Num.leb x y = true <-> x <= y.
Proof. unfold Num.leb. apply Qle_bool_iff. Qed.

Lemma leb_gt x y : Num.leb x y = false <-> y < x.
Proof.
  unfold Num.leb. split; intros H.
  - apply Qnot_le_lt. intros Hle. apply Qle_bool_iff in Hle. congruence.
  - destruct (Qle_bool x y) eqn:E; [|reflexivity].
    apply Qle_bool_iff in E. lra.
Qed.

Lemma ltb_lt x y : Num.ltb x y = true <-> x < y.
Proof. unfold Num.ltb. rewrite negb_true_iff. apply leb_gt. Qed.

Lemma ltb_ge x y : Num.ltb x y = false <-> y <= x.
Proof. unfold Num.ltb. rewrite negb_false_iff. apply leb_le. Qed.

Lemma gtb_gt x y : Num.gtb x y = true <-> y < x.
Proof. apply ltb_lt. Qed.

Lemma gtb_le x y : Num.gtb x y = false <-> x <= y.
Proof. apply ltb_ge. Qed.

Lemma geb_ge x y : Num.geb x y = true <-> y <= x.
Proof. apply leb_le. Qed.

Lemma geb_lt x y : Num.geb x y = false <-> x < y.
Proof. apply leb_gt. Qed.

Lemma clamp_bounds lo hi x :
  lo <= hi -> lo <= Num.max lo (Num.min hi x) <= hi.
Proof.
  intros Hlohi. unfold Num.max, Num.min. split.
  - apply Q.le_max_l.
  - apply Q.max_lub; [exact Hlohi | apply Q.le_min_l].
Qed.

Lemma clamp_cases lo hi x :
  lo <= hi ->
  (x <= lo -> Num.max lo (Num.min hi x) == lo)
  /\ (lo <= x <= hi -> Num.max lo (Num.min hi x) == x)
  /\ (hi <= x -> Num.max lo (Num.min hi x) == hi).
Proof.
  intros Hlohi. unfold Num.max, Num.min.
  destruct (Q.min_spec hi x) as [[Hlt Hmin] | [Hle Hmin]];
    destruct (Q.max_spec lo (Qmin hi x)) as [[Hlt' Hmax] | [Hle' Hmax]];
    rewrite Hmax; repeat split; intros; lra.
Qed.

End NumFacts.

(** ** The position ledger *)

Module LedgerFacts.

Import PositionTracker.

(** *** What one call does to the position it finds *)

Section OneInstrument.

Variable pair : string.

Lemma step_lookup s c p :
  positions s !! pair = Some p ->
  positions (step pair s c) !! pair = Some (after c p).
Proof.
  intros Hp. destruct c as [px | lvl px vol conf now]; simpl.
  - unfold updatePosition. rewrite Hp. simpl. apply lookup_insert_eq.
  - unfold addPyramidLevel, hasLevel. rewrite Hp.
    destruct (2 <=? pyramidLevelsActivated p)%Z; [exact Hp|].
    destruct (existsb _ _); [exact Hp|].
    simpl. apply lookup_insert_eq.
Qed.

Lemma run_lookup cs : forall s p,
  positions s !! pair = Some p ->
  positions (run pair cs s) !! pair = Some (fold_left (fun q c => after c q) cs p).
Proof.
  induction cs as [|c cs IH]; intros s p Hp; simpl; [exact Hp|].
  apply IH. apply step_lookup. exact Hp.
Qed.

Lemma step_missing s c :
  positions s !! pair = None -> step pair s c = s.
Proof.
  intros Hp. destruct c; simpl.
  - unfold updatePosition. now rewrite Hp.
  - unfold addPyramidLevel. now rewrite Hp.
Qed.

End OneInstrument.

(** *** The arithmetic of [reprice] *)

Lemma accumulate_profit px ls : forall acc,
  fst (fold_left (accumulate px) ls acc) == fst acc + legsProfit px ls.
Proof.
  induction ls as [|l ls IH]; intros acc; simpl.
  - lra.
  - rewrite IH. simpl. lra.
Qed.

Lemma reprice_currentProfit px p :
  currentProfit (reprice px p)
  == (px - entryPrice p) * volume p + legsProfit px (pyramidLevels p).
Proof.
  unfold reprice. cbv zeta.
  destruct (Num.gtb _ _); simpl; rewrite accumulate_profit; simpl; lra.
Qed.

Lemma reprice_peak_erosion px p :
  let q := reprice px p in
  peakProfit p <= peakProfit q
  /\ 0 <= erosionUsed q
  /\ erosionUsed q == peakProfit q - currentProfit q
  /\ (peakProfit p <= currentProfit q -> erosionUsed q == 0)
  /\ (currentProfit q < peakProfit p ->
      peakProfit q = peakProfit p
      /\ erosionUsed q == peakProfit p - currentProfit q).
Proof.
  unfold reprice. cbv zeta.
  match goal with |- context [Num.gtb ?a ?b] =>
    match a with currentProfit _ => destruct (Num.gtb a b) eqn:E end end.
  - apply NumFacts.gtb_gt in E. simpl in *. repeat split; try lra.
  - apply NumFacts.gtb_le in E. simpl in *. repeat split; try lra.
Qed.

Lemma reprice_frame px p :
  pyramidLevels (reprice px p) = pyramidLevels p
  /\ totalVolume (reprice px p) = totalVolume p
  /\ pyramidLevelsActivated (reprice px p) = pyramidLevelsActivated p
  /\ volume (reprice px p) = volume p
  /\ entryPrice (reprice px p) = entryPrice p
  /\ erosionCap (reprice px p) = erosionCap p.
Proof.
  unfold reprice. cbv zeta.
  match goal with |- context [Num.gtb ?a ?b] =>
    match a with currentProfit _ => destruct (Num.gtb a b) end end;
    simpl; repeat split; reflexivity.
Qed.

Lemma levelsVolume_snoc ls l :
  levelsVolume (ls ++ [l]) == levelsVolume ls + pl_volume l.
Proof.
  induction ls as [|x ls IH].
  - unfold levelsVolume. simpl. lra.
  - change (pl_volume x + levelsVolume (ls ++ [l])
            == pl_volume x + levelsVolume ls + pl_volume l).
    rewrite IH. lra.
Qed.

(** *** Invariants of a position along a history *)

Lemma after_booked vol c p : booked vol p -> booked vol (after c p).
Proof.
  intros (Hv & Ht & Hn & Hle). destruct c as [px | lvl px v conf now]; simpl.
  - destruct (reprice_frame px p) as (Hl & Htv & Ha & Hvol & _).
    unfold booked. rewrite Hl, Htv, Ha, Hvol. auto.
  - destruct (Z.leb_spec 2 (pyramidLevelsActivated p)) as [Hge | Hlt].
    { unfold booked; auto. }
    destruct (hasLevel lvl p). { unfold booked; auto. }
    unfold booked, pushed. simpl. repeat split.
    + exact Hv.
    + rewrite levelsVolume_snoc, Ht. simpl. lra.
    + rewrite length_app. simpl. lia.
    + lia.
Qed.

Lemma history_booked vol cs : forall p,
  booked vol p -> booked vol (fold_left (fun q c => after c q) cs p).
Proof.
  induction cs as [|c cs IH]; intros p Hp; simpl; [exact Hp|].
  apply IH. now apply after_booked.
Qed.

Lemma after_peak c p : peakProfit p <= peakProfit (after c p).
Proof.
  destruct c as [px | lvl px v conf now]; simpl.
  - apply (reprice_peak_erosion px p).
  - destruct (2 <=? _)%Z; [lra|]. destruct (hasLevel lvl p); simpl; lra.
Qed.

Lemma history_peak cs : forall p,
  peakProfit p <= peakProfit (fold_left (fun q c => after c q) cs p).
Proof.
  induction cs as [|c cs IH]; intros p; simpl; [lra|].
  pose proof (after_peak c p). pose proof (IH (after c p)). lra.
Qed.

Lemma after_erosion c p :
  0 <= erosionUsed p -> 0 <= erosionUsed (after c p).
Proof.
  intros H. destruct c as [px | lvl px v conf now]; simpl.
  - apply (reprice_peak_erosion px p).
  - destruct (2 <=? _)%Z; [exact H|]. destruct (hasLevel lvl p); exact H.
Qed.

Lemma history_erosion cs : forall p,
  0 <= erosionUsed p ->
  0 <= erosionUsed (fold_left (fun q c => after c q) cs p).
Proof.
  induction cs as [|c cs IH]; intros p H; simpl; [exact H|].
  apply IH. now apply after_erosion.
Qed.

Lemma addLevel_profit_frame lvl px v conf now p :
  let q := after (AddLevel lvl px v conf now) p in
  peakProfit q = peakProfit p
  /\ currentProfit q = currentProfit p
  /\ erosionUsed q = erosionUsed p.
Proof.
  simpl. destruct (2 <=? _)%Z; [auto|].
  destruct (hasLevel lvl p); simpl; auto.
Qed.

Lemma history_underwater pair cs : forall s p,
  positions s !! pair = Some p ->
  underwater p ->
  Forall (fun c => c < 0) (profits pair cs s) ->
  exists q, positions (run pair cs s) !! pair = Some q /\ underwater q.
Proof.
  induction cs as [|c cs IH]; intros s p Hp Hu Hneg.
  - exists p. auto.
  - pose proof (step_lookup pair s c p Hp) as Hstep.
    simpl in Hneg. rewrite Hstep in Hneg. simpl.
    apply (IH _ _ Hstep); destruct c as [px | lvl px v conf now].
    + inversion Hneg as [|x l Hx Hl]; subst.
      destruct Hu as (Hpk & _).
      destruct (reprice_peak_erosion px p) as (_ & _ & _ & _ & Hbelow).
      destruct Hbelow as (Hsame & Her).
      { simpl in Hx. lra. }
      simpl. unfold underwater. rewrite Hsame. split; [exact Hpk | lra].
    + destruct (addLevel_profit_frame lvl px v conf now p) as (H1 & H2 & H3).
      unfold underwater. rewrite H1, H2, H3. exact Hu.
    + now inversion Hneg.
    + exact Hneg.
Qed.

Lemma settle_currentProfit px now why p :
  ~ entryPrice p == 0 ->
  currentProfit (settle px now why p) == volume p * (px - entryPrice p).
Proof. intros Hnz. unfold settle. simpl. field. exact Hnz. Qed.

End LedgerFacts.


(** ** Claims about the ledger *)

Module Ledger.

Import PositionTracker LedgerFacts.

(** C10. When the instrument has no open position, [checkStopLoss],
    [checkProfitTarget], [checkErosionCap], [isReadyForL1],
    [isReadyForL2] and [addPyramidLevel] answer [false], and
    [updatePosition], [closePosition] and [addPyramidLevel] return the
    ledger (open positions, closed history, file) as it was.  Every
    operation is a total function: none has an exceptional outcome. *)
Theorem missing_instrument_is_inert (s : t) (pair : string) :
  positions s !! pair = None ->
  forall (px trigger vol conf : Q) (lvl : Level) (why : string) (now : Z)
         (writeOk : bool),
    checkStopLoss pair px s = false
    /\ checkProfitTarget pair px s = false
    /\ checkErosionCap pair s = false
    /\ isReadyForL1 pair px trigger s = false
    /\ isReadyForL2 pair px trigger s = false
    /\ addPyramidLevel pair lvl px vol conf now s = (false, s)
    /\ updatePosition pair px s = s
    /\ closePosition pair px why now writeOk s = s.
Proof.
  intros Hnone px trigger vol conf lvl why now writeOk.
  unfold checkStopLoss, checkProfitTarget, checkErosionCap, isReadyForL1,
    isReadyForL2, addPyramidLevel, updatePosition, closePosition.
  rewrite Hnone. repeat split; reflexivity.
Qed.

Lemma missing_instrument_is_inert_witness :
  checkErosionCap "ETH/USD" Sample.fresh = false
  /\ updatePosition "ETH/USD" 3000 Sample.fresh = Sample.fresh
  /\ closePosition "ETH/USD" 3000 "Stop Loss" 5 true Sample.fresh
     = Sample.fresh.
Proof.
  assert (H : positions Sample.fresh !! "ETH/USD" = None)
    by (vm_compute; reflexivity).
  pose proof (missing_instrument_is_inert Sample.fresh "ETH/USD" H
                3000 0.045 0.02 85 L1 "Stop Loss" 5%Z true) as W.
  split; [apply W | split; apply W].
Defined.

(** What [checkErosionCap] computes: the cap is only compared on a
    position that has an activated pyramid level. *)
Lemma checkErosionCap_true_iff (s : t) (pair : string) :
  checkErosionCap pair s = true <->
  exists p, positions s !! pair = Some p
            /\ pyramidLevelsActivated p <> 0%Z
            /\ erosionCap p < erosionUsed p.
Proof.
  unfold checkErosionCap. split.
  - destruct (positions s !! pair) as [p|]; [|discriminate].
    destruct (Z.eqb_spec (pyramidLevelsActivated p) 0); [discriminate|].
    destruct (Num.gtb _ _) eqn:E; [|discriminate].
    intros _. exists p. apply NumFacts.gtb_gt in E. auto.
  - intros (p & -> & Hn & Hlt).
    destruct (Z.eqb_spec (pyramidLevelsActivated p) 0); [contradiction|].
    apply NumFacts.gtb_gt in Hlt. now rewrite Hlt.
Qed.

(** C1. On the ledger [Sample.eroded] (one BTC position without pyramid
    level, peak profit 100, current profit 0) the erosion used, 100, is
    above the cap, 0.008, and [checkErosionCap] still answers [false]. *)
Theorem checkErosionCap_skips_unpyramided :
  exists p, positions Sample.eroded !! "BTC/USD" = Some p
            /\ status p = open
            /\ pyramidLevelsActivated p = 0%Z
            /\ erosionCap p < erosionUsed p
            /\ checkErosionCap "BTC/USD" Sample.eroded = false.
Proof.
  eexists. split; [vm_compute; reflexivity|].
  repeat split; vm_compute; reflexivity.
Qed.

(** C2, as stated, fails: on the fresh position of [Sample.fresh], which
    has no level 1, adding level 2 succeeds. *)
Lemma addPyramidLevel_accepts_level2_first :
  exists p, positions Sample.fresh !! "BTC/USD" = Some p
            /\ hasLevel L1 p = false
            /\ fst (addPyramidLevel "BTC/USD" L2 54000 0.05 90 2000
                      Sample.fresh) = true.
Proof.
  eexists. split; [vm_compute; reflexivity|].
  split; vm_compute; reflexivity.
Qed.

(** C2, amended.  [addPyramidLevel] returns [false] and leaves the ledger
    unchanged when the position already has 2 activated levels or already
    holds the requested level; in every other case (the order of the
    levels is not looked at) it returns [true], appends the level, adds
    its volume to [totalVolume] and adds one to the activated count. *)
Theorem addPyramidLevel_outcomes (s : t) (pair : string) (p : Position)
    (lvl : Level) (px vol conf : Q) (now : Z) :
  positions s !! pair = Some p ->
  let r := addPyramidLevel pair lvl px vol conf now s in
  ((2 <= pyramidLevelsActivated p)%Z \/ hasLevel lvl p = true ->
     r = (false, s))
  /\ ((pyramidLevelsActivated p < 2)%Z -> hasLevel lvl p = false ->
      fst r = true
      /\ exists q, positions (snd r) !! pair = Some q
           /\ pyramidLevels q =
              pyramidLevels p ++
              [mkPyramidLevel lvl px vol now
                 (match lvl with L1 => 0.045 | L2 => 0.08 end) conf active]
           /\ totalVolume q = totalVolume p + vol
           /\ pyramidLevelsActivated q = (pyramidLevelsActivated p + 1)%Z
           /\ closedPositions (snd r) = closedPositions s
           /\ forall other, other <> pair ->
                positions (snd r) !! other = positions s !! other).
Proof.
  intros Hp r. subst r. unfold addPyramidLevel, hasLevel. rewrite Hp.
  split.
  - intros [Hmax | Hdup].
    + apply Z.leb_le in Hmax. now rewrite Hmax.
    + destruct (2 <=? pyramidLevelsActivated p)%Z; [reflexivity|].
      now rewrite Hdup.
  - intros Hlt Hnew. apply Z.leb_gt in Hlt. rewrite Hlt, Hnew. simpl.
    split; [reflexivity|].
    eexists. split; [apply lookup_insert_eq|].
    simpl. repeat split.
    intros other Hne. now apply lookup_insert_ne.
Qed.

Lemma addPyramidLevel_outcomes_witness :
  fst (addPyramidLevel "BTC/USD" L2 54000 0.05 90 3000 Sample.pyramided)
    = true
  /\ addPyramidLevel "BTC/USD" L1 54000 0.05 90 3000 Sample.pyramided
     = (false, Sample.pyramided).
Proof.
  assert (H : positions Sample.pyramided !! "BTC/USD"
              = Some (fold_left (fun q c => after c q)
                        [Update 52250; AddLevel L1 52250 0.02 85 2000]
                        (mkPosition "BTC/USD" 50000 0.1 1000 47500 55000 []
                           0.1 0 0 0 0 0.008 0 [] 25 moderate open None
                           None None))).
  { apply run_lookup. vm_compute. reflexivity. }
  split.
  - apply (addPyramidLevel_outcomes _ _ _ L2 54000 0.05 90 3000 H);
      vm_compute; reflexivity.
  - apply (addPyramidLevel_outcomes _ _ _ L1 54000 0.05 90 3000 H).
    right. vm_compute. reflexivity.
Defined.

End Ledger.

(** ** Claims about profit, peak and erosion *)

Module Profit.

Import PositionTracker LedgerFacts.

(** C5. A position created by [addPosition] with volume [vol], after any
    history of [updatePosition] and [addPyramidLevel] calls (the rejected
    adds change nothing, so the history may hold them too): [totalVolume]
    is [vol] plus the sum of the volumes of its pyramid levels, the
    activated count is the number of levels, and it is at most 2. *)
Theorem totals_along_history (s : t) (pair : string)
    (entry vol sl tp : Q) (ai : AIDecision) (adx : Q) (rg : Regime)
    (cap : Q) (now : Z) (cs : list call) :
  positions s !! pair = None ->
  exists p,
    positions (run pair cs
                 (addPosition pair entry vol sl tp ai adx rg cap now s))
      !! pair = Some p
    /\ volume p = vol
    /\ totalVolume p == vol + levelsVolume (pyramidLevels p)
    /\ pyramidLevelsActivated p = Z.of_nat (length (pyramidLevels p))
    /\ (pyramidLevelsActivated p <= 2)%Z.
Proof.
  intros Hnone. eexists. split.
  - apply run_lookup. unfold addPosition. rewrite Hnone. simpl.
    apply lookup_insert_eq.
  - apply history_booked. unfold booked. simpl.
    repeat split; [lra | lia].
Qed.

Lemma totals_along_history_witness :
  exists p,
    positions Sample.pyramided !! "BTC/USD" = Some p
    /\ volume p = 0.1
    /\ totalVolume p == 0.1 + levelsVolume (pyramidLevels p)
    /\ pyramidLevelsActivated p = Z.of_nat (length (pyramidLevels p))
    /\ (pyramidLevelsActivated p <= 2)%Z.
Proof.
  apply (totals_along_history empty "BTC/USD" 50000 0.1 47500 55000
           Sample.ai 25 moderate 0.008 1000
           [Update 52250; AddLevel L1 52250 0.02 85 2000]).
  vm_compute. reflexivity.
Defined.

(** C4. Take an open position, any history of calls on it, and one more
    [updatePosition].  The peak never goes down, neither along the
    history nor at the update; after the update the erosion used is not
    negative; it is 0 when the new current profit reaches or exceeds the
    previous peak; otherwise the peak is kept and the erosion used is the
    peak minus the current profit.  An erosion used that is not negative
    at the start (it is 0 at creation) is not negative after the
    history. *)
Theorem peak_and_erosion_along_updates (s : t) (pair : string)
    (p : Position) (cs : list call) (px : Q) :
  positions s !! pair = Some p ->
  exists p1 p2,
    positions (run pair cs s) !! pair = Some p1
    /\ positions (updatePosition pair px (run pair cs s)) !! pair = Some p2
    /\ peakProfit p <= peakProfit p1
    /\ peakProfit p1 <= peakProfit p2
    /\ 0 <= erosionUsed p2
    /\ (peakProfit p1 <= currentProfit p2 -> erosionUsed p2 == 0)
    /\ (currentProfit p2 < peakProfit p1 ->
        peakProfit p2 = peakProfit p1
        /\ erosionUsed p2 == peakProfit p2 - currentProfit p2)
    /\ (0 <= erosionUsed p -> 0 <= erosionUsed p1).
Proof.
  intros Hp.
  pose proof (run_lookup pair cs s p Hp) as H1.
  pose proof (step_lookup pair _ (Update px) _ H1) as H2. simpl in H2.
  eexists. eexists. split; [exact H1|]. split; [exact H2|].
  split; [apply history_peak|].
  destruct (reprice_peak_erosion px
              (fold_left (fun q c => after c q) cs p))
    as (Hmono & Hpos & Heq & Hnew & Hbelow).
  split; [exact Hmono|]. split; [exact Hpos|]. split; [exact Hnew|].
  split; [|apply history_erosion].
  intros Hlt. split; [apply (Hbelow Hlt) | exact Heq].
Qed.

Lemma peak_and_erosion_along_updates_witness :
  exists p1 p2,
    positions (run "BTC/USD" [Update 51000] Sample.fresh) !! "BTC/USD"
      = Some p1
    /\ positions (updatePosition "BTC/USD" 50000
                    (run "BTC/USD" [Update 51000] Sample.fresh))
         !! "BTC/USD" = Some p2
    /\ 0 <= peakProfit p1
    /\ peakProfit p1 <= peakProfit p2
    /\ 0 <= erosionUsed p2.
Proof.
  destruct (peak_and_erosion_along_updates Sample.fresh "BTC/USD"
              (mkPosition "BTC/USD" 50000 0.1 1000 47500 55000 []
                 0.1 0 0 0 0 0.008 0 [] 25 moderate open None None None)
              [Update 51000] 50000)
    as (p1 & p2 & H1 & H2 & H3 & H4 & H5 & _).
  - vm_compute. reflexivity.
  - exists p1, p2. auto.
Defined.

(** C9. [addPosition] creates the position with [peakProfit] 0.  After
    any history in which every [updatePosition] left a negative current
    profit, the peak is still 0 and the erosion used is the whole
    unrealized loss, [- currentProfit]. *)
Theorem erosion_of_never_profitable (s : t) (pair : string)
    (entry vol sl tp : Q) (ai : AIDecision) (adx : Q) (rg : Regime)
    (cap : Q) (now : Z) (cs : list call) :
  positions s !! pair = None ->
  let s0 := addPosition pair entry vol sl tp ai adx rg cap now s in
  Forall (fun c => c < 0) (profits pair cs s0) ->
  (exists p0, positions s0 !! pair = Some p0 /\ peakProfit p0 = 0)
  /\ exists p, positions (run pair cs s0) !! pair = Some p
               /\ peakProfit p == 0
               /\ erosionUsed p == - currentProfit p.
Proof.
  intros Hnone s0 Hneg.
  assert (H0 : positions s0 !! pair
               = Some (mkPosition pair entry vol now sl tp [] vol 0 0 0 0
                         cap 0 (reasoning ai) adx rg open None None None)).
  { subst s0. unfold addPosition. rewrite Hnone. simpl.
    apply lookup_insert_eq. }
  split.
  - eexists. split; [exact H0 | reflexivity].
  - destruct (history_underwater pair cs s0 _ H0) as (q & Hq & Hu1 & Hu2).
    + unfold underwater. simpl. split; lra.
    + exact Hneg.
    + exists q. auto.
Qed.

Lemma erosion_of_never_profitable_witness :
  exists p,
    positions (run "BTC/USD" [Update 49000; Update 48000] Sample.fresh)
      !! "BTC/USD" = Some p
    /\ peakProfit p == 0
    /\ erosionUsed p == - currentProfit p.
Proof.
  apply (erosion_of_never_profitable empty "BTC/USD" 50000 0.1 47500 55000
           Sample.ai 25 moderate 0.008 1000 [Update 49000; Update 48000]).
  - vm_compute. reflexivity.
  - vm_compute. repeat constructor.
Defined.

End Profit.

(** ** Claims about the profit recorded at close *)

Module Close.

Import PositionTracker LedgerFacts.

(** C3. Closing a position that has at least one pyramid level (and a
    non-zero entry price, the divisor of [closePosition]) appends to the
    history a record whose profit is that of the initial leg alone,
    [volume * (exitPrice - entryPrice)]; [updatePosition] at the same
    price computes this amount plus the profit of every pyramid level.
    On [Sample.pyramided], closed at 53000 with its level 1 entered at
    52250, the two amounts differ. *)
Theorem close_records_initial_leg_only (s : t) (pair : string)
    (p : Position) (px : Q) (why : string) (now : Z) (writeOk : bool) :
  positions s !! pair = Some p ->
  pyramidLevels p <> [] ->
  ~ entryPrice p == 0 ->
  (exists c q,
     closedPositions (closePosition pair px why now writeOk s)
       = closedPositions s ++ [c]
     /\ positions (updatePosition pair px s) !! pair = Some q
     /\ currentProfit c == volume p * (px - entryPrice p)
     /\ currentProfit q
        == currentProfit c + legsProfit px (pyramidLevels p))
  /\ (exists c q,
        closedPositions
          (closePosition "BTC/USD" 53000 "Profit Target" 3000 true
             Sample.pyramided) = [c]
        /\ positions (updatePosition "BTC/USD" 53000 Sample.pyramided)
             !! "BTC/USD" = Some q
        /\ pyramidLevels q <> []
        /\ ~ currentProfit c == currentProfit q).
Proof.
  intros Hp Hlv Hnz. split.
  - exists (settle px now why p), (reprice px p).
    split; [|split; [|split]].
    + unfold closePosition. rewrite Hp. unfold savePositions.
      destruct writeOk; reflexivity.
    + unfold updatePosition. rewrite Hp. simpl. apply lookup_insert_eq.
    + now apply settle_currentProfit.
    + rewrite reprice_currentProfit, settle_currentProfit by exact Hnz.
      lra.
  - eexists. eexists.
    split; [vm_compute; reflexivity|].
    split; [vm_compute; reflexivity|].
    split; [discriminate|].
    vm_compute. discriminate.
Qed.

Lemma close_records_initial_leg_only_witness :
  exists c q,
    closedPositions
      (closePosition "BTC/USD" 53000 "Profit Target" 3000 true
         Sample.pyramided) = closedPositions Sample.pyramided ++ [c]
    /\ positions (updatePosition "BTC/USD" 53000 Sample.pyramided)
         !! "BTC/USD" = Some q
    /\ currentProfit c == 0.1 * (53000 - 50000)
    /\ currentProfit q == currentProfit c + (53000 - 52250) * 0.02.
Proof.
  destruct (close_records_initial_leg_only Sample.pyramided "BTC/USD"
              (fold_left (fun q c => after c q)
                 [Update 52250; AddLevel L1 52250 0.02 85 2000]
                 (mkPosition "BTC/USD" 50000 0.1 1000 47500 55000 []
                    0.1 0 0 0 0 0.008 0 [] 25 moderate open None None
                    None))
              53000 "Profit Target" 3000%Z true)
    as ((c & q & H1 & H2 & H3 & H4) & _).
  - apply run_lookup. vm_compute. reflexivity.
  - vm_compute. discriminate.
  - vm_compute. discriminate.
  - exists c, q. split; [exact H1|]. split; [exact H2|].
    split; [exact H3|]. rewrite H4. vm_compute. reflexivity.
Defined.

End Close.

(** ** Claims about the entry gate pipeline *)

Module Gate.

Import RiskManager.

Lemma checkHealthGate_shaped adx m : shaped 1 (checkHealthGate adx m).
Proof.
  unfold checkHealthGate, shaped.
  destruct (Num.geb _ _); [right; eauto|].
  destruct adx as [a|]; [|now left].
  destruct (isChoppyMarket a m); [right; eauto | now left].
Qed.

Lemma checkDropProtection_shaped pair ticker ind m :
  shaped 2 (checkDropProtection pair ticker ind m).
Proof.
  unfold checkDropProtection, shaped.
  destruct (negb _ && _); [right; eauto|].
  destruct (Num.gtb (volumeRatio ind) _); [right; eauto|].
  destruct ticker as [spread|]; [|now left].
  destruct (Num.gtb spread 0); [|now left].
  destruct (Num.gtb _ _); [right; eauto | now left].
Qed.

Lemma checkEntryQuality_shaped price ind :
  shaped 3 (checkEntryQuality price ind).
Proof.
  unfold checkEntryQuality, shaped.
  destruct (Num.gtb price _); [right; eauto|].
  destruct (Num.gtb (rsi ind) _); [right; eauto|].
  cbv zeta. destruct (negb _); [right; eauto | now left].
Qed.

Lemma checkCostFloor_shaped costs m : shaped 5 (checkCostFloor costs m).
Proof.
  unfold checkCostFloor, shaped.
  destruct (negb (passesCostFloor costs)); [right; eauto|].
  destruct (negb (passesRiskRewardRatio costs)); [right; eauto|].
  destruct (Num.leb _ _); [right; eauto | now left].
Qed.

Lemma shaped_stage n r : shaped n r -> stage r = Some n.
Proof. intros [-> | (why & ->)]; reflexivity. Qed.

Lemma shaped_reason n r : shaped n r -> pass r = false -> reason r <> None.
Proof. intros [-> | (why & ->)]; simpl; [discriminate|]. discriminate. Qed.

(** C6. [runFullRiskFilter] looks at the stages 1, 2, 3, 5 in this
    order and returns the first one that does not pass, with
    [pass = false], that stage's index and a reason; when stage 1 does not
    pass the result is the one of stage 1, whatever the later stages would
    say; the result passes exactly when every stage passes, and is then
    [{pass: true, stage: 5}].  One rejection is logged for a failure and
    none for a pass. *)
Theorem runFullRiskFilter_first_failure (pair : string) (price : Q)
    (ind : Indicators) (ticker : option Q) (profitTarget : Q) (m : t) :
  let out := runFullRiskFilter pair price ind ticker profitTarget m in
  let r := fst out in
  let ss := stages pair price ind ticker profitTarget m in
  map stage ss = [Some 1; Some 2; Some 3; Some 5]%Z
  /\ r = match find (fun x => negb (pass x)) ss with
         | Some failing => failing
         | None => passed 5
         end
  /\ (pass r = false ->
      reason r <> None
      /\ exists n lg, stage r = Some n /\ In r ss
                      /\ snd out = [mkRejection pair lg (reason r)])
  /\ (pass (checkHealthGate (Some (ind_adx ind)) m) = false ->
      r = checkHealthGate (Some (ind_adx ind)) m
      /\ pass r = false /\ stage r = Some 1%Z)
  /\ (pass r = true <-> forallb pass ss = true)
  /\ (pass r = true -> r = passed 5 /\ snd out = []).
Proof.
  cbv zeta. unfold runFullRiskFilter, stages.
  pose proof (checkHealthGate_shaped (Some (ind_adx ind)) m) as H1.
  pose proof (checkDropProtection_shaped pair ticker ind m) as H2.
  pose proof (checkEntryQuality_shaped price ind) as H3.
  pose proof (checkCostFloor_shaped
                (calculateCosts pair profitTarget m) m) as H5.
  set (health := checkHealthGate _ m) in *.
  set (drop := checkDropProtection _ _ _ m) in *.
  set (quality := checkEntryQuality _ _) in *.
  set (cost := checkCostFloor _ m) in *.
  split.
  { simpl. now rewrite (shaped_stage _ _ H1), (shaped_stage _ _ H2),
      (shaped_stage _ _ H3), (shaped_stage _ _ H5). }
  simpl.
  destruct (pass health) eqn:E1; simpl.
  2:{ repeat split; try congruence.
      - now apply (shaped_reason 1).
      - exists 1%Z, "health_check". rewrite (shaped_stage _ _ H1). auto.
      - now rewrite (shaped_stage _ _ H1). }
  destruct (pass drop) eqn:E2; simpl.
  2:{ repeat split; try congruence.
      - now apply (shaped_reason 2).
      - exists 2%Z, "drop_protection". rewrite (shaped_stage _ _ H2). auto 10. }
  destruct (pass quality) eqn:E3; simpl.
  2:{ repeat split; try congruence.
      - now apply (shaped_reason 3).
      - exists 3%Z, "entry_quality". rewrite (shaped_stage _ _ H3). auto 10. }
  destruct (pass cost) eqn:E5; simpl.
  2:{ repeat split; try congruence.
      - now apply (shaped_reason 5).
      - exists 5%Z, "cost_validation". rewrite (shaped_stage _ _ H5).
        auto 10. }
  repeat split; try congruence; try discriminate.
Qed.

Lemma runFullRiskFilter_first_failure_witness :
  pass (checkEntryQuality 51500 Sample.choppyTop) = false
  /\ pass (fst (runFullRiskFilter "BTC/USD" 51500 Sample.choppyTop
                  (Some 10) 0.10 Sample.manager)) = false
  /\ stage (fst (runFullRiskFilter "BTC/USD" 51500 Sample.choppyTop
                   (Some 10) 0.10 Sample.manager)) = Some 1%Z.
Proof.
  split; [vm_compute; reflexivity|].
  apply (runFullRiskFilter_first_failure "BTC/USD" 51500 Sample.choppyTop
           (Some 10) 0.10 Sample.manager).
  vm_compute. reflexivity.
Defined.

End Gate.

(** ** Claims about the momentum failure detector *)

Module Detector.

Import TradingBot.

Lemma raised_bounds g : (0 <= raised g <= 3)%Z.
Proof.
  unfold raised.
  destruct (priceActionFailure g), (volumeExhaustion g), (htfBreakdown g);
    simpl; lia.
Qed.

(** What the detector leaves in its result once both gates are open. *)
Lemma detect_open (config : Config) (md : MarketData) (p : Position) :
  momentumFailureEnabled config = true ->
  momentumFailureMinProfit config <= profitPct p / 100 ->
  let r := detectMomentumFailure config md p in
  signals r
    = mkSignals (signal1 config md p) (signal2 config md p)
        (signal3 config md)
  /\ signalCount r = raised (signals r)
  /\ shouldExit r
     = Num.geb (inject_Z (signalCount r))
         (momentumFailureRequiredSignals config).
Proof.
  intros Hon Hmin. apply NumFacts.ltb_ge in Hmin.
  unfold detectMomentumFailure, signal1, signal2, signal3, thresholds4h.
  cbv zeta. rewrite Hon, Hmin. simpl negb. cbv iota.
  destruct (Num.geb (_ / _) _);
    destruct (Num.ltb (momentum1h (indicators md)) _);
    destruct (Num.ltb (volumeRatio (indicators md)) _);
    destruct (Num.ltb (momentum4h (indicators md)) _);
    destruct (Num.ltb (currentPrice md) _);
    destruct (Num.gtb (ema200 (indicators md)) 0);
    simpl; repeat split; reflexivity.
Qed.

Lemma detect_gated (config : Config) (md : MarketData) (p : Position) :
  momentumFailureEnabled config = false
  \/ profitPct p / 100 < momentumFailureMinProfit config ->
  detectMomentumFailure config md p
  = mkMomentumFailureResult false (mkSignals false false false) 0 [].
Proof.
  intros H. unfold detectMomentumFailure. cbv zeta.
  destruct (momentumFailureEnabled config); simpl; [|reflexivity].
  destruct H as [H | H]; [discriminate|].
  apply NumFacts.ltb_lt in H. now rewrite H.
Qed.

(** C7. [shouldExit] is [true] exactly when the feature is enabled, the
    profit fraction ([profitPct / 100]) is not below the configured
    minimum, and the number of true signals among price-action failure,
    volume exhaustion and higher-timeframe breakdown is at least the
    configured required count.  Past the two gates the result carries
    these three signals and their count.  With the feature disabled, or
    the profit fraction below the minimum, the result is the untouched
    initial one: no exit, no signal, count 0. *)
Theorem detectMomentumFailure_exit_iff (config : Config) (md : MarketData)
    (p : Position) :
  let r := detectMomentumFailure config md p in
  let truths :=
    raised (mkSignals (signal1 config md p) (signal2 config md p)
              (signal3 config md)) in
  (shouldExit r = true <->
     momentumFailureEnabled config = true
     /\ momentumFailureMinProfit config <= profitPct p / 100
     /\ momentumFailureRequiredSignals config <= inject_Z truths)
  /\ (momentumFailureEnabled config = true ->
      momentumFailureMinProfit config <= profitPct p / 100 ->
      signals r
        = mkSignals (signal1 config md p) (signal2 config md p)
            (signal3 config md)
      /\ signalCount r = truths)
  /\ (momentumFailureEnabled config = false
      \/ profitPct p / 100 < momentumFailureMinProfit config ->
      shouldExit r = false
      /\ signalCount r = 0%Z
      /\ signals r = mkSignals false false false).
Proof.
  cbv zeta.
  destruct (momentumFailureEnabled config) eqn:Hon.
  - destruct (Qlt_le_dec (profitPct p / 100)
                (momentumFailureMinProfit config)) as [Hlow | Hok].
    + rewrite (detect_gated config md p) by (right; exact Hlow). simpl.
      split; [|split].
      * split; [discriminate|]. intros (_ & H & _). lra.
      * intros _ H. lra.
      * auto.
    + destruct (detect_open config md p Hon Hok) as (Hs & Hc & He).
      rewrite He, Hc, Hs. split; [|split].
      * rewrite NumFacts.geb_ge. tauto.
      * auto.
      * intros [H | H]; [discriminate | lra].
  - rewrite (detect_gated config md p) by (left; exact Hon). simpl.
    split; [|split].
    + split; [discriminate|]. intros (H & _). discriminate.
    + discriminate.
    + auto.
Qed.

Lemma detectMomentumFailure_exit_iff_witness :
  shouldExit
    (detectMomentumFailure Sample.cfg Sample.reversal Sample.inProfit)
  = true.
Proof.
  apply (detectMomentumFailure_exit_iff Sample.cfg Sample.reversal
           Sample.inProfit).
  vm_compute. repeat split; discriminate.
Defined.

End Detector.

(** ** Claims about the position sizer *)

Module Sizer.

Import DynamicPositionSizer.










End Sizer.

(** * Further properties of the code *)

(** ** The life of a position in the ledger *)

Module Lifecycle.

Import PositionTracker LedgerFacts.

Lemma reprice_identity px p :
  Types.pair (reprice px p) = Types.pair p
  /\ status (reprice px p) = status p
  /\ stopLoss (reprice px p) = stopLoss p
  /\ profitTarget (reprice px p) = profitTarget p.
Proof.
  unfold reprice. cbv zeta.
  match goal with |- context [Num.gtb ?a ?b] =>
    match a with currentProfit _ => destruct (Num.gtb a b) end end;
    simpl; repeat split; reflexivity.
Qed.

Lemma after_identity c p :
  Types.pair (after c p) = Types.pair p /\ status (after c p) = status p.
Proof.
  destruct c as [px | lvl px v conf now]; simpl.
  - destruct (reprice_identity px p) as (H1 & H2 & _). auto.
  - destruct (2 <=? _)%Z; [auto|]. destruct (hasLevel lvl p); simpl; auto.
Qed.

Lemma step_others k s c other :
  other <> k -> positions (step k s c) !! other = positions s !! other.
Proof.
  intros Hne. destruct c as [px | lvl px v conf now]; simpl.
  - unfold updatePosition. destruct (positions s !! k); [|reflexivity].
    simpl. now apply lookup_insert_ne.
  - unfold addPyramidLevel. destruct (positions s !! k) as [p|]; [|reflexivity].
    destruct (2 <=? _)%Z; [reflexivity|].
    destruct (existsb _ _); [reflexivity|]. simpl. now apply lookup_insert_ne.
Qed.

Lemma step_frame k s c :
  closedPositions (step k s c) = closedPositions s
  /\ disk (step k s c) = disk s.
Proof.
  destruct c as [px | lvl px v conf now]; simpl.
  - unfold updatePosition. destruct (positions s !! k); auto.
  - unfold addPyramidLevel. destruct (positions s !! k) as [p|]; [|auto].
    destruct (2 <=? _)%Z; [auto|]. destruct (existsb _ _); auto.
Qed.



(** What one command appends to the closed history. *)
Lemma exec_history s c :
  exists later,
    closedPositions (exec s c) = closedPositions s ++ later
    /\ (length later <= 1)%nat
    /\ Forall (fun q => status q = closed /\ exitPrice q <> None
                        /\ exitReason q <> None) later.
Proof.
  destruct c as [k px vol sl tp ai adx rg cap now | k c
                 | k px why now ok | ]; simpl.
  - exists []. unfold addPosition. destruct (positions s !! k);
      simpl; rewrite app_nil_r; auto.
  - exists []. rewrite (proj1 (step_frame k s c)), app_nil_r. auto.
  - unfold closePosition. destruct (positions s !! k) as [p|].
    + exists [settle px now why p]. unfold savePositions.
      destruct ok; simpl; (split; [reflexivity|]); (split; [lia|]);
        repeat constructor; discriminate.
    + exists []. rewrite app_nil_r. auto.
  - exists []. simpl. rewrite app_nil_r. auto.
Qed.

(** X2. The closed history is append-only: whatever sequence of
    [addPosition], [updatePosition], [addPyramidLevel], [closePosition] and
    [clearAll] calls runs, on whatever instruments, the history it started
    with is still there, unchanged and in front; what was appended are
    closed positions with an exit price and an exit reason, at most one per
    call. *)
Theorem history_is_append_only (cs : list command) (s : t) :
  exists later,
    closedPositions (execAll cs s) = closedPositions s ++ later
    /\ (length later <= length cs)%nat
    /\ Forall (fun q => status q = closed /\ exitPrice q <> None
                        /\ exitReason q <> None) later.
Proof.
  revert s. induction cs as [|c cs IH]; intros s; simpl.
  - exists []. rewrite app_nil_r. auto.
  - destruct (exec_history s c) as (l1 & H1 & Hn1 & Hf1).
    destruct (IH (exec s c)) as (l2 & H2 & Hn2 & Hf2).
    exists (l1 ++ l2). rewrite H2, H1, <- app_assoc.
    split; [reflexivity|]. split.
    + rewrite length_app. lia.
    + apply Forall_app. auto.
Qed.

Lemma exec_tidy s c : tidy s -> tidy (exec s c).
Proof.
  intros (Hopen & Hclosed & Hdisk).
  destruct c as [k px vol sl tp ai adx rg cap now | k c
                 | k px why now ok | ]; simpl.
  - unfold addPosition. destruct (positions s !! k) eqn:E.
    + repeat split; auto; apply (Hopen _ _ H).
    + split; [|split]; simpl; auto.
      intros k' p. destruct (decide (k = k')) as [<- | Hne].
      * rewrite lookup_insert_eq. intros [= <-]. auto.
      * rewrite lookup_insert_ne by exact Hne. apply Hopen.
  - destruct (step_frame k s c) as (Hc & Hd).
    split; [|split]; rewrite ?Hc, ?Hd; auto.
    intros k' p. destruct (decide (k' = k)) as [-> | Hne].
    + destruct (positions s !! k) as [p0|] eqn:E.
      * rewrite (step_lookup k s c p0 E). intros [= <-].
        destruct (after_identity c p0) as (H1 & H2).
        destruct (Hopen _ _ E) as (H3 & H4). split; congruence.
      * rewrite (step_missing k s c E), E. discriminate.
    + rewrite (step_others k s c k' Hne). apply Hopen.
  - unfold closePosition. destruct (positions s !! k) as [p|] eqn:E.
    + unfold savePositions.
      assert (Hnew : Forall (fun q => status q = closed)
                       (closedPositions s ++ [settle px now why p])).
      { apply Forall_app. split; [exact Hclosed|]. repeat constructor. }
      assert (Hmap : forall k' q, delete k (positions s) !! k' = Some q ->
                                  Types.pair q = k' /\ status q = open).
      { intros k' q. destruct (decide (k = k')) as [<- | Hne].
        - rewrite lookup_delete_eq. discriminate.
        - rewrite lookup_delete_ne by exact Hne. apply Hopen. }
      destruct ok; simpl; (split; [exact Hmap|]); (split; [exact Hnew|]).
      * intros data [= <-]. exists []. simpl. now rewrite app_nil_r.
      * intros data Hd. destruct (Hdisk data Hd) as (later & ->).
        exists (later ++ [settle px now why p]). now rewrite app_assoc.
    + repeat split; auto; apply (Hopen _ _ H).
  - split; [|split]; simpl; auto.
    intros k' p. rewrite lookup_empty. discriminate.
Qed.

(** X3. Starting from a ledger in which every tracked position is open and
    filed under its own instrument, every closed record is closed and the
    file holds a first part of the history (the ledger of the constructor
    without file is one), every sequence of calls leaves such a ledger: no
    closed position is ever tracked as open, no open one is ever in the
    history, and the file never holds anything that the history lacks. *)
Theorem ledger_stays_tidy (cs : list command) (s : t) :
  tidy s -> tidy (execAll cs s).
Proof.
  revert s. induction cs as [|c cs IH]; intros s Hs; simpl; [exact Hs|].
  apply IH. now apply exec_tidy.
Qed.

Lemma construct_tidy : tidy (construct None).
Proof.
  split; [|split]; simpl.
  - intros k p. rewrite lookup_empty. discriminate.
  - constructor.
  - discriminate.
Qed.

Lemma ledger_stays_tidy_witness : tidy Sample2.twoTrades.
Proof.
  apply (ledger_stays_tidy
           [Open "BTC/USD" 50000 0.1 47500 55000 Sample.ai 25 moderate
              0.008 1;
            Close "BTC/USD" 53000 "Profit Target" 2 true;
            Open "ETH/USD" 3000 1 2850 3300 Sample.ai 25 moderate 0.008 3;
            Close "ETH/USD" 2900 "Stop Loss" 4 true]
           (construct None)).
  apply construct_tidy.
Defined.

(** X4. A restart after a close whose write succeeded finds the whole
    closed history again and no open position; after a close whose write
    failed it finds what the file held before. *)
Theorem restart_after_close (s : t) (k : string) (p : Position) (px : Q)
    (why : string) (now : Z) :
  positions s !! k = Some p ->
  closedPositions (construct (disk (closePosition k px why now true s)))
  = closedPositions (closePosition k px why now true s)
  /\ positions (construct (disk (closePosition k px why now true s))) = ∅
  /\ construct (disk (closePosition k px why now false s))
     = construct (disk s).
Proof.
  intros Hp. unfold closePosition. rewrite Hp. simpl. auto.
Qed.

Lemma restart_after_close_witness :
  closedPositions
    (construct (disk (closePosition "BTC/USD" 53000 "Profit Target" 3000
                        true Sample.pyramided)))
  = closedPositions
      (closePosition "BTC/USD" 53000 "Profit Target" 3000 true
         Sample.pyramided).
Proof.
  apply (restart_after_close Sample.pyramided "BTC/USD"
           (fold_left (fun q c => after c q)
              [Update 52250; AddLevel L1 52250 0.02 85 2000]
              (mkPosition "BTC/USD" 50000 0.1 1000 47500 55000 []
                 0.1 0 0 0 0 0.008 0 [] 25 moderate open None None None))
           53000 "Profit Target" 3000%Z).
  apply run_lookup. vm_compute. reflexivity.
Defined.

End Lifecycle.

(** ** The performance statistics *)

Module Stats.

Import PositionTracker.

Lemma netProfit_snoc ps p :
  netProfit (ps ++ [p]) == netProfit ps + currentProfit p.
Proof.
  induction ps as [|x ps IH].
  - unfold netProfit. simpl. lra.
  - change (currentProfit x + netProfit (ps ++ [p])
            == currentProfit x + netProfit ps + currentProfit p).
    rewrite IH. lra.
Qed.

Lemma winners_snoc ps p :
  winners (ps ++ [p])
  = (winners ps + if Num.gtb (currentProfit p) 0 then 1 else 0)%Z.
Proof.
  induction ps as [|x ps IH].
  - unfold winners. simpl. destruct (Num.gtb _ _); lia.
  - change (winners ((x :: ps) ++ [p]))
      with (if Num.gtb (currentProfit x) 0 then (1 + winners (ps ++ [p]))%Z
            else winners (ps ++ [p])).
    change (winners (x :: ps))
      with (if Num.gtb (currentProfit x) 0 then (1 + winners ps)%Z
            else winners ps).
    rewrite IH. destruct (Num.gtb (currentProfit x) 0); lia.
Qed.

Lemma tallyStep_sound ps a p :
  sound ps a -> sound (ps ++ [p]) (tallyStep a p).
Proof.
  intros (Hn & Hw & Hw0 & Hl0 & Hp & Hl & Hnet & Hcum & Hdd & Hpk & Hpk0
          & Hgap & Hnowin & Hwin & Hnoloss).
  unfold sound, tallyStep. cbv zeta.
  rewrite length_app, winners_snoc, netProfit_snoc. simpl length.
  assert (Habs : currentProfit p <= 0 ->
                 Qabs (currentProfit p) == - currentProfit p)
    by apply Qabs_neg.
  destruct (Num.gtb (currentProfit p) 0) eqn:Ewon;
    [apply NumFacts.gtb_gt in Ewon
    | apply NumFacts.gtb_le in Ewon; specialize (Habs Ewon)];
    (destruct (Num.gtb (t_cumulativeProfit a + currentProfit p) (t_peak a))
       eqn:Epk;
     [apply NumFacts.gtb_gt in Epk | apply NumFacts.gtb_le in Epk]);
    (destruct (Num.gtb _ (t_maxDrawdown a)) eqn:Edd;
     [apply NumFacts.gtb_gt in Edd | apply NumFacts.gtb_le in Edd]);
    simpl in *; rewrite ?Habs;
    repeat split; intros;
    try (specialize (Hnowin ltac:(lia)));
    try (specialize (Hwin ltac:(lia)));
    try (destruct (Hnoloss ltac:(lia)));
    try lia; try lra.
Qed.

Lemma tally_sound ps : sound ps (tally ps).
Proof.
  unfold tally. induction ps as [|p ps IH] using rev_ind.
  - unfold sound, tally0, netProfit, winners. simpl.
    repeat split; try lia; try lra; intros; lra.
  - rewrite fold_left_app. simpl. now apply tallyStep_sound.
Qed.

Lemma winners_all ps :
  Forall (fun p => 0 < currentProfit p) ps ->
  winners ps = Z.of_nat (length ps).
Proof.
  induction 1 as [|p ps Hp _ IH]; [reflexivity|].
  change (winners (p :: ps))
    with (if Num.gtb (currentProfit p) 0 then (1 + winners ps)%Z
          else winners ps).
  apply NumFacts.gtb_gt in Hp. rewrite Hp, IH. simpl length. lia.
Qed.

Lemma inject_pos (n : Z) : (0 < n)%Z -> 0 < inject_Z n.
Proof. intros H. change (inject_Z 0 < inject_Z n). now rewrite <- Zlt_Qlt. Qed.

Lemma inject_nonneg (n : Z) : (0 <= n)%Z -> 0 <= inject_Z n.
Proof. intros H. change (inject_Z 0 <= inject_Z n). now rewrite <- Zle_Qle. Qed.

Lemma share_bounds (w n : Z) :
  (0 <= w <= n)%Z -> (0 < n)%Z ->
  0 <= inject_Z w / inject_Z n * 100 <= 100.
Proof.
  intros [Hw Hwn] Hn.
  assert (Hn' : 0 < inject_Z n) by now apply inject_pos.
  assert (Hw' : 0 <= inject_Z w) by now apply inject_nonneg.
  assert (Hwn' : inject_Z w <= inject_Z n) by (rewrite <- Zle_Qle; exact Hwn).
  assert (H0 : 0 <= inject_Z w / inject_Z n).
  { apply Qle_shift_div_l; [exact Hn'|lra]. }
  assert (H1 : inject_Z w / inject_Z n <= 1).
  { apply Qle_shift_div_r; [exact Hn'|lra]. }
  lra.
Qed.

(** X5. The statistics count every closed trade once, as a win when its
    profit is above 0 and as a loss otherwise (a break-even trade is a
    loss); gross profit and gross loss are not negative and their
    difference is the sum of the profits of the history; the expectancy
    times the number of trades is that sum; the win rate is between 0 and
    100. *)
Theorem stats_count_every_trade (s : t) :
  let r := getPerformanceStats s in
  let c := counts r in
  st_totalTrades c = Z.of_nat (length (closedPositions s))
  /\ winningTrades c = winners (closedPositions s)
  /\ (winningTrades c + losingTrades c)%Z = st_totalTrades c
  /\ (0 <= winningTrades c)%Z /\ (0 <= losingTrades c)%Z
  /\ 0 <= totalProfit c
  /\ 0 <= totalLoss c
  /\ totalProfit c - totalLoss c == netProfit (closedPositions s)
  /\ expectancy r * inject_Z (st_totalTrades c)
     == netProfit (closedPositions s)
  /\ 0 <= winRate c <= 100.
Proof.
  cbv zeta. unfold getPerformanceStats.
  destruct (closedPositions s) as [|p ps] eqn:E.
  - unfold netProfit, winners. simpl. repeat split; try lia; lra.
  - destruct (tally_sound (p :: ps))
      as (Hn & Hw & Hw0 & Hl0 & Hp & Hl & Hnet & _).
    set (n := Z.of_nat (length (p :: ps))) in *.
    assert (Hpos : (0 < n)%Z) by (subst n; simpl length; lia).
    destruct (Z.ltb_spec 0 n) as [_|]; [|lia].
    simpl. repeat split; try assumption; try lia.
    + rewrite <- Hnet. field.
      intros H0. pose proof (inject_pos n Hpos). lra.
    + apply (share_bounds _ n); lia.
    + apply (share_bounds _ n); lia.
Qed.

(** X6. The maximum drawdown is never negative.  The profit factor is
    [Infinity] exactly when there is gross profit and no gross loss.  A
    history of winning trades only has no loss, no drawdown, a win rate of
    100 and, unless it is empty, an infinite profit factor.  An empty
    history gives the all-zero statistics with profit factor 0. *)
Theorem drawdown_and_profit_factor (s : t) :
  let r := getPerformanceStats s in
  let c := counts r in
  0 <= maxDrawdown r
  /\ 0 <= maxDrawdownPct r
  /\ (profitFactor r = PF_infinity <->
      0 < totalProfit c /\ totalLoss c == 0)
  /\ (Forall (fun p => 0 < currentProfit p) (closedPositions s) ->
      losingTrades c = 0%Z /\ totalLoss c == 0 /\ maxDrawdown r == 0
      /\ (closedPositions s <> [] ->
          winRate c == 100 /\ profitFactor r = PF_infinity))
  /\ (closedPositions s = [] ->
      r = mkPerformanceReport (mkPerformanceStats 0 0 0 0 0 0) 0
            (PF_finite 0) 0 0).
Proof.
  cbv zeta. unfold getPerformanceStats.
  destruct (closedPositions s) as [|p ps] eqn:E.
  - simpl. split; [lra|]. split; [lra|].
    split; [split; [discriminate | intros [H _]; lra]|].
    split; [|reflexivity].
    intros _. split; [reflexivity|]. split; [lra|]. split; [lra|].
    intros H. now contradiction H.
  - destruct (tally_sound (p :: ps))
      as (Hn & Hw & Hw0 & Hl0 & Hp & Hl & Hnet & Hcum & Hdd & Hpk & Hpk0
          & Hgap & Hnowin & Hwin & Hnoloss).
    set (a := tally (p :: ps)) in *.
    set (n := Z.of_nat (length (p :: ps))) in *.
    assert (Hpos : (0 < n)%Z) by (subst n; simpl length; lia).
    assert (Hn' : 0 < inject_Z n) by now apply inject_pos.
    destruct (Z.ltb_spec 0 n) as [_|]; [|lia].
    simpl.
    split; [exact Hdd|]. split.
    { destruct (Num.gtb (t_peak a) 0) eqn:Epk; [|lra].
      apply NumFacts.gtb_gt in Epk.
      assert (0 <= t_maxDrawdown a / t_peak a)
        by (apply Qle_shift_div_l; [exact Epk | lra]).
      lra. }
    split.
    { destruct (Num.gtb (t_totalLoss a) 0) eqn:El;
        [apply NumFacts.gtb_gt in El | apply NumFacts.gtb_le in El].
      - split; [discriminate|]. intros [_ H]. lra.
      - destruct (Num.gtb (t_totalProfit a) 0) eqn:Ep;
          [apply NumFacts.gtb_gt in Ep | apply NumFacts.gtb_le in Ep].
        + split; [intros _; split; lra | reflexivity].
        + split; [discriminate|]. intros [H _]. lra. }
    split; [|discriminate].
    intros Hall. pose proof (winners_all _ Hall) as Hcount.
    assert (Hlose : t_losingTrades a = 0%Z) by (subst n; lia).
    destruct (Hnoloss Hlose) as (Hloss0 & Hdd0).
    split; [exact Hlose|]. split; [exact Hloss0|]. split; [exact Hdd0|].
    intros _.
    assert (Hwins : t_winningTrades a = n) by (subst n; lia).
    split.
    + rewrite Hwins. field. lra.
    + destruct (Num.gtb (t_totalLoss a) 0) eqn:El.
      { apply NumFacts.gtb_gt in El. lra. }
      assert (Hp0 : 0 < t_totalProfit a) by (apply Hwin; lia).
      apply NumFacts.gtb_gt in Hp0. now rewrite Hp0.
Qed.

Lemma drawdown_and_profit_factor_witness :
  maxDrawdown
    (getPerformanceStats
       (closePosition "BTC/USD" 53000 "Profit Target" 2 true Sample.fresh))
  == 0
  /\ profitFactor
       (getPerformanceStats
          (closePosition "BTC/USD" 53000 "Profit Target" 2 true
             Sample.fresh)) = PF_infinity.
Proof.
  destruct (drawdown_and_profit_factor
              (closePosition "BTC/USD" 53000 "Profit Target" 2 true
                 Sample.fresh)) as (_ & _ & _ & Hall & _).
  destruct Hall as (_ & _ & Hdd & Hrest).
  - vm_compute. repeat constructor.
  - split; [exact Hdd|]. apply Hrest. vm_compute. discriminate.
Defined.

End Stats.

(** ** Profit as a function of the price, and the exit levels *)

Module Pricing.

Import PositionTracker LedgerFacts.

Lemma accumulate_cost px ls : forall acc,
  snd (fold_left (accumulate px) ls acc) == snd acc + levelsCost ls.
Proof.
  induction ls as [|l ls IH]; intros acc.
  - unfold levelsCost. simpl. lra.
  - change (snd (fold_left (accumulate px) ls (accumulate px acc l))
            == snd acc + (pl_entryPrice l * pl_volume l + levelsCost ls)).
    rewrite IH. simpl. lra.
Qed.

Lemma legsProfit_linear px ls :
  legsProfit px ls == levelsVolume ls * px - levelsCost ls.
Proof.
  induction ls as [|l ls IH].
  - unfold legsProfit, levelsVolume, levelsCost. simpl. lra.
  - change ((px - pl_entryPrice l) * pl_volume l + legsProfit px ls
            == (pl_volume l + levelsVolume ls) * px
               - (pl_entryPrice l * pl_volume l + levelsCost ls)).
    rewrite IH. lra.
Qed.

Lemma reprice_profitPct px p :
  (0 < totalCost p ->
   profitPct (reprice px p)
   == currentProfit (reprice px p) / totalCost p * 100)
  /\ (totalCost p <= 0 -> profitPct (reprice px p) == 0).
Proof.
  assert (Hcost : snd (fold_left (accumulate px) (pyramidLevels p)
                         (0 + (px - entryPrice p) * volume p,
                          0 + entryPrice p * volume p))
                  == totalCost p).
  { rewrite accumulate_cost. unfold totalCost, levelsCost. simpl. lra. }
  unfold reprice. cbv zeta.
  set (totals := fold_left _ _ _) in *.
  destruct (Num.gtb (snd totals) 0) eqn:E;
    [apply NumFacts.gtb_gt in E | apply NumFacts.gtb_le in E];
    match goal with |- context [Num.gtb ?a ?b] =>
      match a with currentProfit _ => destruct (Num.gtb a b) end end;
    simpl; split; intros H; try lra;
    rewrite <- Hcost; reflexivity.
Qed.

Lemma after_levels c p :
  stopLoss (after c p) = stopLoss p
  /\ profitTarget (after c p) = profitTarget p.
Proof.
  destruct c as [px | lvl px v conf now]; simpl.
  - destruct (Lifecycle.reprice_identity px p) as (_ & _ & H1 & H2). auto.
  - destruct (2 <=? _)%Z; [auto|]. destruct (hasLevel lvl p); simpl; auto.
Qed.

Lemma history_levels cs : forall p,
  stopLoss (fold_left (fun q c => after c q) cs p) = stopLoss p
  /\ profitTarget (fold_left (fun q c => after c q) cs p) = profitTarget p.
Proof.
  induction cs as [|c cs IH]; intros p; simpl; [auto|].
  destruct (IH (after c p)) as (H1 & H2).
  destruct (after_levels c p) as (H3 & H4). split; congruence.
Qed.

(** X7. For a position created by [addPosition] and any history of calls,
    the profit that [updatePosition] computes at a price is the total
    volume times the price minus the cost of all the legs: a move of the
    price by one unit moves the profit by [totalVolume].  The profit
    percentage is that profit over the cost, times 100, and 0 when the cost
    is not positive. *)
Theorem profit_is_linear_in_price (s : t) (k : string)
    (entry vol sl tp : Q) (ai : AIDecision) (adx : Q) (rg : Regime)
    (cap : Q) (now : Z) (cs : list call) (px : Q) :
  positions s !! k = None ->
  let s1 := run k cs (addPosition k entry vol sl tp ai adx rg cap now s) in
  exists p q,
    positions s1 !! k = Some p
    /\ positions (updatePosition k px s1) !! k = Some q
    /\ currentProfit q == totalVolume p * px - totalCost p
    /\ (0 < totalCost p ->
        profitPct q == currentProfit q / totalCost p * 100)
    /\ (totalCost p <= 0 -> profitPct q == 0).
Proof.
  intros Hnone. cbv zeta.
  set (p0 := mkPosition k entry vol now sl tp [] vol 0 0 0 0 cap 0
               (reasoning ai) adx rg open None None None).
  assert (Hp : positions
                 (run k cs (addPosition k entry vol sl tp ai adx rg cap now s))
                 !! k = Some (fold_left (fun q c => after c q) cs p0)).
  { apply run_lookup. unfold addPosition. rewrite Hnone. simpl.
    apply lookup_insert_eq. }
  destruct (history_booked vol cs p0) as (Hv & Ht & _).
  { unfold booked. simpl. repeat split; [lra | lia]. }
  set (p := fold_left _ cs p0) in *.
  exists p, (reprice px p).
  split; [exact Hp|].
  split; [unfold updatePosition; rewrite Hp; simpl; apply lookup_insert_eq|].
  split; [|apply reprice_profitPct].
  rewrite reprice_currentProfit, legsProfit_linear, Ht.
  unfold totalCost. fold (levelsCost (pyramidLevels p)). rewrite Hv. lra.
Qed.

Lemma profit_is_linear_in_price_witness :
  exists p q,
    positions Sample.pyramided !! "BTC/USD" = Some p
    /\ positions (updatePosition "BTC/USD" 53000 Sample.pyramided)
         !! "BTC/USD" = Some q
    /\ currentProfit q == totalVolume p * 53000 - totalCost p.
Proof.
  destruct (profit_is_linear_in_price empty "BTC/USD" 50000 0.1 47500 55000
              Sample.ai 25 moderate 0.008 1000
              [Update 52250; AddLevel L1 52250 0.02 85 2000] 53000)
    as (p & q & H1 & H2 & H3 & _).
  - vm_compute. reflexivity.
  - exists p, q. auto.
Defined.

(** X8. For a buy at a positive price with positive stop-loss and
    profit-target percentages, [calculateLevels] puts the stop below the
    entry and the target above it (and the other way round for a sell).  A
    position opened with these levels keeps them through every update and
    pyramid add: at the entry price neither [checkStopLoss] nor
    [checkProfitTarget] fires, and at no price do both fire. *)
Theorem exit_levels_bracket_the_entry (rest : ConfigRest)
    (m : RiskManager.t) (s : t) (k : string) (entry vol : Q)
    (ai : AIDecision) (adx : Q) (rg : Regime) (cap : Q) (now : Z)
    (cs : list call) :
  0 < entry ->
  0 < stopLossPct (RiskManager.config m) ->
  0 < cfg_profitTargetPct rest ->
  positions s !! k = None ->
  let lv := RiskManager.calculateLevels rest entry buy m in
  let short := RiskManager.calculateLevels rest entry sell m in
  let s1 :=
    run k cs (addPosition k entry vol (fst lv) (snd lv) ai adx rg cap now s)
  in
  fst lv < entry < snd lv
  /\ snd short < entry < fst short
  /\ checkStopLoss k entry s1 = false
  /\ checkProfitTarget k entry s1 = false
  /\ forall px, checkStopLoss k px s1 = true ->
                checkProfitTarget k px s1 = false.
Proof.
  intros Hentry Hsl Htp Hnone. cbv zeta.
  set (sl := fst (RiskManager.calculateLevels rest entry buy m)).
  set (tp := snd (RiskManager.calculateLevels rest entry buy m)).
  assert (Hb : sl < entry < tp).
  { subst sl tp. simpl. split; nra. }
  set (p0 := mkPosition k entry vol now sl tp [] vol 0 0 0 0 cap 0
               (reasoning ai) adx rg open None None None).
  assert (Hp : positions
                 (run k cs (addPosition k entry vol sl tp ai adx rg cap now s))
                 !! k = Some (fold_left (fun q c => after c q) cs p0)).
  { apply run_lookup. unfold addPosition. rewrite Hnone. simpl.
    apply lookup_insert_eq. }
  destruct (history_levels cs p0) as (Hs & Ht).
  unfold checkStopLoss, checkProfitTarget. rewrite Hp, Hs, Ht. simpl.
  split; [exact Hb|]. split; [simpl; split; nra|].
  split; [apply NumFacts.leb_gt; lra|].
  split; [apply NumFacts.geb_lt; lra|].
  intros px Hstop. apply NumFacts.leb_le in Hstop.
  apply NumFacts.geb_lt. lra.
Qed.

Lemma exit_levels_bracket_the_entry_witness :
  checkStopLoss "BTC/USD" 50000
    (addPosition "BTC/USD" 50000 0.1 (50000 * (1 - 0.05))
       (50000 * (1 + 0.10)) Sample.ai 25 moderate 0.008 1 empty) = false
  /\ checkProfitTarget "BTC/USD" 50000
       (addPosition "BTC/USD" 50000 0.1 (50000 * (1 - 0.05))
          (50000 * (1 + 0.10)) Sample.ai 25 moderate 0.008 1 empty) = false.
Proof.
  destruct (exit_levels_bracket_the_entry Sample2.rest Sample.manager empty
              "BTC/USD" 50000 0.1 Sample.ai 25 moderate 0.008 1%Z [])
    as (_ & _ & H1 & H2 & _).
  - reflexivity.
  - reflexivity.
  - reflexivity.
  - vm_compute. reflexivity.
  - split; [exact H1 | exact H2].
Defined.

End Pricing.

(** ** The position sizer *)

Module Sizing.

Import DynamicPositionSizer.

Lemma multiplier_linear c : confidenceMultiplier c == 0.5 + (c - 50) * (1 # 30).
Proof.
  unfold confidenceMultiplier, MIN_AI_CONFIDENCE, MAX_AI_CONFIDENCE. field.
Qed.

Lemma risk_unfold c z :
  calculateRiskPerTrade c z
  = Num.max MIN_RISK_PER_TRADE
      (Num.min MAX_RISK_PER_TRADE
         (calculateKellyFraction z * confidenceMultiplier c)).
Proof. reflexivity. Qed.

Lemma kelly_range z :
  (25 # 10000) <= calculateKellyFraction z <= (5 # 100)
  /\ (totalTrades z <> 0%Z -> calculateKellyFraction z <= (25 # 1000)).
Proof.
  unfold calculateKellyFraction.
  destruct (Z.eqb_spec (totalTrades z) 0) as [E | E].
  - split; [split; lra | contradiction].
  - cbv zeta.
    pose proof (NumFacts.clamp_bounds 0.01 0.10 (kellyPct z)) as Hc.
    unfold KELLY_FRACTION. split; [split|intros _]; lra.
Qed.


(** X9. For a sizer without trade history, or with an average win that
    is not zero (the divisor of the Kelly formula), and with a non-zero
    stop-loss fraction and price (the two divisors of
    [calculatePositionSize]): the stake loses exactly [riskUSD] when the
    price falls by the stop-loss fraction, the asset quantity times the
    price is the stake, and for a balance that is not negative [riskUSD]
    is between 1% and 10% of the balance. *)
Theorem stake_risks_exactly_riskUSD (aiConfidence price stop : Q) (z : t) :
  totalTrades z = 0%Z \/ ~ avgWinPct z == 0 ->
  ~ stop == 0 -> ~ price == 0 -> 0 <= accountBalance z ->
  let r := calculatePositionSize aiConfidence price stop z in
  sizeUSD r * stop == riskUSD r
  /\ sizeAsset r * price == sizeUSD r
  /\ sizeAsset r * price * stop == riskUSD r
  /\ accountBalance z * (1 # 100) <= riskUSD r <= accountBalance z * (10 # 100).
Proof.
  intros _ Hstop Hprice Hbal. cbv zeta. unfold calculatePositionSize. simpl.
  pose proof (NumFacts.clamp_bounds MIN_RISK_PER_TRADE MAX_RISK_PER_TRADE
                (calculateKellyFraction z * confidenceMultiplier aiConfidence))
    as Hc.
  rewrite risk_unfold.
  set (risk := Num.max _ _) in *.
  unfold MIN_RISK_PER_TRADE, MAX_RISK_PER_TRADE in Hc.
  assert (Hr : (1 # 100) <= risk <= (10 # 100)) by (apply Hc; lra).
  split; [field; exact Hstop|].
  split; [field; auto|].
  split; [field; auto|].
  split; nra.
Qed.

Lemma stake_risks_exactly_riskUSD_witness :
  sizeUSD (calculatePositionSize 80 50000 0.05 (create 10000)) * 0.05
  == riskUSD (calculatePositionSize 80 50000 0.05 (create 10000)).
Proof.
  apply (stake_risks_exactly_riskUSD 80 50000 0.05 (create 10000)).
  - left. reflexivity.
  - vm_compute. discriminate.
  - vm_compute. discriminate.
  - vm_compute. discriminate.
Defined.



(** X11. With a trade history and an average win that is not zero (the
    divisor of the Kelly formula) the Kelly fraction is between 0.25% and
    2.5%, so the 10% cap is out of reach for any confidence up to 95: the
    risk is at most 5%.  Without history a confidence of 95 or more gives
    the 10% cap and a confidence of 50 or less gives at most 2.5%. *)
Theorem risk_ceiling_by_history (c : Q) (z : t) :
  (totalTrades z <> 0%Z -> ~ avgWinPct z == 0 ->
   (25 # 10000) <= calculateKellyFraction z <= (25 # 1000)
   /\ (c <= 95 -> calculateRiskPerTrade c z <= 5 # 100))
  /\ (totalTrades z = 0%Z ->
      (95 <= c -> calculateRiskPerTrade c z == 10 # 100)
      /\ (c <= 50 -> calculateRiskPerTrade c z <= 25 # 1000)).
Proof.
  rewrite risk_unfold.
  pose proof (multiplier_linear c) as Hm.
  set (mult := confidenceMultiplier c) in *.
  destruct (kelly_range z) as ((Hlo & Hhi) & Hhist).
  split.
  - intros Hn _. specialize (Hhist Hn). split; [lra|].
    intros Hc. unfold Num.max, Num.min, MIN_RISK_PER_TRADE,
      MAX_RISK_PER_TRADE.
    apply Q.max_lub; [lra|].
    apply Qle_trans with (y := calculateKellyFraction z * mult);
      [apply Q.le_min_r | nra].
  - intros Hz. unfold calculateKellyFraction. rewrite Hz. simpl.
    unfold MIN_RISK_PER_TRADE, MAX_RISK_PER_TRADE. split; intros Hc.
    + destruct (NumFacts.clamp_cases 0.01 0.10 (0.05 * mult)) as (_ & _ & H);
        [lra|]. rewrite H; [reflexivity | lra].
    + unfold Num.max, Num.min. apply Q.max_lub; [lra|].
      apply Qle_trans with (y := 0.05 * mult); [apply Q.le_min_r | lra].
Qed.

Lemma risk_ceiling_by_history_witness :
  calculateRiskPerTrade 95 Sample.allWins <= 5 # 100
  /\ calculateRiskPerTrade 95 (create 10000) == 10 # 100.
Proof.
  destruct (risk_ceiling_by_history 95 Sample.allWins) as (H1 & _).
  destruct (risk_ceiling_by_history 95 (create 10000)) as (_ & H2).
  split.
  - apply H1; [discriminate | vm_compute; discriminate
               | vm_compute; discriminate].
  - apply H2; [reflexivity | vm_compute; discriminate].
Defined.

Lemma openRisk_fold ps : forall a,
  fold_left (fun sum pos => sum + riskAmount pos) ps a == a + openRisk ps.
Proof.
  induction ps as [|p ps IH]; intros a.
  - unfold openRisk. simpl. lra.
  - change (fold_left (fun sum pos => sum + riskAmount pos) ps
              (a + riskAmount p) == a + (riskAmount p + openRisk ps)).
    rewrite IH. lra.
Qed.

Lemma openRisk_app ps qs : openRisk (ps ++ qs) == openRisk ps + openRisk qs.
Proof.
  induction ps as [|p ps IH].
  - unfold openRisk. simpl. lra.
  - change (riskAmount p + openRisk (ps ++ qs)
            == riskAmount p + openRisk ps + openRisk qs).
    rewrite IH. lra.
Qed.

Lemma openRisk_nonneg ps :
  Forall (fun p => 0 <= totalVolume p) ps -> 0 <= openRisk ps.
Proof.
  induction 1 as [|p ps Hp _ IH].
  - unfold openRisk. simpl. lra.
  - change (0 <= riskAmount p + openRisk ps).
    assert (0 <= riskAmount p).
    { unfold riskAmount. apply Qmult_le_0_compat; [apply Qabs_nonneg|exact Hp]. }
    lra.
Qed.

Lemma canAddPosition_true_iff ps r z :
  canAddPosition ps r z = true
  <-> openRisk ps + r <= accountBalance z * (5 # 100).
Proof.
  unfold canAddPosition. cbv zeta.
  pose proof (openRisk_fold ps 0) as Hf.
  destruct (Num.gtb _ _) eqn:E;
    [apply NumFacts.gtb_gt in E | apply NumFacts.gtb_le in E].
  - split; [discriminate|]. intros H. lra.
  - split; [intros _; lra | reflexivity].
Qed.

(** X12. [canAddPosition] accepts exactly when the risk at stake of the
    open positions, the sum of [|entryPrice - stopLoss| * totalVolume],
    plus the new risk is at most 5% of the balance.  With no open position
    that is the new risk alone; a smaller new risk, or fewer open positions
    (of volumes that are not negative), is accepted whenever the larger
    one is. *)
Theorem canAddPosition_is_a_budget (ps qs : list Position) (r r' : Q)
    (z : t) :
  (canAddPosition ps r z = true
   <-> openRisk ps + r <= accountBalance z * (5 # 100))
  /\ (canAddPosition [] r z = true <-> r <= accountBalance z * (5 # 100))
  /\ (r' <= r -> canAddPosition ps r z = true ->
      canAddPosition ps r' z = true)
  /\ (Forall (fun p => 0 <= totalVolume p) qs ->
      canAddPosition (ps ++ qs) r z = true ->
      canAddPosition ps r z = true).
Proof.
  split; [apply canAddPosition_true_iff|].
  split; [rewrite canAddPosition_true_iff; unfold openRisk; simpl;
          split; intros; lra|].
  split.
  - rewrite !canAddPosition_true_iff. intros. lra.
  - rewrite !canAddPosition_true_iff, openRisk_app. intros Hq H.
    pose proof (openRisk_nonneg qs Hq). lra.
Qed.

Lemma canAddPosition_is_a_budget_witness :
  canAddPosition [] 400 (create 10000) = true
  /\ canAddPosition [Sample.inProfit] 400 (create 10000) = false.
Proof.
  split.
  - apply (proj1 (canAddPosition_is_a_budget [] [] 400 400 (create 10000))).
    vm_compute. discriminate.
  - vm_compute. reflexivity.
Defined.

(** X13. Feeding the sizer with the statistics of any ledger keeps its
    averages usable: with a positive balance, a positive average win and an
    average loss that is not negative before the update, they are so after
    it, so the divisor of the Kelly formula is never 0; the win rate is
    between 0 and 1; the balance is untouched. *)
Theorem sizer_fed_from_ledger (s : PositionTracker.t) (z : t) :
  0 < accountBalance z -> 0 < avgWinPct z -> 0 <= avgLossPct z ->
  let z' :=
    updatePerformance (counts (PositionTracker.getPerformanceStats s)) z in
  0 < avgWinPct z'
  /\ 0 <= avgLossPct z'
  /\ 0 <= getWinRate z' <= 1
  /\ totalTrades z' = Z.of_nat (length (PositionTracker.closedPositions s))
  /\ accountBalance z' = accountBalance z.
Proof.
  intros Hbal Hwin Hloss. cbv zeta.
  unfold PositionTracker.getPerformanceStats.
  destruct (PositionTracker.closedPositions s) as [|p ps] eqn:E.
  - unfold updatePerformance, getWinRate. simpl.
    repeat split; try assumption; lra.
  - destruct (Stats.tally_sound (p :: ps))
      as (Hn & Hw & Hw0 & Hl0 & Hp & Hl & _ & _ & _ & _ & _ & _ & _ & Hwins
          & _).
    set (a := PositionTracker.tally (p :: ps)) in *.
    set (n := Z.of_nat (length (p :: ps))) in *.
    assert (Hpos : (0 < n)%Z) by (subst n; simpl length; lia).
    unfold updatePerformance, getWinRate. simpl.
    destruct (Z.ltb_spec 0 n) as [_|]; [|lia]. simpl.
    destruct (Z.eqb_spec n 0) as [|_]; [lia|].
    pose proof (Stats.inject_pos n Hpos) as Hn'.
    split; [|split; [|split; [|split; reflexivity]]].
    + destruct (Z.ltb_spec 0 (PositionTracker.t_winningTrades a)) as [Hw1|];
        [|lra].
      pose proof (Stats.inject_pos _ Hw1). specialize (Hwins Hw1).
      apply Qlt_shift_div_l; [nra | lra].
    + destruct (Z.ltb_spec 0 (PositionTracker.t_losingTrades a)) as [Hl1|];
        [|lra].
      pose proof (Stats.inject_pos _ Hl1).
      apply Qle_shift_div_l; [nra | lra].
    + pose proof (Stats.inject_nonneg _ Hw0) as Hw0'.
      assert (Hle : inject_Z (PositionTracker.t_winningTrades a)
                    <= inject_Z n) by (rewrite <- Zle_Qle; lia).
      split; [apply Qle_shift_div_l | apply Qle_shift_div_r]; lra.
Qed.

Lemma sizer_fed_from_ledger_witness :
  0 < avgWinPct
        (updatePerformance
           (counts (PositionTracker.getPerformanceStats Sample2.twoTrades))
           (create 10000)).
Proof.
  apply (sizer_fed_from_ledger Sample2.twoTrades (create 10000));
    vm_compute; solve [reflexivity | discriminate].
Defined.

End Sizing.

(** ** The stages of the risk manager *)

Module Stages.

Import RiskManager.

(** X14. Stage 3 passes exactly when the price is at most 99.5% of the
    recent high, the RSI is at most 85, and the 1h momentum is above 0.005,
    or above 0 together with a volume ratio above 1.3.  The 4h momentum
    never decides: two snapshots that agree on the other four numbers get
    the same verdict. *)
Theorem entry_quality_passes_iff (price : Q) (ind ind' : Indicators) :
  (pass (checkEntryQuality price ind) = true <->
     price <= recentHigh ind * (995 # 1000)
     /\ rsi ind <= 85
     /\ ((5 # 1000) < momentum1h ind
         \/ ((13 # 10) < volumeRatio ind /\ 0 < momentum1h ind)))
  /\ (recentHigh ind' = recentHigh ind -> rsi ind' = rsi ind ->
      momentum1h ind' = momentum1h ind ->
      volumeRatio ind' = volumeRatio ind ->
      pass (checkEntryQuality price ind')
      = pass (checkEntryQuality price ind)).
Proof.
  split.
  - unfold checkEntryQuality. cbv zeta.
    destruct (Num.gtb price _) eqn:E1;
      [apply NumFacts.gtb_gt in E1 | apply NumFacts.gtb_le in E1].
    { simpl. split; [discriminate | intros (H & _); lra]. }
    destruct (Num.gtb (rsi ind) 85) eqn:E2;
      [apply NumFacts.gtb_gt in E2 | apply NumFacts.gtb_le in E2].
    { simpl. split; [discriminate | intros (_ & H & _); lra]. }
    destruct (Num.gtb (momentum1h ind) 0.005) eqn:E3;
      [apply NumFacts.gtb_gt in E3 | apply NumFacts.gtb_le in E3].
    { simpl. split; [intros _; auto | reflexivity]. }
    simpl.
    destruct (Num.gtb (volumeRatio ind) 1.3) eqn:E4;
      [apply NumFacts.gtb_gt in E4 | apply NumFacts.gtb_le in E4]; simpl.
    + destruct (Num.gtb (momentum1h ind) 0) eqn:E5;
        [apply NumFacts.gtb_gt in E5 | apply NumFacts.gtb_le in E5]; simpl.
      * split; [intros _; auto | reflexivity].
      * split; [discriminate|]. intros (_ & _ & [H | [_ H]]); lra.
    + split; [discriminate|]. intros (_ & _ & [H | [H _]]); lra.
  - intros H1 H2 H3 H4. unfold checkEntryQuality. cbv zeta.
    rewrite H1, H2, H3, H4.
    destruct (Num.gtb price _); [reflexivity|].
    destruct (Num.gtb (rsi ind) 85); [reflexivity|].
    destruct (Num.gtb (momentum1h ind) 0.005); simpl.
    + reflexivity.
    + destruct (Num.gtb (volumeRatio ind) 1.3 && Num.gtb (momentum1h ind) 0);
        reflexivity.
Qed.

Lemma entry_quality_passes_iff_witness :
  pass (checkEntryQuality 50000 (indicators Sample2.trending)) = true.
Proof.
  apply (proj1 (entry_quality_passes_iff 50000 (indicators Sample2.trending)
                  (indicators Sample2.trending))).
  vm_compute. split; [discriminate|]. split; [discriminate|].
  left. reflexivity.
Defined.

(** X15. The total cost is twice the exchange fee plus 0.04% for BTC/USD
    and for ETH/USD, and plus 0.06% for every other pair.  With a fee that is not negative and
    a profit multiplier above 1, a target at the cost floor already leaves
    a positive net edge: stage 5 passes exactly when the target reaches the
    floor and the risk-reward ratio reaches its minimum, and it never
    rejects for a missing net edge. *)
Theorem cost_floor_implies_net_edge (k : string) (target : Q) (m : t) :
  0 <= exchangeFeePct (config m) ->
  1 < minProfitMultiplier (config m) ->
  let costs := calculateCosts k target m in
  let r := checkCostFloor costs m in
  (k = "BTC/USD" \/ k = "ETH/USD" ->
   totalCostsPct costs == exchangeFeePct (config m) * 2 + (4 # 10000))
  /\ (k <> "BTC/USD" -> k <> "ETH/USD" ->
      totalCostsPct costs == exchangeFeePct (config m) * 2 + (6 # 10000))
  /\ (passesCostFloor costs = true -> 0 < netEdgePct costs)
  /\ (pass r = true <->
      costFloorPct costs <= target
      /\ minRiskRewardRatio (config m) <= riskRewardRatio costs)
  /\ forall edge, reason r <> Some (NoNetEdge edge).
Proof.
  intros Hfee Hmult. cbv zeta.
  unfold checkCostFloor, calculateCosts. cbv zeta. simpl.
  set (spread := if String.eqb k "BTC/USD" || String.eqb k "ETH/USD"
                 then 0.0003 else 0.0005).
  assert (Hmajor : k = "BTC/USD" \/ k = "ETH/USD" -> spread == 3 # 10000).
  { intros H. subst spread.
    destruct (String.eqb_spec k "BTC/USD") as [E1 | E1]; [reflexivity|].
    destruct (String.eqb_spec k "ETH/USD") as [E2 | E2]; [reflexivity|].
    destruct H; contradiction. }
  assert (Hminor : k <> "BTC/USD" -> k <> "ETH/USD" -> spread == 5 # 10000).
  { intros H1 H2. subst spread.
    destruct (String.eqb_spec k "BTC/USD") as [E1 | E1]; [contradiction|].
    destruct (String.eqb_spec k "ETH/USD") as [E2 | E2]; [contradiction|].
    reflexivity. }
  assert (Hs : spread == 3 # 10000 \/ spread == 5 # 10000).
  { subst spread. destruct (_ || _); [left | right]; reflexivity. }
  set (total := exchangeFeePct (config m) * 2 + spread + 0.0001).
  assert (Ht : 0 < total) by (subst total; destruct Hs; lra).
  assert (Hedge : total * minProfitMultiplier (config m) <= target ->
                  0 < target - total) by (intros; nra).
  split; [intros H; subst total; rewrite (Hmajor H); lra|].
  split; [intros H1 H2; subst total; rewrite (Hminor H1 H2); lra|].
  split; [intros H; apply NumFacts.geb_ge in H; auto|].
  destruct (Num.geb target _) eqn:E1;
    [apply NumFacts.geb_ge in E1 | apply NumFacts.geb_lt in E1]; simpl.
  2:{ split; [|discriminate]. split; [discriminate|]. intros (H & _). lra. }
  destruct (Num.geb (target / _) _) eqn:E2;
    [apply NumFacts.geb_ge in E2 | apply NumFacts.geb_lt in E2]; simpl.
  2:{ split; [|discriminate]. split; [discriminate|]. intros (_ & H). lra. }
  specialize (Hedge E1).
  destruct (Num.leb (target - total) 0) eqn:E3;
    [apply NumFacts.leb_le in E3; lra|].
  simpl. split; [|discriminate]. split; auto.
Qed.

Lemma cost_floor_implies_net_edge_witness :
  pass (checkCostFloor (calculateCosts "BTC/USD" 0.10 Sample.manager)
          Sample.manager) = true
  /\ totalCostsPct (calculateCosts "BTC/USD" 0.10 Sample.manager)
     == exchangeFeePct (config Sample.manager) * 2 + (4 # 10000)
  /\ totalCostsPct (calculateCosts "SOL/USD" 0.10 Sample.manager)
     == exchangeFeePct (config Sample.manager) * 2 + (6 # 10000).
Proof.
  destruct (cost_floor_implies_net_edge "BTC/USD" 0.10 Sample.manager)
    as (Hmajor & _ & _ & Hpass & _).
  { vm_compute. discriminate. }
  { vm_compute. reflexivity. }
  destruct (cost_floor_implies_net_edge "SOL/USD" 0.10 Sample.manager)
    as (_ & Hminor & _).
  { vm_compute. discriminate. }
  { vm_compute. reflexivity. }
  split; [apply Hpass; vm_compute; split; discriminate|].
  split; [apply Hmajor; left; reflexivity|].
  apply Hminor; discriminate.
Defined.

(** X16. Stage 2 passes exactly when the instrument is BTC/USD or the BTC
    momentum is not below the dump threshold, the volume ratio is not above
    the spike maximum, and there is no ticker, or its spread is not
    positive, or the spread over 90000 is not above the widening limit.  In
    particular BTC/USD is never rejected for a BTC dump. *)
Theorem drop_protection_passes_iff (k : string) (ticker : option Q)
    (ind : Indicators) (m : t) :
  (pass (checkDropProtection k ticker ind m) = true <->
     (k = "BTC/USD" \/ btcDumpThreshold1h (config m) <= btcMomentum1h m)
     /\ volumeRatio ind <= volumeSpikeMax (config m)
     /\ match ticker with
        | Some spread =>
            spread <= 0 \/ spread / 90000 <= spreadWideningPct (config m)
        | None => True
        end)
  /\ reason (checkDropProtection "BTC/USD" ticker ind m)
     <> Some (BTCDumping (btcMomentum1h m)).
Proof.
  split.
  - unfold checkDropProtection.
    destruct (String.eqb_spec k "BTC/USD") as [Hk | Hk]; simpl.
    + destruct (Num.gtb (volumeRatio ind) _) eqn:E2;
        [apply NumFacts.gtb_gt in E2 | apply NumFacts.gtb_le in E2].
      { simpl. split; [discriminate | intros (_ & H & _); lra]. }
      destruct ticker as [spread|]; [|simpl; tauto].
      destruct (Num.gtb spread 0) eqn:E3;
        [apply NumFacts.gtb_gt in E3 | apply NumFacts.gtb_le in E3].
      * destruct (Num.gtb (spread / 90000) _) eqn:E4;
          [apply NumFacts.gtb_gt in E4 | apply NumFacts.gtb_le in E4]; simpl.
        -- split; [discriminate | intros (_ & _ & [H | H]); lra].
        -- tauto.
      * simpl. tauto.
    + destruct (Num.ltb (btcMomentum1h m) _) eqn:E1;
        [apply NumFacts.ltb_lt in E1 | apply NumFacts.ltb_ge in E1].
      { simpl. split; [discriminate|].
        intros ([H | H] & _); [contradiction | lra]. }
      destruct (Num.gtb (volumeRatio ind) _) eqn:E2;
        [apply NumFacts.gtb_gt in E2 | apply NumFacts.gtb_le in E2].
      { simpl. split; [discriminate | intros (_ & H & _); lra]. }
      destruct ticker as [spread|]; [|simpl; tauto].
      destruct (Num.gtb spread 0) eqn:E3;
        [apply NumFacts.gtb_gt in E3 | apply NumFacts.gtb_le in E3].
      * destruct (Num.gtb (spread / 90000) _) eqn:E4;
          [apply NumFacts.gtb_gt in E4 | apply NumFacts.gtb_le in E4]; simpl.
        -- split; [discriminate | intros (_ & _ & [H | H]); lra].
        -- tauto.
      * simpl. tauto.
  - unfold checkDropProtection. simpl.
    destruct (Num.gtb (volumeRatio ind) _); [discriminate|].
    destruct ticker as [spread|]; [|discriminate].
    destruct (Num.gtb spread 0); [|discriminate].
    destruct (Num.gtb (spread / 90000) _); discriminate.
Qed.

Lemma drop_protection_passes_iff_witness :
  pass (checkDropProtection "ETH/USD" (Some 10)
          (indicators Sample2.trending) Sample.manager) = true.
Proof.
  apply (proj1 (drop_protection_passes_iff "ETH/USD" (Some 10)
                  (indicators Sample2.trending) Sample.manager)).
  vm_compute. split; [right; discriminate|]. split; [discriminate|].
  right. discriminate.
Defined.

End Stages.

(** ** Regimes, pyramid validation and the AI call budget *)

Module Manager.

Import RiskManager.

(** X17. [validatePyramidAdd] passes exactly when the confidence reaches the
    minimum of the level (L1 or L2) and the profit reaches the trigger.
    The confidence is looked at first: a low confidence is reported as
    stage 4 even when the profit is below the trigger too; a profit below
    the trigger alone is reported as stage 3; a pass carries stage 4. *)
Theorem validatePyramidAdd_verdicts (rest : ConfigRest) (conf : Q)
    (lvl : Level) (profit trigger : Q) :
  let least :=
    match lvl with
    | L1 => pyramidL1ConfidenceMin rest
    | L2 => pyramidL2ConfidenceMin rest
    end in
  let r := validatePyramidAdd rest conf lvl profit trigger in
  (pc_pass r = true <-> least <= conf /\ trigger <= profit)
  /\ (conf < least -> pc_pass r = false /\ pc_stage r = Some 4%Z)
  /\ (least <= conf -> profit < trigger ->
      pc_pass r = false /\ pc_stage r = Some 3%Z)
  /\ (pc_pass r = true -> pc_stage r = Some 4%Z /\ pc_reason r = None)
  /\ (pc_pass r = false -> pc_reason r <> None).
Proof.
  cbv zeta. unfold validatePyramidAdd. cbv zeta.
  set (least := match lvl with
                | L1 => pyramidL1ConfidenceMin rest
                | L2 => pyramidL2ConfidenceMin rest
                end).
  destruct (Num.ltb conf least) eqn:E1;
    [apply NumFacts.ltb_lt in E1 | apply NumFacts.ltb_ge in E1]; simpl.
  - split; [split; [discriminate | intros (H & _); lra]|].
    split; [auto|]. split; [intros; lra|].
    split; [discriminate | discriminate].
  - destruct (Num.ltb profit trigger) eqn:E2;
      [apply NumFacts.ltb_lt in E2 | apply NumFacts.ltb_ge in E2]; simpl.
    + split; [split; [discriminate | intros (_ & H); lra]|].
      split; [intros; lra|]. split; [auto|].
      split; [discriminate | discriminate].
    + split; [split; auto|].
      split; [intros; lra|]. split; [intros; lra|].
      split; [auto | discriminate].
Qed.

Lemma validatePyramidAdd_verdicts_witness :
  pc_stage (validatePyramidAdd Sample2.rest 80 L1 0.01 0.045) = Some 4%Z
  /\ pc_stage (validatePyramidAdd Sample2.rest 90 L1 0.01 0.045) = Some 3%Z.
Proof.
  destruct (validatePyramidAdd_verdicts Sample2.rest 80 L1 0.01 0.045)
    as (_ & H1 & _).
  destruct (validatePyramidAdd_verdicts Sample2.rest 90 L1 0.01 0.045)
    as (_ & _ & H2 & _).
  split.
  - apply H1. vm_compute. reflexivity.
  - apply H2; vm_compute; [discriminate | reflexivity].
Defined.

(** X18. [getRegime] answers choppy exactly below the choppy threshold.
    When that threshold is not above the minimum ADX for entry (both are 20
    by default), an ADX that passes the health gate is never classified
    choppy, so the erosion cap of an entry is always the trend cap: the
    choppy cap is never handed out. *)
Theorem entries_get_the_trend_cap (rest : ConfigRest) (adx : Q) (m : t) :
  (getRegime rest adx = choppy <-> adx < adxChoppyThreshold rest)
  /\ (adxChoppyThreshold rest <= minADXForEntry (config m) ->
      pass (checkHealthGate (Some adx) m) = true ->
      getRegime rest adx <> choppy
      /\ getErosionCap rest (getRegime rest adx)
         = pyramidErosionCapTrend rest).
Proof.
  assert (Hiff : getRegime rest adx = choppy <-> adx < adxChoppyThreshold rest).
  { unfold getRegime.
    destruct (Num.ltb adx (adxChoppyThreshold rest)) eqn:E;
      [apply NumFacts.ltb_lt in E | apply NumFacts.ltb_ge in E].
    - tauto.
    - split; [|intros; lra].
      destruct (Num.ltb adx 30); [discriminate|].
      destruct (Num.ltb adx _); discriminate. }
  split; [exact Hiff|].
  intros Hle Hpass.
  assert (Hadx : minADXForEntry (config m) <= adx).
  { unfold checkHealthGate, isChoppyMarket in Hpass.
    destruct (Num.geb _ _); [discriminate|].
    destruct (Num.ltb adx _) eqn:E; [discriminate|].
    now apply NumFacts.ltb_ge in E. }
  assert (Hnot : getRegime rest adx <> choppy).
  { intros H. apply Hiff in H. lra. }
  split; [exact Hnot|].
  destruct (getRegime rest adx); [contradiction | | |]; reflexivity.
Qed.

Lemma entries_get_the_trend_cap_witness :
  getErosionCap Sample2.rest (getRegime Sample2.rest 28) = 0.008.
Proof.
  apply (entries_get_the_trend_cap Sample2.rest 28 Sample.manager).
  - vm_compute. discriminate.
  - vm_compute. reflexivity.
Defined.

Lemma increment_frame now c :
  config (manager (incrementAICallCount now c)) = config (manager c)
  /\ btcMomentum1h (manager (incrementAICallCount now c))
     = btcMomentum1h (manager c).
Proof.
  unfold incrementAICallCount. cbv zeta.
  destruct (3600000 <? _)%Z; simpl; auto.
Qed.

(** X19. Calls of [incrementAICallCount] made within one hour of the last
    reset each add one to the counter and keep the reset time; a call made
    later than that restarts the counter at 1 and moves the reset time to
    now.  The counter is all the health gate looks at: once it has reached
    [aiMaxCallsPerHour] the gate rejects with stage 1 whatever the ADX. *)
Theorem ai_call_budget (times : list Z) (now : Z) (adx : option Q)
    (c : Clocked) :
  let c' := fold_left (fun c now => incrementAICallCount now c) times c in
  (Forall (fun now => (now - lastAICallReset c <= 3600000)%Z) times ->
   aiCallsLastHour (manager c')
   = (aiCallsLastHour (manager c) + Z.of_nat (length times))%Z
   /\ lastAICallReset c' = lastAICallReset c)
  /\ ((3600000 < now - lastAICallReset c)%Z ->
      aiCallsLastHour (manager (incrementAICallCount now c)) = 1%Z
      /\ lastAICallReset (incrementAICallCount now c) = now)
  /\ (aiMaxCallsPerHour (config (manager c))
      <= inject_Z (aiCallsLastHour (manager c)) ->
      pass (checkHealthGate adx (manager c)) = false
      /\ stage (checkHealthGate adx (manager c)) = Some 1%Z).
Proof.
  cbv zeta. split; [|split].
  - revert c. induction times as [|t ts IH]; intros c Hall; simpl.
    + split; [lia | reflexivity].
    + inversion Hall as [|x l Ht Hts]; subst.
      assert (Hstep : aiCallsLastHour (manager (incrementAICallCount t c))
                      = (aiCallsLastHour (manager c) + 1)%Z
                      /\ lastAICallReset (incrementAICallCount t c)
                         = lastAICallReset c).
      { unfold incrementAICallCount. cbv zeta.
        destruct (Z.ltb_spec 3600000 (t - lastAICallReset c)); [lia|].
        simpl. auto. }
      destruct Hstep as (H1 & H2).
      destruct (IH (incrementAICallCount t c)) as (H3 & H4).
      { rewrite H2. exact Hts. }
      rewrite H3, H4, H1, H2. split; [lia | reflexivity].
  - intros Hlate. unfold incrementAICallCount. cbv zeta.
    destruct (Z.ltb_spec 3600000 (now - lastAICallReset c)); [|lia].
    simpl. auto.
  - intros Hfull. unfold checkHealthGate.
    apply NumFacts.geb_ge in Hfull. rewrite Hfull. simpl. auto.
Qed.

Lemma ai_call_budget_witness :
  aiCallsLastHour
    (manager
       (fold_left (fun c now => incrementAICallCount now c) [10; 20; 30]%Z
          (mkClocked Sample.manager 0))) = 3%Z.
Proof.
  apply (ai_call_budget [10; 20; 30]%Z 0 None (mkClocked Sample.manager 0)).
  repeat constructor; vm_compute; discriminate.
Defined.

End Manager.

(** ** The trading loop on one instrument *)

Module Orchestration.

Import TradingBot.

(** *** What each step leaves alone *)

Lemma close_frame rest k px why now ok b :
  riskManager (closePosition rest k px why now ok b) = riskManager b
  /\ positionSizer (closePosition rest k px why now ok b) = positionSizer b
  /\ forall other, other <> k ->
       PositionTracker.positions
         (positionTracker (closePosition rest k px why now ok b)) !! other
       = PositionTracker.positions (positionTracker b) !! other.
Proof.
  unfold closePosition, PositionTracker.getPosition.
  destruct (PositionTracker.positions (positionTracker b) !! k) as [p|] eqn:E;
    [|auto].
  unfold PositionTracker.closePosition, PositionTracker.savePositions.
  destruct (negb (paperTrading rest)); simpl; rewrite E;
    (split; [reflexivity|]); (split; [reflexivity|]);
    intros other Hne; destruct ok; simpl; now apply lookup_delete_ne.
Qed.

Lemma close_gone rest k px why now ok b :
  PositionTracker.positions
    (positionTracker (closePosition rest k px why now ok b)) !! k = None.
Proof.
  unfold closePosition, PositionTracker.getPosition.
  destruct (PositionTracker.positions (positionTracker b) !! k) as [p|] eqn:E;
    [|exact E].
  unfold PositionTracker.closePosition, PositionTracker.savePositions.
  destruct (negb (paperTrading rest)); simpl; rewrite E;
    destruct ok; simpl; apply lookup_delete_eq.
Qed.

(** The outcome of one block of [checkAndExecutePyramidAdds]: nothing, or
    the level pushed on the position. *)
Lemma pyramidAdd_cases rest k px frac lvl d vol now b :
  let b' := pyramidAdd rest k px frac lvl d vol now b in
  riskManager b' = riskManager b
  /\ positionSizer b' = positionSizer b
  /\ PositionTracker.closedPositions (positionTracker b')
     = PositionTracker.closedPositions (positionTracker b)
  /\ PositionTracker.disk (positionTracker b')
     = PositionTracker.disk (positionTracker b)
  /\ (forall other, other <> k ->
        PositionTracker.positions (positionTracker b') !! other
        = PositionTracker.positions (positionTracker b) !! other)
  /\ ((positionTracker b' = positionTracker b /\ orders b' = orders b)
      \/ exists p addVolume,
           PositionTracker.positions (positionTracker b) !! k = Some p
           /\ PositionTracker.hasLevel lvl p = false
           /\ (match lvl with
               | L1 => pyramidLevelsActivated p < 1
               | L2 => pyramidLevelsActivated p = 1
               end)%Z
           /\ PositionTracker.positions (positionTracker b') !! k
              = Some (PositionTracker.pushed lvl px addVolume
                        (pd_confidence d) now p)
           /\ orders b'
              = if paperTrading rest then orders b
                else orders b ++ [mkOrder k buy addVolume]).
Proof.
  cbv zeta. unfold pyramidAdd. cbv zeta.
  set (ready := match lvl with
                | L1 => PositionTracker.isReadyForL1 _ _ _ _
                | L2 => PositionTracker.isReadyForL2 _ _ _ _
                end).
  destruct ready eqn:Eready; [|repeat split; auto].
  destruct (RiskManager.pc_pass _ && shouldAdd d); [|repeat split; auto].
  set (addVolume := vol * _).
  assert (Hgate : exists p,
            PositionTracker.positions (positionTracker b) !! k = Some p
            /\ (match lvl with
                | L1 => pyramidLevelsActivated p < 1
                | L2 => pyramidLevelsActivated p = 1
                end)%Z).
  { subst ready. destruct lvl;
      unfold PositionTracker.isReadyForL1, PositionTracker.isReadyForL2
        in Eready;
      destruct (PositionTracker.positions (positionTracker b) !! k) as [p|];
      try discriminate; exists p; (split; [reflexivity|]).
    - destruct (Z.leb_spec 1 (pyramidLevelsActivated p));
        [discriminate | assumption].
    - destruct (Z.ltb_spec (pyramidLevelsActivated p) 1); [discriminate|].
      destruct (Z.leb_spec 2 (pyramidLevelsActivated p)); [discriminate|].
      lia. }
  destruct Hgate as (p & Hp & Hcount).
  unfold PositionTracker.addPyramidLevel. rewrite Hp.
  assert (Hlt : (2 <=? pyramidLevelsActivated p)%Z = false)
    by (apply Z.leb_gt; destruct lvl; lia).
  rewrite Hlt.
  fold (PositionTracker.hasLevel lvl p).
  destruct (PositionTracker.hasLevel lvl p) eqn:Ehas; simpl.
  - repeat split; auto.
  - split; [destruct (paperTrading rest); reflexivity|].
    split; [destruct (paperTrading rest); reflexivity|].
    split; [destruct (paperTrading rest); reflexivity|].
    split; [destruct (paperTrading rest); reflexivity|].
    split.
    + intros other Hne. destruct (paperTrading rest); simpl;
        now apply lookup_insert_ne.
    + right. exists p, addVolume.
      split; [reflexivity|]. split; [exact Ehas|]. split; [exact Hcount|].
      destruct (paperTrading rest); simpl;
        (split; [apply lookup_insert_eq | reflexivity]).
Qed.

Lemma close_effect rest k px why now ok b q :
  PositionTracker.positions (positionTracker b) !! k = Some q ->
  let b' := closePosition rest k px why now ok b in
  PositionTracker.closedPositions (positionTracker b')
  = PositionTracker.closedPositions (positionTracker b)
    ++ [PositionTracker.settle px now why q]
  /\ orders b'
     = (if paperTrading rest then orders b
        else orders b ++ [mkOrder k sell (totalVolume q)]).
Proof.
  intros Hq. cbv zeta. unfold closePosition, PositionTracker.getPosition.
  rewrite Hq. unfold PositionTracker.closePosition,
    PositionTracker.savePositions.
  destruct (paperTrading rest); simpl; rewrite Hq; destruct ok; simpl; auto.
Qed.

Lemma ordered_pushed lvl px vol conf now p :
  TradingBot.ordered p ->
  PositionTracker.hasLevel lvl p = false ->
  (match lvl with
   | L1 => pyramidLevelsActivated p < 1
   | L2 => pyramidLevelsActivated p = 1
   end)%Z ->
  TradingBot.ordered (PositionTracker.pushed lvl px vol conf now p).
Proof.
  intros (Hshape & Hcount) Hnew Hgate.
  unfold TradingBot.ordered, PositionTracker.pushed. simpl.
  rewrite map_app, length_app. simpl.
  split; [|lia].
  destruct (pyramidLevels p) as [|l1 [|l2 ls]] eqn:E; simpl in *.
  - destruct lvl; [auto | lia].
  - destruct lvl; [lia|].
    destruct Hshape as [H | [H | H]]; try discriminate.
    injection H as ->. auto.
  - destruct lvl; lia.
Qed.

Lemma ordered_reprice px p :
  TradingBot.ordered p -> TradingBot.ordered (PositionTracker.reprice px p).
Proof.
  unfold TradingBot.ordered.
  destruct (LedgerFacts.reprice_frame px p) as (H1 & _ & H2 & _).
  now rewrite H1, H2.
Qed.

(** *** Orders *)

Lemma traded_snoc k side os o :
  traded k side (os ++ [o])
  == traded k side os
     + (if String.eqb (o_pair o) k
           && match o_side o, side with
              | buy, buy | sell, sell => true
              | _, _ => false
              end
        then o_volume o else 0).
Proof.
  induction os as [|x os IH].
  - unfold traded. simpl. destruct (_ && _); lra.
  - change (traded k side ((x :: os) ++ [o]))
      with (if String.eqb (o_pair x) k
               && match o_side x, side with
                  | buy, buy | sell, sell => true
                  | _, _ => false
                  end
            then o_volume x + traded k side (os ++ [o])
            else traded k side (os ++ [o])).
    change (traded k side (x :: os))
      with (if String.eqb (o_pair x) k
               && match o_side x, side with
                  | buy, buy | sell, sell => true
                  | _, _ => false
                  end
            then o_volume x + traded k side os
            else traded k side os).
    destruct (String.eqb (o_pair x) k && _); rewrite IH; lra.
Qed.

Lemma exposure_snoc k os k' side v :
  exposure k (os ++ [mkOrder k' side v])
  == exposure k os
     + (if String.eqb k' k
        then match side with buy => v | sell => - v end
        else 0).
Proof.
  unfold exposure. rewrite !traded_snoc. simpl.
  destruct (String.eqb k' k), side; simpl; lra.
Qed.

Lemma exposure_snoc_other k os k' side v :
  k <> k' -> exposure k (os ++ [mkOrder k' side v]) == exposure k os.
Proof.
  intros Hne. rewrite exposure_snoc.
  destruct (String.eqb_spec k' k); [congruence | lra].
Qed.

Lemma exposure_snoc_same k os side v :
  exposure k (os ++ [mkOrder k side v])
  == exposure k os + match side with buy => v | sell => - v end.
Proof. rewrite exposure_snoc, String.eqb_refl. reflexivity. Qed.

(** *** Steps that keep the position open *)

Lemma keeps_refl rest k b : keeps rest k b b.
Proof.
  unfold keeps. do 7 (split; [intros; reflexivity|]).
  intros q Hq. exists q. split; [exact Hq|]. split; [auto|].
  split; [reflexivity|]. intros _. lra.
Qed.

Lemma keeps_trans rest k b1 b2 b3 :
  keeps rest k b1 b2 -> keeps rest k b2 b3 -> keeps rest k b1 b3.
Proof.
  intros (A1 & A2 & A3 & A4 & A5 & A6 & A7 & A8)
         (B1 & B2 & B3 & B4 & B5 & B6 & B7 & B8).
  unfold keeps.
  split; [congruence|]. split; [congruence|]. split; [congruence|].
  split; [congruence|].
  split; [intros other Hne; rewrite B5, A5; auto|].
  split; [intros other Hne; rewrite B6, A6; auto; reflexivity|].
  split; [intros Hp; rewrite B7, A7; auto|].
  intros q Hq. destruct (A8 q Hq) as (q2 & Hq2 & Ho2 & Hv2 & He2).
  destruct (B8 q2 Hq2) as (q3 & Hq3 & Ho3 & Hv3 & He3).
  exists q3. split; [exact Hq3|]. split; [auto|]. split; [congruence|].
  intros Hlive. specialize (He2 Hlive). specialize (He3 Hlive). lra.
Qed.

Lemma update_keeps rest k px b :
  keeps rest k b
    (withTracker
       (PositionTracker.updatePosition k px (positionTracker b)) b).
Proof.
  unfold keeps, withTracker, PositionTracker.updatePosition. simpl.
  destruct (PositionTracker.positions (positionTracker b) !! k) as [p|] eqn:E;
    simpl.
  - split; [reflexivity|]. split; [reflexivity|]. split; [reflexivity|].
    split; [reflexivity|].
    split; [intros other Hne; now apply lookup_insert_ne|].
    split; [reflexivity|]. split; [reflexivity|].
    intros q [= <-]. exists (PositionTracker.reprice px p).
    split; [apply lookup_insert_eq|].
    split; [apply ordered_reprice|].
    destruct (LedgerFacts.reprice_frame px p) as (_ & Ht & _ & Hv & _).
    split; [exact Hv|]. intros _. rewrite Ht. lra.
  - do 7 (split; [intros; reflexivity|]).
    intros q Hq. discriminate.
Qed.

Lemma pyramidAdd_keeps rest k px frac lvl d vol now b :
  keeps rest k b (pyramidAdd rest k px frac lvl d vol now b).
Proof.
  destruct (pyramidAdd_cases rest k px frac lvl d vol now b)
    as (H1 & H2 & H3 & H4 & H5 & [(Ht & Ho) | Hpush]).
  - unfold keeps.
    split; [exact H1|]. split; [exact H2|]. split; [exact H3|].
    split; [exact H4|]. split; [exact H5|]. rewrite Ht, Ho.
    do 2 (split; [intros; reflexivity|]).
    intros q Hq. exists q. split; [exact Hq|]. split; [auto|].
    split; [reflexivity|]. intros _. lra.
  - destruct Hpush as (p & addVolume & Hp & Hnew & Hgate & Hp' & Ho).
    unfold keeps.
    split; [exact H1|]. split; [exact H2|]. split; [exact H3|].
    split; [exact H4|]. split; [exact H5|].
    split.
    { intros other Hne. rewrite Ho. destruct (paperTrading rest);
        [reflexivity | now apply exposure_snoc_other]. }
    split.
    { intros Hpaper. rewrite Ho, Hpaper. reflexivity. }
    intros q Hq. rewrite Hp in Hq. injection Hq as <-.
    eexists. split; [exact Hp'|].
    split; [intros Hord; now apply ordered_pushed|].
    split; [reflexivity|].
    intros Hlive. rewrite Ho, Hlive, exposure_snoc_same. simpl. lra.
Qed.

Lemma adds_keeps rest k md position advice now b :
  keeps rest k b (checkAndExecutePyramidAdds rest k md position advice now b).
Proof.
  unfold checkAndExecutePyramidAdds. cbv zeta.
  eapply keeps_trans; apply pyramidAdd_keeps.
Qed.

(** *** The two branches of [processPair] *)

Lemma monitor_cases config rest k md advice now ok b p :
  PositionTracker.positions (positionTracker b) !! k = Some p ->
  let price := currentPrice md in
  let b1 :=
    withTracker
      (PositionTracker.updatePosition k price (positionTracker b)) b in
  let b' := monitorPosition config rest k md advice now ok b in
  PositionTracker.positions (positionTracker b1) !! k
  = Some (PositionTracker.reprice price p)
  /\ ((exists why,
         In why TradingBot.exitReasons
         /\ b' = closePosition rest k price why now ok b1
         /\ (price <= stopLoss p -> why = "Stop Loss"))
      \/ (stopLoss p < price /\ keeps rest k b1 b')).
Proof.
  intros Hp. cbv zeta.
  assert (H1 : PositionTracker.positions
                 (positionTracker
                    (withTracker
                       (PositionTracker.updatePosition k (currentPrice md)
                          (positionTracker b)) b)) !! k
               = Some (PositionTracker.reprice (currentPrice md) p)).
  { unfold withTracker, PositionTracker.updatePosition. simpl. rewrite Hp.
    simpl. apply lookup_insert_eq. }
  split; [exact H1|].
  unfold monitorPosition. cbv zeta.
  set (b1 := withTracker _ b) in *.
  unfold PositionTracker.getPosition. rewrite H1.
  destruct (Lifecycle.reprice_identity (currentPrice md) p)
    as (_ & _ & Hsl & _).
  assert (Hcheck : PositionTracker.checkStopLoss k (currentPrice md)
                     (positionTracker b1)
                   = Num.leb (currentPrice md) (stopLoss p)).
  { unfold PositionTracker.checkStopLoss. now rewrite H1, Hsl. }
  rewrite Hcheck. unfold exitReasons.
  destruct (Num.leb (currentPrice md) (stopLoss p)) eqn:Estop;
    [apply NumFacts.leb_le in Estop | apply NumFacts.leb_gt in Estop].
  { left. exists "Stop Loss". simpl. auto. }
  destruct (PositionTracker.checkErosionCap k (positionTracker b1)).
  { left. exists "Erosion Cap Exceeded". simpl.
    split; [auto|]. split; [reflexivity|]. intros. lra. }
  destruct (shouldExit _).
  { left. exists "Momentum Failure". simpl.
    split; [auto|]. split; [reflexivity|]. intros. lra. }
  destruct (PositionTracker.checkProfitTarget k _ (positionTracker b1)).
  { left. exists "Profit Target". simpl.
    split; [auto 6|]. split; [reflexivity|]. intros. lra. }
  right. split; [exact Estop|]. cbv iota.
  destruct (pyramidingEnabled rest); [apply adds_keeps | apply keeps_refl].
Qed.

Lemma filter_blocked k price ind ticker target m :
  aiMaxCallsPerHour (RiskManager.config m)
  <= inject_Z (RiskManager.aiCallsLastHour m) ->
  pass (fst (RiskManager.runFullRiskFilter k price ind ticker target m))
  = false.
Proof.
  intros Hfull. apply NumFacts.geb_ge in Hfull.
  unfold RiskManager.runFullRiskFilter, RiskManager.checkHealthGate.
  cbv zeta. rewrite Hfull. reflexivity.
Qed.

Lemma tryEntry_cases rest k md candles ai decision now filled b :
  PositionTracker.positions (positionTracker b) !! k = None ->
  let m := RiskManager.manager (riskManager b) in
  let price := currentPrice md in
  let ok :=
    pass (fst (RiskManager.runFullRiskFilter k price (indicators md)
                 (if (0 <? length candles)%nat
                  then Some (ask md - bid md) else None)
                 (price * cfg_profitTargetPct rest) m)) in
  let b' := tryEntry rest k md candles ai decision now filled b in
  positionSizer b' = positionSizer b
  /\ PositionTracker.closedPositions (positionTracker b')
     = PositionTracker.closedPositions (positionTracker b)
  /\ PositionTracker.disk (positionTracker b')
     = PositionTracker.disk (positionTracker b)
  /\ riskManager b'
     = (if ok then RiskManager.incrementAICallCount now (riskManager b)
        else riskManager b)
  /\ (forall other, other <> k ->
        PositionTracker.positions (positionTracker b') !! other
        = PositionTracker.positions (positionTracker b) !! other)
  /\ ((PositionTracker.positions (positionTracker b') !! k = None
       /\ (orders b' = orders b
           \/ (paperTrading rest = false /\ filled = false
               /\ exists v, orders b' = orders b ++ [mkOrder k buy v])))
      \/ (exists size,
            let rg := RiskManager.getRegime rest (ind_adx (indicators md)) in
            let cap := RiskManager.getErosionCap rest rg in
            ok = true
            /\ aiMinConfidence (RiskManager.config m) <= ai_confidence ai
            /\ decision = BUY
            /\ (paperTrading rest = true \/ filled = true)
            /\ PositionTracker.positions (positionTracker b') !! k
               = Some (mkPosition k price size now
                         (price * (1 - stopLossPct (RiskManager.config m)))
                         (price * (1 + cfg_profitTargetPct rest))
                         [] size 0 0 0 0 cap 0 (reasoning ai)
                         (ind_adx (indicators md)) rg open None None None)
            /\ orders b'
               = (if paperTrading rest then orders b
                  else orders b ++ [mkOrder k buy size]))).
Proof.
  intros Hnone. cbv zeta. unfold tryEntry. cbv zeta.
  destruct (pass (fst (RiskManager.runFullRiskFilter _ _ _ _ _ _))); simpl.
  2:{ repeat split; auto. }
  destruct (Num.ltb (ai_confidence ai) _) eqn:Econf;
    [|apply NumFacts.ltb_ge in Econf].
  { simpl. repeat split; auto. }
  destruct decision.
  2:{ simpl. repeat split; auto. }
  unfold executeTrade. cbv zeta. simpl.
  rewrite (proj1 (Manager.increment_frame now (riskManager b))).
  unfold PositionTracker.addPosition.
  destruct (paperTrading rest) eqn:Epaper; simpl.
  - rewrite Hnone. simpl.
    do 4 (split; [reflexivity|]).
    split; [intros other Hne; now apply lookup_insert_ne|].
    right. eexists. cbv zeta.
    split; [reflexivity|]. split; [exact Econf|]. split; [reflexivity|].
    split; [auto|]. split; [apply lookup_insert_eq | reflexivity].
  - destruct filled; simpl.
    + rewrite Hnone. simpl.
      do 4 (split; [reflexivity|]).
      split; [intros other Hne; now apply lookup_insert_ne|].
      right. eexists. cbv zeta.
      split; [reflexivity|]. split; [exact Econf|]. split; [reflexivity|].
      split; [auto|]. split; [apply lookup_insert_eq | reflexivity].
    + do 4 (split; [reflexivity|]). split; [reflexivity|].
      left. split; [exact Hnone|]. right. eauto.
Qed.

(** X20. One call of [monitorPosition] on a tracked position either closes
    it or keeps it, never both and never twice.  When it closes, the
    instrument is gone from the open positions and the history gets exactly
    one record, with the current price as exit price and one of the four
    exit reasons; no pyramid level is added in that call; in live trading
    one sell order for the total volume is sent, in paper trading none.  A
    price at or below the stop always closes with "Stop Loss", whatever the
    other triggers say.  The sizer, the risk manager and the other
    instruments are untouched. *)
Theorem monitor_exits_at_most_once (config : Config) (rest : ConfigRest)
    (k : string) (md : MarketData) (advice : Level -> PyramidDecision)
    (now : Z) (ok : bool) (b : Bot) (p : Position) :
  PositionTracker.positions (positionTracker b) !! k = Some p ->
  let price := currentPrice md in
  let b' := monitorPosition config rest k md advice now ok b in
  let closed := PositionTracker.closedPositions (positionTracker b) in
  ((PositionTracker.positions (positionTracker b') !! k = None
    /\ exists c why,
         PositionTracker.closedPositions (positionTracker b') = closed ++ [c]
         /\ In why exitReasons
         /\ exitReason c = Some why
         /\ exitPrice c = Some price
         /\ status c = Types.closed
         /\ pyramidLevels c = pyramidLevels p
         /\ totalVolume c = totalVolume p
         /\ orders b'
            = (if paperTrading rest then orders b
               else orders b ++ [mkOrder k sell (totalVolume p)]))
   \/ (exists q,
         PositionTracker.positions (positionTracker b') !! k = Some q
         /\ PositionTracker.closedPositions (positionTracker b') = closed
         /\ stopLoss p < price
         /\ volume q = volume p))
  /\ (price <= stopLoss p ->
      exists c,
        PositionTracker.closedPositions (positionTracker b') = closed ++ [c]
        /\ exitReason c = Some "Stop Loss")
  /\ riskManager b' = riskManager b
  /\ positionSizer b' = positionSizer b
  /\ forall other, other <> k ->
       PositionTracker.positions (positionTracker b') !! other
       = PositionTracker.positions (positionTracker b) !! other.
Proof.
  intros Hp. cbv zeta.
  destruct (monitor_cases config rest k md advice now ok b p Hp)
    as (Hq & Hcases).
  pose proof (update_keeps rest k (currentPrice md) b) as Hup.
  set (b1 := withTracker _ b) in *.
  destruct (LedgerFacts.reprice_frame (currentPrice md) p)
    as (Hlv & Htv & _ & Hvol & _).
  destruct Hcases as [(why & Hin & -> & Hstop) | (Hgt & Hkeep)].
  - destruct (close_effect rest k (currentPrice md) why now ok b1 _ Hq)
      as (Hclosed & Horders).
    destruct (close_frame rest k (currentPrice md) why now ok b1)
      as (Hrm & Hsz & Hothers).
    destruct Hup as (U1 & U2 & U3 & _ & U5 & _).
    split; [|split; [|split; [|split]]].
    + left. split; [apply close_gone|].
      exists (PositionTracker.settle (currentPrice md) now why
                (PositionTracker.reprice (currentPrice md) p)), why.
      rewrite Hclosed, Horders, U3, Htv. simpl.
      repeat split; try assumption.
    + intros Hle. eexists. rewrite Hclosed, U3. split; [reflexivity|].
      simpl. now rewrite (Hstop Hle).
    + congruence.
    + congruence.
    + intros other Hne. rewrite Hothers, U5; auto.
  - pose proof (keeps_trans rest k b b1 _ Hup Hkeep)
      as (K1 & K2 & K3 & _ & K5 & _ & _ & K8).
    destruct (K8 p Hp) as (q & Hq' & _ & Hv & _).
    split; [|split; [|split; [|split]]]; try assumption.
    + right. exists q. auto.
    + intros Hle. lra.
Qed.

Lemma monitor_exits_at_most_once_witness :
  exists c,
    PositionTracker.closedPositions
      (positionTracker
         (monitorPosition Sample.cfg Sample2.rest "BTC/USD"
            (tk_marketData Sample2.crash) Sample2.keen 3 true
            (mkBot Sample.fresh (DynamicPositionSizer.create 10000)
               (RiskManager.mkClocked Sample.manager 0) [])))
    = PositionTracker.closedPositions Sample.fresh ++ [c]
    /\ exitReason c = Some "Stop Loss".
Proof.
  apply (monitor_exits_at_most_once Sample.cfg Sample2.rest "BTC/USD"
           (tk_marketData Sample2.crash) Sample2.keen 3 true
           (mkBot Sample.fresh (DynamicPositionSizer.create 10000)
              (RiskManager.mkClocked Sample.manager 0) [])
           (mkPosition "BTC/USD" 50000 0.1 1000 47500 55000 [] 0.1 0 0 0 0
              0.008 0 [] 25 moderate open None None None)).
  - vm_compute. reflexivity.
  - vm_compute. discriminate.
Defined.

(** X21. [tryEntry] on an instrument without position opens one only if
    the risk filter passed, the confidence reached [aiMinConfidence], the
    decision was BUY and, in live trading, the exchange took the order.
    The new position is open at the current price, with the stop and the
    target of [calculateLevels], the erosion cap of the regime, no pyramid
    level and zeroed profit, peak and erosion.  The AI call counter moves
    exactly when the risk filter passed; the closed history, the file and
    the other instruments are untouched. *)
Theorem entry_needs_every_gate (rest : ConfigRest) (k : string)
    (md : MarketData) (candles : list Candle) (ai : AIDecision)
    (decision : Decision) (now : Z) (filled : bool) (b : Bot) :
  PositionTracker.positions (positionTracker b) !! k = None ->
  let m := RiskManager.manager (riskManager b) in
  let price := currentPrice md in
  let ok :=
    pass (fst (RiskManager.runFullRiskFilter k price (indicators md)
                 (if (0 <? length candles)%nat
                  then Some (ask md - bid md) else None)
                 (price * cfg_profitTargetPct rest) m)) in
  let b' := tryEntry rest k md candles ai decision now filled b in
  (forall q,
     PositionTracker.positions (positionTracker b') !! k = Some q ->
     ok = true
     /\ aiMinConfidence (RiskManager.config m) <= ai_confidence ai
     /\ decision = BUY
     /\ (paperTrading rest = true \/ filled = true)
     /\ status q = open /\ entryPrice q = price
     /\ stopLoss q = price * (1 - stopLossPct (RiskManager.config m))
     /\ profitTarget q = price * (1 + cfg_profitTargetPct rest)
     /\ erosionCap q
        = RiskManager.getErosionCap rest
            (RiskManager.getRegime rest (ind_adx (indicators md)))
     /\ pyramidLevels q = [] /\ pyramidLevelsActivated q = 0%Z
     /\ totalVolume q = volume q
     /\ currentProfit q = 0 /\ peakProfit q = 0 /\ erosionUsed q = 0)
  /\ riskManager b'
     = (if ok then RiskManager.incrementAICallCount now (riskManager b)
        else riskManager b)
  /\ PositionTracker.closedPositions (positionTracker b')
     = PositionTracker.closedPositions (positionTracker b)
  /\ PositionTracker.disk (positionTracker b')
     = PositionTracker.disk (positionTracker b)
  /\ forall other, other <> k ->
       PositionTracker.positions (positionTracker b') !! other
       = PositionTracker.positions (positionTracker b) !! other.
Proof.
  intros Hnone. cbv zeta.
  destruct (tryEntry_cases rest k md candles ai decision now filled b Hnone)
    as (_ & Hc & Hd & Hrm & Hothers & Hcases).
  split; [|auto].
  intros q Hq.
  destruct Hcases as [(Hno & _) | (size & Hok & Hconf & Hbuy & Hmode & Hpos
                                   & _)].
  - rewrite Hno in Hq. discriminate.
  - rewrite Hpos in Hq. injection Hq as <-. simpl.
    repeat split; auto.
Qed.

Lemma entry_needs_every_gate_witness :
  riskManager
    (tryEntry Sample2.rest "BTC/USD" Sample2.trending [Sample2.candle]
       (mkAIDecision 80 []) BUY 1 true Sample2.bot)
  = RiskManager.incrementAICallCount 1 (riskManager Sample2.bot).
Proof.
  destruct (entry_needs_every_gate Sample2.rest "BTC/USD" Sample2.trending
              [Sample2.candle] (mkAIDecision 80 []) BUY 1 true Sample2.bot)
    as (_ & H & _).
  - vm_compute. reflexivity.
  - exact H.
Defined.

(** *** Any number of calls of [processPair] *)

Lemma tick_ordered config rest b tk :
  (forall k p, PositionTracker.positions (positionTracker b) !! k = Some p ->
               ordered p) ->
  forall k p,
    PositionTracker.positions
      (positionTracker (processTick config rest b tk)) !! k = Some p ->
    ordered p.
Proof.
  intros Hall k p. unfold processTick, processPair,
    PositionTracker.getPosition.
  set (k0 := tk_pair tk).
  destruct (PositionTracker.positions (positionTracker b) !! k0) as [p0|]
    eqn:E0.
  - destruct (monitor_cases config rest k0 (tk_marketData tk) (tk_advice tk)
                (tk_now tk) (tk_writeOk tk) b p0 E0) as (Hq & Hcases).
    pose proof (update_keeps rest k0 (currentPrice (tk_marketData tk)) b)
      as Hup.
    set (b1 := withTracker _ b) in *.
    destruct Hcases as [(why & _ & -> & _) | (_ & Hkeep)].
    + destruct (close_frame rest k0 (currentPrice (tk_marketData tk)) why
                  (tk_now tk) (tk_writeOk tk) b1) as (_ & _ & Hothers).
      destruct (decide (k = k0)) as [-> | Hne].
      * rewrite close_gone. discriminate.
      * rewrite Hothers by exact Hne.
        destruct Hup as (_ & _ & _ & _ & U5 & _). rewrite U5 by exact Hne.
        apply Hall.
    + pose proof (keeps_trans rest k0 b b1 _ Hup Hkeep)
        as (_ & _ & _ & _ & K5 & _ & _ & K8).
      destruct (decide (k = k0)) as [-> | Hne].
      * destruct (K8 p0 E0) as (q & Hq' & Hord & _).
        rewrite Hq'. intros [= <-]. apply Hord. now apply (Hall k0).
      * rewrite K5 by exact Hne. apply Hall.
  - destruct (tryEntry_cases rest k0 (tk_marketData tk) (tk_candles tk)
                (tk_aiDecision tk) (tk_decision tk) (tk_now tk)
                (tk_filled tk) b E0)
      as (_ & _ & _ & _ & Hothers & Hcases).
    destruct (decide (k = k0)) as [-> | Hne].
    + destruct Hcases as [(Hno & _) | (size & _ & _ & _ & _ & Hpos & _)].
      * rewrite Hno. discriminate.
      * rewrite Hpos. intros [= <-]. unfold ordered. simpl. auto.
    + rewrite Hothers by exact Hne. apply Hall.
Qed.

(** X22. Driven by [processPair], the pyramid levels of every tracked
    position are in order: none, level 1, or level 1 then level 2, with
    the activated count equal to their number.  Level 2 is never added
    before level 1, although [addPyramidLevel] itself would accept it:
    the readiness gates in front of it see to the order. *)
Theorem levels_stay_in_order (config : Config) (rest : ConfigRest)
    (tks : list Tick) (b : Bot) :
  (forall k p, PositionTracker.positions (positionTracker b) !! k = Some p ->
               ordered p) ->
  forall k p,
    PositionTracker.positions
      (positionTracker (processTicks config rest tks b)) !! k = Some p ->
    ordered p.
Proof.
  unfold processTicks. revert b.
  induction tks as [|tk tks IH]; intros b Hall; simpl; [exact Hall|].
  apply IH. now apply tick_ordered.
Qed.

Lemma levels_stay_in_order_witness :
  exists p,
    PositionTracker.positions
      (positionTracker
         (processTicks Sample.cfg Sample2.live [Sample2.enter; Sample2.rise]
            Sample2.bot)) !! "BTC/USD" = Some p
    /\ map level (pyramidLevels p) = [L1; L2]
    /\ ordered p.
Proof.
  eexists. split; [vm_compute; reflexivity|].
  split; [reflexivity|].
  apply (levels_stay_in_order Sample.cfg Sample2.live
           [Sample2.enter; Sample2.rise] Sample2.bot) with (k := "BTC/USD").
  - intros k p. vm_compute. discriminate.
  - vm_compute. reflexivity.
Defined.

Lemma tick_locked config rest b tk :
  aiMaxCallsPerHour
    (RiskManager.config (RiskManager.manager (riskManager b)))
  <= inject_Z
       (RiskManager.aiCallsLastHour (RiskManager.manager (riskManager b))) ->
  riskManager (processTick config rest b tk) = riskManager b
  /\ forall k,
       PositionTracker.positions (positionTracker b) !! k = None ->
       PositionTracker.positions
         (positionTracker (processTick config rest b tk)) !! k = None.
Proof.
  intros Hfull. unfold processTick, processPair,
    PositionTracker.getPosition.
  set (k0 := tk_pair tk).
  destruct (PositionTracker.positions (positionTracker b) !! k0) as [p0|]
    eqn:E0.
  - destruct (monitor_cases config rest k0 (tk_marketData tk) (tk_advice tk)
                (tk_now tk) (tk_writeOk tk) b p0 E0) as (Hq & Hcases).
    pose proof (update_keeps rest k0 (currentPrice (tk_marketData tk)) b)
      as Hup.
    set (b1 := withTracker _ b) in *.
    destruct Hcases as [(why & _ & -> & _) | (_ & Hkeep)].
    + destruct (close_frame rest k0 (currentPrice (tk_marketData tk)) why
                  (tk_now tk) (tk_writeOk tk) b1) as (Hrm & _ & Hothers).
      destruct Hup as (U1 & _ & _ & _ & U5 & _).
      split; [congruence|].
      intros k Hk. destruct (decide (k = k0)) as [-> | Hne].
      * apply close_gone.
      * rewrite Hothers, U5; auto.
    + pose proof (keeps_trans rest k0 b b1 _ Hup Hkeep)
        as (K1 & _ & _ & _ & K5 & _).
      split; [exact K1|].
      intros k Hk. destruct (decide (k = k0)) as [-> | Hne].
      * rewrite E0 in Hk. discriminate.
      * rewrite K5; auto.
  - unfold tryEntry. cbv zeta.
    rewrite (filter_blocked _ _ _ _ _ _ Hfull). simpl. auto.
Qed.

(** X23. The counter of AI calls is reset only inside
    [incrementAICallCount], and [tryEntry] calls it only after the risk
    filter has passed.  So once the counter has reached
    [aiMaxCallsPerHour], no sequence of BTC momentum updates and
    [processPair] calls, at whatever times, moves the counter or its reset
    time again or opens a position on an instrument that has none: the
    rate limit does not lift by itself. *)
Theorem rate_limit_never_lifts (config : Config) (rest : ConfigRest)
    (es : list Event) (b : Bot) :
  let m := RiskManager.manager (riskManager b) in
  aiMaxCallsPerHour (RiskManager.config m)
  <= inject_Z (RiskManager.aiCallsLastHour m) ->
  let b' := handleAll config rest es b in
  RiskManager.aiCallsLastHour (RiskManager.manager (riskManager b'))
  = RiskManager.aiCallsLastHour m
  /\ RiskManager.lastAICallReset (riskManager b')
     = RiskManager.lastAICallReset (riskManager b)
  /\ RiskManager.config (RiskManager.manager (riskManager b'))
     = RiskManager.config m
  /\ forall k,
       PositionTracker.positions (positionTracker b) !! k = None ->
       PositionTracker.positions (positionTracker b') !! k = None.
Proof.
  cbv zeta. unfold handleAll. revert b.
  induction es as [|e es IH]; intros b Hfull; simpl; [auto|].
  assert (Hstep :
    RiskManager.aiCallsLastHour
      (RiskManager.manager (riskManager (handle config rest b e)))
    = RiskManager.aiCallsLastHour (RiskManager.manager (riskManager b))
    /\ RiskManager.lastAICallReset (riskManager (handle config rest b e))
       = RiskManager.lastAICallReset (riskManager b)
    /\ RiskManager.config
         (RiskManager.manager (riskManager (handle config rest b e)))
       = RiskManager.config (RiskManager.manager (riskManager b))
    /\ forall k,
         PositionTracker.positions (positionTracker b) !! k = None ->
         PositionTracker.positions
           (positionTracker (handle config rest b e)) !! k = None).
  { destruct e as [momentum | tk]; simpl.
    - auto.
    - destruct (tick_locked config rest b tk Hfull) as (Hrm & Hnone).
      rewrite Hrm. auto. }
  destruct Hstep as (H1 & H2 & H3 & H4).
  destruct (IH (handle config rest b e)) as (I1 & I2 & I3 & I4).
  { rewrite H1, H3. exact Hfull. }
  split; [congruence|]. split; [congruence|]. split; [congruence|]. auto.
Qed.

Lemma rate_limit_never_lifts_witness :
  PositionTracker.positions
    (positionTracker
       (handleAll Sample.cfg Sample2.rest
          [Momentum 0.01;
           Pair (TradingBot.mkTick "BTC/USD" Sample2.trending
                   [Sample2.candle] Sample2.keen (mkAIDecision 80 []) BUY
                   999999999 true true)]
          (mkBot (PositionTracker.construct None)
             (DynamicPositionSizer.create 10000)
             (RiskManager.mkClocked
                (RiskManager.mkRiskManager Sample.cfg 0 300) 0) [])))
    !! "BTC/USD" = None.
Proof.
  apply (rate_limit_never_lifts Sample.cfg Sample2.rest
           [Momentum 0.01;
            Pair (TradingBot.mkTick "BTC/USD" Sample2.trending
                    [Sample2.candle] Sample2.keen (mkAIDecision 80 []) BUY
                    999999999 true true)]
           (mkBot (PositionTracker.construct None)
              (DynamicPositionSizer.create 10000)
              (RiskManager.mkClocked
                 (RiskManager.mkRiskManager Sample.cfg 0 300) 0) [])).
  - vm_compute. discriminate.
  - vm_compute. reflexivity.
Defined.

Lemma balanced_step b b' k0 :
  balanced b ->
  (forall j, j <> k0 ->
     PositionTracker.positions (positionTracker b') !! j
     = PositionTracker.positions (positionTracker b) !! j) ->
  (forall j, j <> k0 -> exposure j (orders b') == exposure j (orders b)) ->
  exposure k0 (orders b')
  == match PositionTracker.positions (positionTracker b') !! k0 with
     | Some p => totalVolume p
     | None => 0
     end ->
  balanced b'.
Proof.
  intros Hb Hpos Hexp Hk j. destruct (decide (j = k0)) as [-> | Hne].
  - exact Hk.
  - rewrite (Hpos j Hne), (Hexp j Hne). apply Hb.
Qed.

Lemma tick_balanced config rest b tk :
  paperTrading rest = false -> tk_filled tk = true ->
  balanced b -> balanced (processTick config rest b tk).
Proof.
  intros Hlive Hfilled Hb. unfold processTick, processPair,
    PositionTracker.getPosition.
  set (k0 := tk_pair tk).
  pose proof (Hb k0) as Hk0.
  destruct (PositionTracker.positions (positionTracker b) !! k0) as [p0|]
    eqn:E0.
  - destruct (monitor_cases config rest k0 (tk_marketData tk) (tk_advice tk)
                (tk_now tk) (tk_writeOk tk) b p0 E0) as (Hq & Hcases).
    pose proof (update_keeps rest k0 (currentPrice (tk_marketData tk)) b)
      as Hup.
    set (b1 := withTracker _ b) in *.
    destruct Hcases as [(why & _ & -> & _) | (_ & Hkeep)].
    + destruct (close_effect rest k0 (currentPrice (tk_marketData tk)) why
                  (tk_now tk) (tk_writeOk tk) b1 _ Hq) as (_ & Horders).
      destruct (close_frame rest k0 (currentPrice (tk_marketData tk)) why
                  (tk_now tk) (tk_writeOk tk) b1) as (_ & _ & Hothers).
      destruct Hup as (_ & _ & _ & _ & U5 & _).
      rewrite Hlive in Horders.
      destruct (LedgerFacts.reprice_frame (currentPrice (tk_marketData tk))
                  p0) as (_ & Htv & _).
      apply (balanced_step b _ k0 Hb).
      * intros j Hne. rewrite Hothers, U5; auto.
      * intros j Hne. rewrite Horders. now apply exposure_snoc_other.
      * rewrite close_gone, Horders, exposure_snoc_same, Htv.
        change (orders b1) with (orders b). lra.
    + pose proof (keeps_trans rest k0 b b1 _ Hup Hkeep)
        as (_ & _ & _ & _ & K5 & K6 & _ & K8).
      destruct (K8 p0 E0) as (q & Hq' & _ & _ & Hexp).
      apply (balanced_step b _ k0 Hb); [exact K5 | exact K6 |].
      rewrite Hq'. specialize (Hexp Hlive). lra.
  - destruct (tryEntry_cases rest k0 (tk_marketData tk) (tk_candles tk)
                (tk_aiDecision tk) (tk_decision tk) (tk_now tk)
                (tk_filled tk) b E0)
      as (_ & _ & _ & _ & Hothers & Hcases).
    destruct Hcases as [(Hno & [Ho | (_ & Hf & _)])
                       | (size & _ & _ & _ & _ & Hpos & Ho)].
    + apply (balanced_step b _ k0 Hb); [exact Hothers | |].
      * intros j _. rewrite Ho. reflexivity.
      * rewrite Hno, Ho. exact Hk0.
    + congruence.
    + rewrite Hlive in Ho.
      apply (balanced_step b _ k0 Hb); [exact Hothers | |].
      * intros j Hne. rewrite Ho. now apply exposure_snoc_other.
      * rewrite Hpos, Ho, exposure_snoc_same. simpl. lra.
Qed.

Lemma tick_paper config rest b tk :
  paperTrading rest = true ->
  orders (processTick config rest b tk) = orders b.
Proof.
  intros Hpaper. unfold processTick, processPair,
    PositionTracker.getPosition.
  set (k0 := tk_pair tk).
  destruct (PositionTracker.positions (positionTracker b) !! k0) as [p0|]
    eqn:E0.
  - destruct (monitor_cases config rest k0 (tk_marketData tk) (tk_advice tk)
                (tk_now tk) (tk_writeOk tk) b p0 E0) as (Hq & Hcases).
    set (b1 := withTracker _ b) in *.
    destruct Hcases as [(why & _ & -> & _) | (_ & Hkeep)].
    + destruct (close_effect rest k0 (currentPrice (tk_marketData tk)) why
                  (tk_now tk) (tk_writeOk tk) b1 _ Hq) as (_ & Horders).
      rewrite Horders, Hpaper. reflexivity.
    + destruct Hkeep as (_ & _ & _ & _ & _ & _ & K7 & _).
      rewrite (K7 Hpaper). reflexivity.
  - destruct (tryEntry_cases rest k0 (tk_marketData tk) (tk_candles tk)
                (tk_aiDecision tk) (tk_decision tk) (tk_now tk)
                (tk_filled tk) b E0)
      as (_ & _ & _ & _ & _ & Hcases).
    destruct Hcases as [(_ & [Ho | (Hl & _)]) | (size & _ & _ & _ & _ & _ & Ho)].
    + exact Ho.
    + congruence.
    + rewrite Ho, Hpaper. reflexivity.
Qed.

(** X24. In paper trading no order is ever sent.  In live trading, as
    long as the exchange takes the entry orders, the orders sent account
    for the ledger after any number of [processPair] calls: on every
    instrument, bought minus sold is the total volume of the tracked
    position, and 0 when there is none; what an exit sells is what the
    entry and the pyramid adds bought. *)
Theorem orders_account_for_the_ledger (config : Config) (rest : ConfigRest)
    (tks : list Tick) (b : Bot) :
  (paperTrading rest = true ->
   orders (processTicks config rest tks b) = orders b)
  /\ (paperTrading rest = false ->
      Forall (fun tk => tk_filled tk = true) tks ->
      balanced b ->
      balanced (processTicks config rest tks b)).
Proof.
  unfold processTicks. split.
  - intros Hpaper. revert b.
    induction tks as [|tk tks IH]; intros b; simpl; [reflexivity|].
    rewrite IH. now apply tick_paper.
  - intros Hlive Hall. revert b.
    induction Hall as [|tk tks Hf _ IH]; intros b Hb; simpl; [exact Hb|].
    apply IH. now apply tick_balanced.
Qed.

Lemma orders_account_for_the_ledger_witness :
  exposure "BTC/USD"
    (orders
       (processTicks Sample.cfg Sample2.live
          [Sample2.enter; Sample2.rise; Sample2.crash] Sample2.bot)) == 0.
Proof.
  destruct (orders_account_for_the_ledger Sample.cfg Sample2.live
              [Sample2.enter; Sample2.rise; Sample2.crash] Sample2.bot)
    as (_ & H).
  assert (Hb : balanced
                 (processTicks Sample.cfg Sample2.live
                    [Sample2.enter; Sample2.rise; Sample2.crash]
                    Sample2.bot)).
  { apply H.
    - reflexivity.
    - repeat constructor.
    - intros k. vm_compute. reflexivity. }
  rewrite (Hb "BTC/USD"). vm_compute. reflexivity.
Defined.

End Orchestration.
